(** * pdf_tools: the interactive PDF splitter ([src/pdf_splitter.py])

    A shallow embedding of the splitter and the proofs of its specified
    properties.

    - Python [int] is [Z]; [str] is [string]; a Python list is a [list].
    - The program talks to a terminal and to a file system.  Both live in a
      [World]: the lines still waiting on standard input, the file system,
      the heap of [OutputFile] objects (Python objects are shared by
      reference, and [OutputFile.pages] moves a cursor stored in the
      object), and a log of everything the program did to the outside, in
      order.
    - A computation is a function from a world to a result and a world.  A
      result is a value or a raised exception; what was done before the
      exception was raised stays done.
    - The character tables of the Python runtime ([str.isspace],
      [str.isalnum], [str.lower]) and the parser behind [int(...)] are not
      part of the repository: they are the methods of the class [PyStr], and
      every theorem holds for every instance.  [ascii_str] is the instance
      for plain ASCII text used in the worked examples.
    - The file system maps a path, as it is written, to what is found
      there; two paths that differ stand for different files.  Opening a
      file for writing fails as Linux makes it fail for the names and the
      directories involved: a component on the way that is missing or is
      no directory, a directory at the end, a name or a path that is too
      long, a zero byte.  Permissions, links and quotas are not modelled.
    - PyPDF3 is an external engine.  A page is an opaque value of a type
      [page]; a reader is anything with [getNumPages] and [getPage]; a
      writer is the list of pages added so far.
    - The repository repeats [class OutputFile] in
      [pdft_types/output_file.py] and [list_pdf_files] in
      [pdft_utils/files_management.py], with the same bodies.  The program
      runs the definitions of [pdf_splitter.py], and these are the ones
      embedded here. *)

From Stdlib Require Import ZArith Ascii String DecimalString.
From stdpp Require Import gmap strings list.
From Equations Require Import Equations.

Open Scope string_scope.
Open Scope list_scope.
Open Scope Z_scope.

(** ** Python strings *)

(** The methods of [str] and the [int] constructor that the program calls
    and that are implemented by the Python runtime. *)
Class PyStr := {
  isspace : ascii -> bool;            (* c.isspace() *)
  isalnum : ascii -> bool;            (* c.isalnum() *)
  lower : string -> string;           (* s.lower() *)
  int_of_str : string -> option Z;    (* int(s); None when it raises ValueError *)
}.

Definition newline : string := String "010" "".

(** [str(n)] for an integer. *)
Definition str_of_int (n : Z) : string := NilZero.string_of_int (Z.to_int n).

(** [any(p(c) for c in s)] *)
Fixpoint any_char (p : ascii -> bool) (s : string) : bool :=
  match s with
  | "" => false
  | String c s' => p c || any_char p s'
  end.

(** [c in s] for a single character [c]. *)
Definition char_in (c : ascii) (s : string) : bool :=
  any_char (Ascii.eqb c) s.

(** [s.startswith(p)] *)
Fixpoint startswith (s p : string) : bool :=
  match p, s with
  | "", _ => true
  | String c p', String d s' => Ascii.eqb c d && startswith s' p'
  | String _ _, "" => false
  end.

(** [s.endswith(p)] *)
Fixpoint endswith (s p : string) : bool :=
  String.eqb s p ||
  match s with
  | "" => false
  | String _ s' => endswith s' p
  end.

(** [s.lstrip()] and [s.rstrip()], for the table [space] of whitespace. *)
Fixpoint lstrip (space : ascii -> bool) (s : string) : string :=
  match s with
  | "" => ""
  | String c s' => if space c then lstrip space s' else s
  end.

Fixpoint rstrip (space : ascii -> bool) (s : string) : string :=
  match s with
  | "" => ""
  | String c s' =>
      match rstrip space s' with
      | "" => if space c then "" else String c ""
      | t => String c t
      end
  end.

(** [s.strip()] *)
Definition strip `{PyStr} (s : string) : string :=
  rstrip isspace (lstrip isspace s).

(** [os.path.join(a, b)] of [posixpath]. *)
Definition os_path_join (a b : string) : string :=
  if startswith b "/" then b
  else if String.eqb a "" || endswith a "/" then a +:+ b
  else a +:+ "/" +:+ b.

(** [l[i]] on a Python list: a negative index counts from the end. *)
Definition py_index {A} (l : list A) (i : Z) : option A :=
  if (0 <=? i) && (i <? Z.of_nat (length l)) then l !! Z.to_nat i
  else if (- Z.of_nat (length l) <=? i) && (i <? 0) then l !! Z.to_nat (Z.of_nat (length l) + i)
  else None.

(** ** Exceptions *)

Inductive exn_class :=
  | FileNotFoundError
  | NotADirectoryError
  | IsADirectoryError
  | OSError
  | EOFError
  | IndexError
  | ValueError
  | PdfReadError
  | SystemError
  | Exception.

(** A raised exception: its class and [str(e)]. *)
Record exn := Exn { exn_class_of : exn_class; exn_str : string }.

(** [isinstance(e, FileNotFoundError)] *)
Definition is_FileNotFoundError (e : exn) : bool :=
  match exn_class_of e with
  | FileNotFoundError => true
  | _ => false
  end.

(** [isinstance(e, IOError)]; [IOError] is [OSError] in Python 3. *)
Definition is_IOError (e : exn) : bool :=
  match exn_class_of e with
  | FileNotFoundError | NotADirectoryError | IsADirectoryError | OSError => true
  | _ => false
  end.

Inductive result (A : Type) :=
  | Ok (a : A)
  | Raise (e : exn).
Arguments Ok {A} a.
Arguments Raise {A} e.

Definition inspect {A} (a : A) : {b | a = b} := exist _ a eq_refl.

(** ** Computations

    A computation over a state [W]: it ends with a value or raises, and
    either way leaves a state. *)

Definition M (W A : Type) : Type := W -> result A * W.

Definition ret {W A} (a : A) : M W A := fun w => (Ok a, w).

Definition bind {W A B} (m : M W A) (k : A -> M W B) : M W B :=
  fun w =>
    match m w with
    | (Ok a, w') => k a w'
    | (Raise e, w') => (Raise e, w')
    end.

Definition raise {W A} (e : exn) : M W A := fun w => (Raise e, w).

(** [try: m  except ...: h(e)], where [h] has a clause for every
    exception; a clause that does not apply re-raises. *)
Definition try_except {W A} (m : M W A) (h : exn -> M W A) : M W A :=
  fun w =>
    match m w with
    | (Ok a, w') => (Ok a, w')
    | (Raise e, w') => h e w'
    end.

Notation "x <- m ;; k" := (bind m (fun x => k))
  (at level 100, m at next level, k at level 200, right associativity).
Notation "m ;; k" := (bind m (fun _ => k))
  (at level 100, k at level 200, right associativity).

(** ** The world *)

Section Splitter.
Context {page : Type} `{PyStr}.

(** What a file holds, as far as the PDF engine can tell: [Some doc] for
    a PDF document with the pages [doc], [None] for anything that is not
    a PDF (the empty file that [open(..., 'wb')] leaves, for one). *)
Definition content : Type := option (list page).

(** A path of the file system names a regular file, a directory with its
    direct entries, or a device that can be opened but answers every
    write with an error (as [/dev/full] does).  Paths are looked up as they
    are written.  Creating a file does not add it to the entries of a
    directory: the program lists a directory once, before it creates any
    file. *)
Inductive node :=
  | File (data : content)
  | Dir (entries : list string)
  | Dev (err : exn).

(** A file object, known by the path it was opened on. *)
Definition file_object : Type := string.

(** [class OutputFile] *)
Record OutputFile := {
  name : string;
  page_interval : Z * Z;
  current_page : Z;
  stream : file_object;
}.

(** A reference to an [OutputFile] object on the heap. *)
Definition ref : Type := nat.

(** What the program does to the outside, one entry per action. *)
Inductive event :=
  | Prompt (text : string)                (* input(text) shows text *)
  | Print (line : string)                 (* print(line) *)
  | Open (path : string) (mode : string)  (* open(path, mode) succeeded *)
  | GetPage (index : Z)                   (* reader.getPage(index) was called *)
  | Write (s : file_object) (doc : list page)  (* writer.write(s) succeeded *)
  | Close (s : file_object).                   (* s.close() *)

Record World := {
  stdin : list string;          (* lines not read yet, without their newline *)
  fs : gmap string node;        (* the file system, by path *)
  heap : list OutputFile;       (* the OutputFile objects, by reference *)
  log : list event;             (* oldest first *)
}.

Definition set_stdin (l : list string) (w : World) : World :=
  {| stdin := l; fs := fs w; heap := heap w; log := log w |}.
Definition set_fs (f : gmap string node) (w : World) : World :=
  {| stdin := stdin w; fs := f; heap := heap w; log := log w |}.
Definition set_heap (h : list OutputFile) (w : World) : World :=
  {| stdin := stdin w; fs := fs w; heap := h; log := log w |}.
Definition emit (evs : list event) (w : World) : World :=
  {| stdin := stdin w; fs := fs w; heap := heap w; log := log w ++ evs |}.

(** A computation of the program. *)
Definition IO (A : Type) : Type := M World A.

(** [print(line)] *)
Definition print (line : string) : IO unit :=
  fun w => (Ok tt, emit [Print line] w).

(** [input(prompt)]: shows the prompt, then reads one line; [EOFError]
    when standard input has no line left. *)
Definition input (prompt : string) : IO string :=
  fun w =>
    let w := emit [Prompt prompt] w in
    match stdin w with
    | [] => (Raise (Exn EOFError "EOF when reading a line"), w)
    | line :: rest => (Ok line, set_stdin rest w)
    end.

(** [os.path.exists(path)] *)
Definition os_path_exists (path : string) : IO bool :=
  fun w => (Ok (bool_decide (is_Some (fs w !! path))), w).

(** [os.listdir(path)] *)
Definition os_listdir (path : string) : IO (list string) :=
  fun w =>
    match fs w !! path with
    | Some (Dir entries) => (Ok entries, w)
    | Some _ => (Raise (Exn NotADirectoryError ("Not a directory: " +:+ path)), w)
    | None => (Raise (Exn FileNotFoundError ("No such file or directory: " +:+ path)), w)
    end.

(** The limits of Linux on the bytes of one component of a path and of a
    whole path, its final zero byte counted. *)
Definition NAME_MAX : nat := 255.
Definition PATH_MAX : nat := 4096.

Definition nul : ascii := "000"%char.

(** The exception for an error of the operating system on [path]. *)
Definition os_error (class : exn_class) (path : string) : exn :=
  Exn class
    ((match class with
      | FileNotFoundError => "No such file or directory: "
      | NotADirectoryError => "Not a directory: "
      | IsADirectoryError => "Is a directory: "
      | _ => "File name too long: "
      end) +:+ path).

(** The way to a path that is opened for writing, component by component
    as the kernel walks it.  [seen] is the part of the path before the
    component that is being read, [component] what was read of it, [rest]
    what follows.  At a slash the component that ends there has to be a
    directory; an empty component (a leading or a doubled slash) is passed
    over.  At the end the last component has to be something else than a
    directory.  The result is the class of the error, if there is one. *)
Fixpoint resolve (files : gmap string node) (seen component rest : string)
  : option exn_class :=
  match rest with
  | String c rest' =>
      if Ascii.eqb c "/" then
        if String.eqb component "" then resolve files (seen +:+ "/") "" rest'
        else if (NAME_MAX <? String.length component)%nat then Some OSError
        else
          match files !! (seen +:+ component) with
          | Some (Dir _) => resolve files (seen +:+ component +:+ "/") "" rest'
          | Some _ => Some NotADirectoryError
          | None => Some FileNotFoundError
          end
      else resolve files seen (component +:+ String c "") rest'
  | "" =>
      if String.eqb component "" then Some IsADirectoryError
      else if (NAME_MAX <? String.length component)%nat then Some OSError
      else
        match files !! (seen +:+ component) with
        | Some (Dir _) => Some IsADirectoryError
        | _ => None
        end
  end.

(** The exception that [open(path, 'wb')] raises, if it raises: Python
    refuses a zero byte before it asks the kernel; the kernel refuses the
    empty path and a path of [PATH_MAX] bytes or more, and then walks the
    path.  Permissions, links and quotas are not part of the picture. *)
Definition create_error (files : gmap string node) (path : string)
  : option exn :=
  if char_in nul path then Some (Exn ValueError "embedded null byte")
  else if String.eqb path "" then Some (os_error FileNotFoundError path)
  else if (PATH_MAX <=? String.length path)%nat then Some (os_error OSError path)
  else
    match resolve files "" "" path with
    | Some class => Some (os_error class path)
    | None => None
    end.

(** [open(path, 'wb')]: creates the file, or empties the one that is
    there; a device stays as it is.  When the path cannot be opened
    nothing is changed. *)
Definition open_wb (path : string) : IO file_object :=
  fun w =>
    match create_error (fs w) path with
    | Some e => (Raise e, w)
    | None =>
        match fs w !! path with
        | Some (Dev _) => (Ok path, emit [Open path "wb"] w)
        | _ => (Ok path, emit [Open path "wb"] (set_fs (<[path := File None]> (fs w)) w))
        end
    end.

(** [open(path, 'rb')] *)
Definition open_rb (path : string) : IO file_object :=
  fun w =>
    match fs w !! path with
    | Some (Dir _) => (Raise (Exn IsADirectoryError ("Is a directory: " +:+ path)), w)
    | Some _ => (Ok path, emit [Open path "rb"] w)
    | None => (Raise (Exn FileNotFoundError ("No such file or directory: " +:+ path)), w)
    end.

(** [s.close()] *)
Definition close (s : file_object) : IO unit :=
  fun w => (Ok tt, emit [Close s] w).

(** ** [get_int] *)

(** The loop of [get_int] ends by returning or by [input] raising
    [EOFError]; every other turn has taken one line off standard input. *)
Equations? get_int (prompt error_msg : string) (min_ max_ : Z) (w : World)
  : result Z * World by wf (length (stdin w)) lt :=
get_int prompt error_msg min_ max_ w with inspect (input prompt w) := {
  | exist _ (Raise e, w1) _ => (Raise e, w1);
  | exist _ (Ok line, w1) Hin with int_of_str line := {
      | Some x with (min_ <=? x) && (x <=? max_) := {
          | true => (Ok x, w1);
          | false => get_int prompt error_msg min_ max_ (snd (print error_msg w1)) };
      | None => get_int prompt error_msg min_ max_ (snd (print "Please enter a number." w1)) } }.
Proof.
  all: unfold input in Hin; simpl in Hin;
    destruct (stdin w); inversion Hin; subst; simpl; lia.
Qed.

(** ** [get_file_name] *)

(** Windows and Unix forbidden characters: < > : / \ | ? * and the
    double quote, which is character 034. *)
Definition forbidden_chars : string := "<>:" +:+ String "034" "/\|?*".

(** The [if]/[elif] chain of [get_file_name]: prints the message of the
    first check that fails; the value is what the chain leaves in the
    local variable [done]. *)
Definition check_file_name (allow_hidden : bool) (name : string) : IO bool :=
  if String.eqb name "" then
    print "File name cannot be empty." ;; ret false
  else if any_char (fun char => char_in char forbidden_chars) name then
    print ("File name cannot contain any of these characters: " +:+ forbidden_chars) ;;
    ret false
  else if negb allow_hidden && startswith name "." then
    print "File name cannot start with a dot." ;; ret false
  else if (255 <? String.length name)%nat then
    print "File name is too long. Maximum length is 255 characters." ;; ret false
  else if negb (any_char isalnum name) then
    print "File name must contain at least one letter or number." ;; ret false
  else
    ret true.

(** One turn of the [while not done] loop, up to its last statement:
    the name read and the value of [done]. *)
Definition get_file_name_turn (prompt : string) (allow_hidden : bool)
  : IO (string * bool) :=
  line <- input prompt ;;
  let name := strip line in
  done <- check_file_name allow_hidden name ;;
  ret (name, done).

(** [get_file_name]: the last statement of the loop body is
    [return name], so the first turn is the only one. *)
Definition get_file_name (prompt error_msg : string) (allow_hidden : bool)
  : IO string :=
  turn <- get_file_name_turn prompt allow_hidden ;;
  ret (fst turn).

(** ** [class OutputFile] *)

(** [OutputFile(...)] puts a new object on the heap. *)
Definition alloc (o : OutputFile) : IO ref :=
  fun w => (Ok (length (heap w)), set_heap (heap w ++ [o]) w).

(** Reading an object through a reference.  Every reference the program
    holds comes from [alloc]; for any other the model raises. *)
Definition deref (r : ref) : IO OutputFile :=
  fun w =>
    match heap w !! r with
    | Some o => (Ok o, w)
    | None => (Raise (Exn SystemError "no such object"), w)
    end.

Definition store (r : ref) (o : OutputFile) : IO unit :=
  fun w => (Ok tt, set_heap (<[r := o]> (heap w)) w).

(** [OutputFile.__init__] *)
Definition OutputFile_init (path name_ : string) (page_interval_ : Z * Z)
  : IO ref :=
  s <- open_wb (os_path_join path name_) ;;
  alloc {| name := name_;
           page_interval := page_interval_;
           current_page := page_interval_.1;
           stream := s |}.

(** [OutputFile.__str__] *)
Definition OutputFile_str (self : OutputFile) : string :=
  name self +:+ " (" +:+ str_of_int (page_interval self).1 +:+ "-"
    +:+ str_of_int (page_interval self).2 +:+ ")".

(** Where a generator made by [self.pages()] stands: not started, stopped
    at its [yield], or finished. *)
Inductive gen_state := GenCreated | GenSuspended | GenClosed.

Definition advance (self : OutputFile) : OutputFile :=
  {| name := name self;
     page_interval := page_interval self;
     current_page := current_page self + 1;
     stream := stream self |}.

(** The loop test of [pages], then the [yield] or the end. *)
Definition pages_test (self : OutputFile) : option Z * gen_state * OutputFile :=
  if current_page self <=? (page_interval self).2
  then (Some (current_page self), GenSuspended, self)
  else (None, GenClosed, self).

(** [next(g)] for a generator [g] of [self.pages()]: the page yielded
    ([None] for [StopIteration]), the generator afterwards and the object
    afterwards.  A generator stopped at its [yield] first runs
    [self.current_page += 1]. *)
Definition pages_next (g : gen_state) (self : OutputFile)
  : option Z * gen_state * OutputFile :=
  match g with
  | GenCreated => pages_test self
  | GenSuspended => pages_test (advance self)
  | GenClosed => (None, GenClosed, self)
  end.

(** A bound on the turns a [for] loop over the generator still takes. *)
Definition pages_left (g : gen_state) (self : OutputFile) : nat :=
  match g with
  | GenCreated => S (Z.to_nat ((page_interval self).2 - current_page self))
  | GenSuspended => Z.to_nat ((page_interval self).2 - current_page self)
  | GenClosed => 0
  end.

(** [for page_number in g: body(page_number)] for a generator [g] of
    [self.pages()] and a body that works on local state [S] and may
    raise.  A body that raises leaves the generator at its [yield]. *)
Equations? for_pages {S : Type} (body : Z -> S -> result unit * S)
  (g : gen_state) (self : OutputFile) (s : S)
  : result unit * S * OutputFile by wf (pages_left g self) lt :=
for_pages body g self s with inspect (pages_next g self) := {
  | exist _ (None, _, self') _ => (Ok tt, s, self');
  | exist _ (Some page_number, g', self') Hnext with body page_number s := {
      | (Ok _, s') => for_pages body g' self' s';
      | (Raise e, s') => (Raise e, s', self') } }.
Proof.
  destruct g; unfold pages_next, pages_test in Hnext; simpl in *.
  - destruct (current_page self <=? (page_interval self).2) eqn:E;
      inversion Hnext; subst; simpl; lia.
  - destruct (current_page self + 1 <=? (page_interval self).2) eqn:E;
      inversion Hnext; subst; simpl; lia.
  - inversion Hnext.
Qed.

(** [list(output.pages())] for the object behind [output]. *)
Definition list_pages (output : ref) : IO (list Z) :=
  self <- deref output ;;
  let '(_, pages, self') :=
    for_pages (fun page_number pages => (Ok tt, pages ++ [page_number]))
      GenCreated self [] in
  store output self' ;;
  ret pages.

(** ** The PDF engine *)

(** What the program asks of a [PdfFileReader]. *)
Record PdfFileReader := {
  getNumPages : Z;
  getPage : Z -> result page;
}.

(** The reader of a document with the pages [doc]: [getPage] indexes the
    list of its pages. *)
Definition reader_of (doc : list page) : PdfFileReader :=
  {| getNumPages := Z.of_nat (length doc);
     getPage := fun pageNumber =>
       match py_index doc pageNumber with
       | Some p => Ok p
       | None => Raise (Exn IndexError "list index out of range")
       end |}.

(** [PdfFileReader(input)] *)
Definition PdfFileReader_init (input_ : file_object) : IO PdfFileReader :=
  fun w =>
    match fs w !! input_ with
    | Some (File (Some doc)) => (Ok (reader_of doc), w)
    | _ => (Raise (Exn PdfReadError "EOF marker not found"), w)
    end.

(** A [PdfFileWriter] is the pages added so far; [PdfFileWriter()] has
    none. *)
Definition PdfFileWriter : Type := list page.
Definition PdfFileWriter_new : PdfFileWriter := [].
Definition addPage (writer : PdfFileWriter) (p : page) : PdfFileWriter :=
  writer ++ [p].

(** [writer.write(s)] *)
Definition PdfFileWriter_write (writer : PdfFileWriter) (s : file_object)
  : IO unit :=
  fun w =>
    match fs w !! s with
    | Some (Dev err) => (Raise err, w)
    | _ => (Ok tt, emit [Write s writer]
                     (set_fs (<[s := File (Some writer)]> (fs w)) w))
    end.

(** ** The program *)

Definition PROMPT_STR : string := "> ".

(** [for x in l: body(x)] *)
Fixpoint for_each {A} (l : list A) (body : A -> IO unit) : IO unit :=
  match l with
  | [] => ret tt
  | x :: l' => body x ;; for_each l' body
  end.

(** [enumerate(l)], counting from [i]. *)
Fixpoint enumerate_from {A} (i : Z) (l : list A) : list (Z * A) :=
  match l with
  | [] => []
  | x :: l' => (i, x) :: enumerate_from (i + 1) l'
  end.

(** [range(n)] *)
Definition range (n : Z) : list Z :=
  map Z.of_nat (seq 0 (Z.to_nat n)).

(** [intro] *)
Definition intro : IO string :=
  print "PDF File Splitter" ;;
  print ("Enter the path to the directory containing the PDF files you want to split,"
           +:+ newline +:+ "or press enter to use the current directory.") ;;
  path <- input PROMPT_STR ;;
  ret (if String.eqb path "" then "." else path).

(** [list_pdf_files]; [None] is Python's [None]. *)
Definition list_pdf_files (directory_path : string) : IO (option (list string)) :=
  found <- os_path_exists directory_path ;;
  if negb found then ret None
  else
    files <- os_listdir directory_path ;;
    ret (Some (fold_left
                 (fun pdf_files file =>
                    if endswith (lower file) ".pdf"
                    then pdf_files ++ [file]
                    else pdf_files)
                 files [])).

(** [select_file] *)
Definition select_file (files : list string) : IO string :=
  print (newline +:+ "Select a file to split:") ;;
  for_each (enumerate_from 0 files)
    (fun '(i, file) => print (str_of_int (i + 1) +:+ ". " +:+ file)) ;;
  selection <- get_int PROMPT_STR
                 ("Please enter a number between 1 and "
                    +:+ str_of_int (Z.of_nat (length files)))
                 1 (Z.of_nat (length files)) ;;
  match py_index files (selection - 1) with
  | Some file => ret file
  | None => raise (Exn IndexError "list index out of range")
  end.

(** The body of the loop of [get_output_files], for the targets numbered
    [indices], appending to [targets]. *)
Fixpoint get_output_files_loop (path : string) (page_count : Z)
  (indices : list Z) (targets : list ref) : IO (list ref) :=
  match indices with
  | [] => ret targets
  | i :: indices' =>
      print "--------------------------------" ;;
      print ("Output file " +:+ str_of_int (i + 1) +:+ ":") ;;
      name_ <- get_file_name (PROMPT_STR +:+ "File name: ") "Invalid file name" false ;;
      start <- get_int (PROMPT_STR +:+ "First page: ") "Invalid page number" 1 page_count ;;
      end_ <- get_int (PROMPT_STR +:+ "Last page: ") "Invalid page number" start page_count ;;
      output <- OutputFile_init path (name_ +:+ ".pdf") (start, end_) ;;
      get_output_files_loop path page_count indices' (targets ++ [output])
  end.

(** [get_output_files] *)
Definition get_output_files (path : string) (page_count : Z) : IO (list ref) :=
  print (newline +:+ "How many output files do you want to create?") ;;
  target_count <- get_int PROMPT_STR "Please enter a number between 1 and 100" 1 100 ;;
  get_output_files_loop path page_count (range target_count) [].

(** The body of the inner loop of [generate_output_files]:
    [writer.addPage(reader.getPage(page_number - 1))].  The local state is
    the writer and the calls made to the reader. *)
Definition copy_page (reader : PdfFileReader) (page_number : Z)
  (s : PdfFileWriter * list event) : result unit * (PdfFileWriter * list event) :=
  let calls := s.2 ++ [GetPage (page_number - 1)] in
  match getPage reader (page_number - 1) with
  | Ok p => (Ok tt, (addPage s.1 p, calls))
  | Raise e => (Raise e, (s.1, calls))
  end.

(** The body of the outer loop of [generate_output_files], for one
    output. *)
Definition generate_output_file (reader : PdfFileReader) (output : ref)
  (generated_callback : ref -> IO unit) : IO unit :=
  self <- deref output ;;
  let '(copied, (writer, calls), self') :=
    for_pages (copy_page reader) GenCreated self (PdfFileWriter_new, []) in
  store output self' ;;
  (fun w => (Ok tt, emit calls w)) ;;
  match copied with
  | Raise e => raise e
  | Ok _ =>
      PdfFileWriter_write writer (stream self') ;;
      generated_callback output
  end.

(** [generate_output_files] *)
Fixpoint generate_output_files (reader : PdfFileReader) (output_files : list ref)
  (generated_callback : ref -> IO unit) : IO unit :=
  match output_files with
  | [] => ret tt
  | output :: output_files' =>
      generate_output_file reader output generated_callback ;;
      generate_output_files reader output_files' generated_callback
  end.

(** [lambda file: print(f'Generated: {file}')] *)
Definition print_generated (file : ref) : IO unit :=
  self <- deref file ;;
  print ("Generated: " +:+ OutputFile_str self).

(** The [except] clauses after the generation in [main]. *)
Definition report_generation_error (selected_file : string) (e : exn) : IO unit :=
  if is_FileNotFoundError e then print ("File not found: " +:+ selected_file)
  else if is_IOError e then print ("Error reading file: " +:+ selected_file)
  else print ("An unexpected error occurred: " +:+ exn_str e).

(** The [try] statement around the generation in [main]. *)
Definition generate_and_report (selected_file : string) (reader : PdfFileReader)
  (output_files : list ref) : IO unit :=
  try_except
    (generate_output_files reader output_files print_generated)
    (report_generation_error selected_file).

(** [main] *)
Definition main : IO unit :=
  path <- intro ;;
  files <- list_pdf_files path ;;
  match files with
  | None => print ("Directory '" +:+ path +:+ "' does not exist.")
  | Some files =>
      if (length files =? 0)%nat then print "No PDF files found in the directory."
      else
        selected_file <- select_file files ;;
        opened <- try_except
                    (input_ <- open_rb (os_path_join path selected_file) ;;
                     ret (Some input_))
                    (fun e =>
                       if is_FileNotFoundError e then
                         print ("File not found: " +:+ selected_file) ;; ret None
                       else if is_IOError e then
                         print ("Error reading file: " +:+ selected_file) ;; ret None
                       else raise e) ;;
        match opened with
        | None => ret tt
        | Some input_ =>
            reader <- PdfFileReader_init input_ ;;
            let page_count := getNumPages reader in
            print ("Selected file: " +:+ selected_file +:+ " ("
                     +:+ str_of_int page_count +:+ " pages)") ;;
            output_files <- get_output_files path page_count ;;
            print (newline +:+ "Generating output files...") ;;
            generate_and_report selected_file reader output_files ;;
            close input_
        end
  end.

End Splitter.

(** ** Python on ASCII text

    The instance of [PyStr] for strings of ASCII characters, and pages
    named by numbers, for the worked examples. *)

Definition between (lo hi : N) (c : ascii) : bool :=
  ((lo <=? N_of_ascii c) && (N_of_ascii c <=? hi))%N.

(** Tab, line feed, vertical tab, form feed, carriage return, the four
    separators 28 to 31 and the space. *)
Definition ascii_isspace (c : ascii) : bool :=
  between 9 13 c || between 28 32 c.

Definition ascii_isdigit (c : ascii) : bool := between 48 57 c.

Definition ascii_isalnum (c : ascii) : bool :=
  ascii_isdigit c || between 65 90 c || between 97 122 c.

Definition ascii_lower (s : string) : string :=
  string_of_list_ascii
    (map (fun c => if between 65 90 c then ascii_of_N (N_of_ascii c + 32) else c)
       (list_ascii_of_string s)).

(** Decimal digits, with single underscores allowed between digits. *)
Fixpoint parse_digits (s : string) (acc : Z) (after_digit : bool) : option Z :=
  match s with
  | "" => if after_digit then Some acc else None
  | String c s' =>
      if ascii_isdigit c then
        parse_digits s' (10 * acc + Z.of_N (N_of_ascii c - 48)) true
      else if Ascii.eqb c "_" && after_digit then
        match s' with
        | "" => None
        | _ => parse_digits s' acc false
        end
      else None
  end.

Definition ascii_int (s : string) : option Z :=
  match rstrip ascii_isspace (lstrip ascii_isspace s) with
  | String "+" digits => parse_digits digits 0 false
  | String "-" digits => Z.opp <$> parse_digits digits 0 false
  | digits => parse_digits digits 0 false
  end.

Definition ascii_str : PyStr := {|
  isspace := ascii_isspace;
  isalnum := ascii_isalnum;
  lower := ascii_lower;
  int_of_str := ascii_int;
|}.

(** The world at the start of a run: [lines] wait on standard input, the
    file system is [files]. *)
Definition world_of (lines : list string) (files : gmap string (@node nat))
  : @World nat :=
  {| stdin := lines; fs := files; heap := []; log := [] |}.

(** ** Worlds for the worked examples *)

(** A file system with a directory [d], the PDF [d/a.PDF] of three pages,
    a regular file [notes.txt], and a full device [d/full.pdf]. *)
Definition example_fs : gmap string (@node nat) :=
  <["d" := Dir ["a.PDF"; "b.txt"; "c.pdf"]]>
    (<["d/a.PDF" := File (Some [10; 20; 30]%nat)]>
       (<["notes.txt" := File None]>
          (<["d/full.pdf" := Dev (Exn OSError "No space left on device")]> ∅))).

(** Three planned outputs over a source of three pages; the second one
    writes to the full device. *)
Definition example_heap : list OutputFile :=
  [ {| name := "x.pdf"; page_interval := (1, 2); current_page := 1;
       stream := "d/x.pdf" |};
    {| name := "full.pdf"; page_interval := (2, 3); current_page := 2;
       stream := "d/full.pdf" |};
    {| name := "y.pdf"; page_interval := (3, 3); current_page := 3;
       stream := "d/y.pdf" |} ].

Definition example_world : @World nat :=
  {| stdin := []; fs := example_fs; heap := example_heap; log := [] |}.

(** The world after the first planned output has been generated, and the
    world after the second one has failed on the full device. *)
Definition example_world1 : @World nat :=
  snd (generate_output_files (reader_of [10; 20; 30]%nat) [0%nat]
         print_generated example_world).

Definition example_world2 : @World nat :=
  snd (generate_output_file (reader_of [10; 20; 30]%nat) 1%nat
         print_generated example_world1).

(** A plan of one output for the whole source. *)
Definition whole_world : @World nat :=
  {| stdin := []; fs := example_fs;
     heap := [ {| name := "all.pdf"; page_interval := (1, 3);
                  current_page := 1; stream := "d/all.pdf" |} ];
     log := [] |}.

(** Standard input for one output: a name of spaces only, then a first page
    entered at the second try and a last page. *)
Definition collecting_world : @World nat :=
  world_of ["   "; "0"; "2"; "3"; "later"] example_fs.

(** Standard input for one output whose name is refused for its slash
    and names a file in a directory [d/bad] that does not exist. *)
Definition refused_world : @World nat :=
  world_of ["bad/name"; "1"; "2"; "later"] example_fs.

(** A whole session: directory [d], file 1, two outputs, [x] for pages 1
    to 2 and [full] for pages 2 to 3, the second one on the full device. *)
Definition session_world : @World nat :=
  world_of ["d"; "1"; "2"; "x"; "1"; "2"; "full"; "five"; "2"; "3"] example_fs.

(** A directory without PDF files. *)
Definition plain_fs : gmap string (@node nat) :=
  <["docs" := Dir ["a.txt"; "pdf"]]> ∅.

(** The example file system with a text file under the name [d/c.pdf]. *)
Definition mislabelled_fs : gmap string (@node nat) :=
  <["d/c.pdf" := File None]> example_fs.

(** A reader of three pages whose second page cannot be read. *)
Definition damaged_reader : @PdfFileReader nat :=
  {| getNumPages := 3;
     getPage := fun index =>
       if index =? 1 then Raise (Exn PdfReadError "Could not read page")
       else getPage (reader_of [10; 20; 30]%nat) index |}.

(** Standard input for a plan of two outputs, [x] for pages 1 to 2 and [y]
    for page 3, with the count and one last page entered at the second
    try. *)
Definition planning_world : @World nat :=
  world_of ["0"; "2"; " x "; "1"; "9"; "2"; "y"; "3"; "3"; "later"] example_fs.

(** The same plan typed in a whole session on [d/a.PDF]. *)
Definition splitting_world : @World nat :=
  world_of ["d"; "1"; "0"; "2"; " x "; "1"; "9"; "2"; "y"; "3"; "3"; "later"]
    example_fs.

(** The example file system with a directory under the name
    [d/sub.pdf], and a plan whose second output goes there. *)
Definition nested_fs : gmap string (@node nat) :=
  <["d/sub.pdf" := Dir []]> example_fs.

Definition blocked_world : @World nat :=
  world_of ["2"; "x"; "1"; "2"; "sub"; "1"; "1"; "later"] nested_fs.

(** * Properties *)

Section Properties.
Context {page : Type} `{PyStr}.

Abbreviation World := (@World page).
Abbreviation event := (@event page).
Abbreviation node := (@node page).
Abbreviation IO := (@IO page).
Abbreviation PdfFileReader := (@PdfFileReader page).

(** ** The vocabulary of the statements *)

(** The characters of a string. *)
Definition chars (s : string) : list ascii := list_ascii_of_string s.

(** The string holds whitespace only. *)
Definition blank (s : string) : Prop :=
  Forall (fun c => isspace c = true) (chars s).

(** [name_] is [line] without the whitespace around it: [line] is
    [name_] between two runs of whitespace, and [name_] neither starts
    nor ends with a whitespace character. *)
Definition trimmed (line name_ : string) : Prop :=
  (exists before after,
      line = before +:+ name_ +:+ after /\ blank before /\ blank after) /\
  (forall c rest, name_ = String c rest -> isspace c = false) /\
  (forall front c, name_ = front +:+ String c "" -> isspace c = false).

(** The nine forbidden characters, one by one. *)
Definition forbidden : list ascii :=
  ["<"; ">"; ":"; "034"; "/"; "\"; "|"; "?"; "*"]%char.

(** The name holds one of the forbidden characters. *)
Definition has_forbidden (name_ : string) : Prop :=
  exists c, In c (chars name_) /\ In c forbidden.

(** The name starts with a dot, as the hidden files of Linux do. *)
Definition starts_with_dot (name_ : string) : Prop :=
  exists rest, name_ = String "." rest.

(** The name holds a letter or a digit. *)
Definition has_alnum (name_ : string) : Prop :=
  exists c, In c (chars name_) /\ isalnum c = true.

(** The names the specification calls valid. *)
Definition acceptable (allow_hidden : bool) (name_ : string) : Prop :=
  name_ <> "" /\
  ~ has_forbidden name_ /\
  (allow_hidden = false -> ~ starts_with_dot name_) /\
  (String.length name_ <= 255)%nat /\
  has_alnum name_.

(** The outcome of validating [name_]: the accept flag and what is
    printed.  Each rule applies only when the rules before it do not. *)
Inductive verdict (allow_hidden : bool) (name_ : string)
  : bool -> list event -> Prop :=
  | verdict_empty :
      name_ = "" ->
      verdict allow_hidden name_ false [Print "File name cannot be empty."]
  | verdict_forbidden :
      name_ <> "" -> has_forbidden name_ ->
      verdict allow_hidden name_ false
        [Print ("File name cannot contain any of these characters: "
                  +:+ string_of_list_ascii forbidden)]
  | verdict_hidden :
      name_ <> "" -> ~ has_forbidden name_ ->
      allow_hidden = false -> starts_with_dot name_ ->
      verdict allow_hidden name_ false [Print "File name cannot start with a dot."]
  | verdict_long :
      name_ <> "" -> ~ has_forbidden name_ ->
      (allow_hidden = false -> ~ starts_with_dot name_) ->
      (255 < String.length name_)%nat ->
      verdict allow_hidden name_ false
        [Print "File name is too long. Maximum length is 255 characters."]
  | verdict_no_alnum :
      name_ <> "" -> ~ has_forbidden name_ ->
      (allow_hidden = false -> ~ starts_with_dot name_) ->
      (String.length name_ <= 255)%nat ->
      ~ has_alnum name_ ->
      verdict allow_hidden name_ false
        [Print "File name must contain at least one letter or number."]
  | verdict_accept :
      acceptable allow_hidden name_ ->
      verdict allow_hidden name_ true [].

(** A line that [get_int] does not return on: it is not a number, or the
    number is outside the bounds. *)
Definition rejected (min_ max_ : Z) (line : string) : Prop :=
  forall x, int_of_str line = Some x -> ~ (min_ <= x <= max_).

(** What [get_int] shows for a rejected line: the prompt it was read at,
    then the fixed message for a line that is not a number and
    [error_msg] for a number outside the bounds. *)
Definition retry (prompt error_msg : string) (line : string) : list event :=
  [Prompt prompt;
   Print (match int_of_str line with
          | None => "Please enter a number."
          | Some _ => error_msg
          end)].

(** The object [self] with its cursor at [c]. *)
Definition at_page (self : OutputFile) (c : Z) : OutputFile :=
  {| name := name self;
     page_interval := page_interval self;
     current_page := c;
     stream := stream self |}.

(** The pages of the interval of [self], in ascending order. *)
Definition interval_pages (self : OutputFile) : list Z :=
  seqZ (page_interval self).1 ((page_interval self).2 - (page_interval self).1 + 1).

(** A loop body run over a list of pages, up to the first page it raises
    on: the outcome, the local state, and the page it raised on. *)
Fixpoint run_pages {S : Type} (body : Z -> S -> result unit * S)
  (pages : list Z) (s : S) : result unit * S * option Z :=
  match pages with
  | [] => (Ok tt, s, None)
  | page_number :: pages' =>
      match body page_number s with
      | (Ok _, s') => run_pages body pages' s'
      | (Raise e, s') => (Raise e, s', Some page_number)
      end
  end.

(** The object after its pages have been iterated to the end. *)
Definition exhausted (self : OutputFile) : OutputFile :=
  at_page self (Z.max (current_page self) ((page_interval self).2 + 1)).

(** The reader gives the pages [doc] for the interval of [self]: page
    number [n], counted from 1, is read at index [n - 1]. *)
Definition readable (reader : PdfFileReader) (self : OutputFile)
  (doc : list page) : Prop :=
  Forall2 (fun page_number p => getPage reader (page_number - 1) = Ok p)
    (interval_pages self) doc.

(** A callback that reads the object it is given and prints. *)
Definition logs_only (generated_callback : ref -> IO unit)
  (said : OutputFile -> list event) : Prop :=
  forall output self w,
    heap w !! output = Some self ->
    generated_callback output w = (Ok tt, emit (said self) w).

(** What generating one output shows: the reads of its pages in
    ascending order, the write of the document, then the callback. *)
Definition output_events (said : OutputFile -> list event)
  (self : OutputFile) (doc : list page) : list event :=
  map (fun page_number => GetPage (page_number - 1)) (interval_pages self)
    ++ [Write (stream self) doc] ++ said (exhausted self).

(** The event is a call to the reader. *)
Definition is_GetPage (ev : event) : Prop := exists index, ev = GetPage index.

(** Every planned output behind the references [plan] has its cursor at 1
    or later and its interval ending at [page_count] or before. *)
Definition within (page_count : Z) (plan : list ref) (h : list OutputFile)
  : Prop :=
  forall output self,
    In output plan -> h !! output = Some self ->
    1 <= current_page self /\ (page_interval self).2 <= page_count.

(** An [OutputFile] as [get_output_files] builds it for a source of
    [page_count] pages. *)
Definition planned (page_count : Z) (self : OutputFile) : Prop :=
  1 <= (page_interval self).1 <= (page_interval self).2 /\
  (page_interval self).2 <= page_count /\
  current_page self = (page_interval self).1.

(** The menu of [select_file]: one line for each file, numbered from 1. *)
Definition menu (files : list string) : list event :=
  imap (fun i file => Print (str_of_int (Z.of_nat i + 1) +:+ ". " +:+ file)) files.

(** An [OutputFile] as [get_output_files] builds it in the directory
    [path]: within the bounds, not yet iterated, named with the suffix
    [.pdf], and streaming to the file of that name in the directory. *)
Definition built (path : string) (page_count : Z) (self : OutputFile) : Prop :=
  planned page_count self /\
  (exists typed, name self = typed +:+ ".pdf") /\
  stream self = os_path_join path (name self).

(** What is typed at a prompt of [get_int]: lines that are rejected, then
    the line that is taken. *)
Record answer := {
  skipped : list string;
  typed : string;
}.

Definition answer_lines (a : answer) : list string := skipped a ++ [typed a].

(** The answer [a] makes [get_int] return [x] for the bounds given. *)
Definition answers (min_ max_ : Z) (a : answer) (x : Z) : Prop :=
  Forall (rejected min_ max_) (skipped a) /\
  int_of_str (typed a) = Some x /\
  min_ <= x <= max_.

(** What is typed for one output: the line for the name, the answer for
    the first page and the answer for the last page. *)
Record target := {
  name_line : string;
  first_page : answer;
  start_page : Z;
  last_page : answer;
  end_page : Z;
}.

Definition target_lines (t : target) : list string :=
  name_line t :: answer_lines (first_page t) ++ answer_lines (last_page t).

(** The pages typed for [t] are taken for a source of [page_count]
    pages. *)
Definition well_typed (page_count : Z) (t : target) : Prop :=
  answers 1 page_count (first_page t) (start_page t) /\
  answers (start_page t) page_count (last_page t) (end_page t).

(** The file that the output typed as [t] goes to. *)
Definition destination (path : string) (t : target) : string :=
  os_path_join path (strip (name_line t) +:+ ".pdf").

(** The object that [get_output_files] builds for [t]. *)
Definition target_object (path : string) (t : target) : OutputFile :=
  {| name := strip (name_line t) +:+ ".pdf";
     page_interval := (start_page t, end_page t);
     current_page := start_page t;
     stream := destination path t |}.

(** A plain component of a path: not empty, without a slash and without a
    zero byte, and of [NAME_MAX] bytes at most. *)
Definition plain (c : string) : Prop :=
  c <> "" /\ ~ In "/"%char (chars c) /\ ~ In nul (chars c) /\
  (String.length c <= NAME_MAX)%nat.

(** The file system has every directory on the way that [dir] spells, so
    that a file can be looked up in [dir].  [dir] is empty, for the
    current directory, or ends with a slash; each component before a slash
    is plain and names a directory, and a slash may be doubled. *)
Inductive reaches (files : gmap string node) : string -> Prop :=
  | reaches_start : reaches files ""
  | reaches_slash dir : reaches files dir -> reaches files (dir +:+ "/")
  | reaches_dir dir c entries :
      reaches files dir -> plain c ->
      files !! (dir +:+ c) = Some (Dir entries) ->
      reaches files (dir +:+ c +:+ "/").

(** A file called [name_] can be created in the directory [path], or
    emptied there: the directory can be reached, the name is plain, the
    whole path is shorter than [PATH_MAX], and what the path names, if
    anything, is a regular file. *)
Definition can_create (files : gmap string node) (path name_ : string) : Prop :=
  reaches files (os_path_join path "") /\
  plain name_ /\
  (String.length (os_path_join path name_) < PATH_MAX)%nat /\
  (files !! os_path_join path name_ = None \/
   exists data, files !! os_path_join path name_ = Some (File data)).

(** The file system after the files at [paths] were created or emptied. *)
Definition created (files : gmap string node) (paths : list string)
  : gmap string node :=
  foldl (fun files path => <[path := File None]> files) files paths.

(** Pages [start] to [end_] of a document, counted from 1. *)
Definition slice (doc : list page) (start end_ : Z) : list page :=
  take (Z.to_nat (end_ - start + 1)) (drop (Z.to_nat (start - 1)) doc).

(** The file system after the documents [docs] were written to the
    streams of [outputs], one after the other. *)
Definition written (files : gmap string node)
  (outputs : list OutputFile) (docs : list (list page)) : gmap string node :=
  foldl (fun files '(self, doc) => <[stream self := File (Some doc)]> files)
    files (zip outputs docs).

(** What [intro] prints before its prompt. *)
Definition banner : list event :=
  [Print "PDF File Splitter";
   Print ("Enter the path to the directory containing the PDF files you want to split,"
            +:+ newline +:+ "or press enter to use the current directory.")].

(** The directory for the line typed at [intro]. *)
Definition typed_path (line : string) : string :=
  if String.eqb line "" then "." else line.

(** The entries of a listing that [list_pdf_files] keeps. *)
Definition pdf_entries (entries : list string) : list string :=
  List.filter (fun file => endswith (lower file) ".pdf") entries.

(** What [select_file] shows for the answer [choice]. *)
Definition selection_log (files : list string) (choice : answer) : list event :=
  [Print (newline +:+ "Select a file to split:")]
    ++ menu files
    ++ flat_map
         (retry "> " ("Please enter a number between 1 and "
                        +:+ str_of_int (Z.of_nat (length files))))
         (skipped choice)
    ++ [Prompt "> "].

(** The part of [main] that follows the selection of the source (see
    [main_selected]). *)
Definition after_selection (path selected_file : string) : IO unit :=
  opened <- try_except
              (input_ <- open_rb (os_path_join path selected_file) ;;
               ret (Some input_))
              (fun e =>
                 if is_FileNotFoundError e then
                   print ("File not found: " +:+ selected_file) ;; ret None
                 else if is_IOError e then
                   print ("Error reading file: " +:+ selected_file) ;; ret None
                 else raise e) ;;
  match opened with
  | None => ret tt
  | Some input_ =>
      reader <- PdfFileReader_init input_ ;;
      let page_count := getNumPages reader in
      print ("Selected file: " +:+ selected_file +:+ " ("
               +:+ str_of_int page_count +:+ " pages)") ;;
      output_files <- get_output_files path page_count ;;
      print (newline +:+ "Generating output files...") ;;
      generate_and_report selected_file reader output_files ;;
      close input_
  end.

(** ** Strings *)

Lemma append_cons (c : ascii) (a b : string) :
  String c a +:+ b = String c (a +:+ b).
Proof. reflexivity. Qed.

Lemma append_nil_r (s : string) : s +:+ "" = s.
Proof. induction s as [|c s IH]; [done|]. by rewrite append_cons, IH. Qed.

Lemma append_assoc (a b c : string) : (a +:+ b) +:+ c = a +:+ (b +:+ c).
Proof. induction a as [|x a IH]; [done|]. by rewrite !append_cons, IH. Qed.

Lemma length_append (a b : string) :
  String.length (a +:+ b) = (String.length a + String.length b)%nat.
Proof. induction a as [|x a IH]; [done|]. rewrite append_cons. cbn. by rewrite IH. Qed.

Lemma chars_append (a b : string) : chars (a +:+ b) = chars a ++ chars b.
Proof.
  unfold chars. induction a as [|x a IH]; [done|].
  rewrite append_cons. cbn [list_ascii_of_string]. by rewrite IH.
Qed.

(** [strip] removes the whitespace around a line, and nothing else. *)

Lemma blank_nil : blank "".
Proof. constructor. Qed.

Lemma blank_cons (c : ascii) (s : string) :
  isspace c = true -> blank s -> blank (String c s).
Proof. intros Hc Hs. by constructor. Qed.

Lemma lstrip_spec (s : string) :
  (exists before, s = before +:+ lstrip isspace s /\ blank before) /\
  (forall c rest, lstrip isspace s = String c rest -> isspace c = false).
Proof.
  induction s as [|c s [(before & Hs & Hb) Hfirst]]; cbn [lstrip].
  - split; [by exists ""; split; [|apply blank_nil] | done].
  - destruct (isspace c) eqn:Hc.
    + split; [|done]. exists (String c before). rewrite append_cons, <- Hs.
      split; [done|]. by apply blank_cons.
    + split; [by exists ""; split; [|apply blank_nil]|]. by intros ? ? [= <- _].
Qed.

Lemma rstrip_spec (s : string) :
  (exists after, s = rstrip isspace s +:+ after /\ blank after) /\
  (forall front c, rstrip isspace s = front +:+ String c "" -> isspace c = false) /\
  (forall c rest, s = String c rest -> isspace c = false ->
                  exists rest', rstrip isspace s = String c rest').
Proof.
  induction s as [|c s ((after & Hs & Ha) & Hlast & _)]; cbn [rstrip].
  - split; [by exists ""; split; [|apply blank_nil]|]. split; [|done].
    by intros [|? ?] ? [=].
  - destruct (rstrip isspace s) as [|d t] eqn:Ht.
    + destruct (isspace c) eqn:Hc.
      * split; [|split].
        -- exists (String c after). change ("" +:+ after) with after in Hs.
           rewrite <- Hs. split; [done|]. apply blank_cons; [done|]. by rewrite Hs.
        -- by intros [|? ?] ? [=].
        -- intros ? ? [= <- _] ?. congruence.
      * split; [|split].
        -- exists after. split; [|done]. change ("" +:+ after) with after in Hs.
           by rewrite Hs.
        -- intros [|? [|? ?]] ? [=]. by subst.
        -- intros ? ? [= <- _] _. eauto.
    + split; [|split].
      * exists after. split; [|done]. rewrite append_cons. by rewrite <- Hs.
      * intros [|x front] c' Heq.
        -- change ("" +:+ String c' "") with (String c' "") in Heq.
           by inversion Heq.
        -- rewrite append_cons in Heq. injection Heq as _ Heq. by eapply Hlast.
      * intros ? ? [= <- _] _. eauto.
Qed.

Lemma strip_trimmed (line : string) : trimmed line (strip line).
Proof.
  unfold strip.
  destruct (lstrip_spec line) as [(before & Hline & Hbefore) Hfirst].
  destruct (rstrip_spec (lstrip isspace line))
    as ((after & Hl & Hafter) & Hlast & Hkeeps).
  split; [|split].
  - exists before, after. split; [|done]. by rewrite <- Hl.
  - intros c rest Hname.
    destruct (lstrip isspace line) as [|d l] eqn:Hd; [done|].
    pose proof (Hfirst d l eq_refl) as Hd'.
    destruct (Hkeeps d l eq_refl Hd') as (rest' & Heq). rewrite Heq in Hname.
    by injection Hname as <- _.
  - exact Hlast.
Qed.

Lemma strip_blank (line : string) : blank line -> strip line = "".
Proof.
  intros Hb. unfold strip. assert (lstrip isspace line = "") as ->; [|done].
  induction line as [|c s IH]; [done|]. inversion Hb as [|? ? Hc Hs]; subst.
  cbn [lstrip]. rewrite Hc. by apply IH.
Qed.


(** ** Opening a file for writing *)

Lemma resolve_component (files : gmap string node) (c : string) :
  ~ In "/"%char (chars c) ->
  forall seen component rest,
    resolve files seen component (c +:+ rest)
    = resolve files seen (component +:+ c) rest.
Proof.
  induction c as [|x c IH]; intros Hc seen component rest.
  - by rewrite append_nil_r.
  - rewrite append_cons. cbn [resolve].
    destruct (Ascii.eqb x "/") eqn:Hx.
    + apply Ascii.eqb_eq in Hx. subst. destruct Hc. by left.
    + rewrite IH by (intros Hin; apply Hc; by right).
      by rewrite append_assoc.
Qed.

Lemma plain_nonempty (c : string) : plain c -> String.eqb c "" = false.
Proof. intros [Hc _]. by apply String.eqb_neq. Qed.

Lemma plain_short (c : string) :
  plain c -> (NAME_MAX <? String.length c)%nat = false.
Proof. intros (_ & _ & _ & Hc). apply Nat.ltb_ge. exact Hc. Qed.

Lemma resolve_reaches (files : gmap string node) (dir : string) :
  reaches files dir ->
  forall rest, resolve files "" "" (dir +:+ rest) = resolve files dir "" rest.
Proof.
  induction 1 as [|dir Hdir IH|dir c entries Hdir IH Hc Hlook]; intros rest.
  - done.
  - rewrite append_assoc, IH. reflexivity.
  - rewrite !append_assoc, IH.
    rewrite resolve_component by apply Hc.
    change ("" +:+ c) with c. change ("/" +:+ rest) with (String "/" rest).
    cbn [resolve]. rewrite Ascii.eqb_refl, plain_nonempty, plain_short by done.
    by rewrite Hlook.
Qed.

Lemma reaches_no_nul (files : gmap string node) (dir : string) :
  reaches files dir -> ~ In nul (chars dir).
Proof.
  induction 1 as [|dir Hdir IH|dir c entries Hdir IH Hc Hlook].
  - by intros [].
  - rewrite chars_append, in_app_iff. intros [?|[[=]|[]]]. done.
  - rewrite !chars_append, !in_app_iff. intros [?|[?|[[=]|[]]]]; [done|].
    by destruct Hc as (_ & _ & Hnul & _).
Qed.

Lemma os_path_join_relative (a b : string) :
  startswith b "/" = false -> os_path_join a b = os_path_join a "" +:+ b.
Proof.
  intros Hb. unfold os_path_join. rewrite Hb. cbn [startswith].
  destruct (String.eqb a "" || endswith a "/").
  - by rewrite append_nil_r.
  - by rewrite !append_assoc.
Qed.

Lemma plain_relative (c rest : string) :
  plain c -> startswith (c +:+ rest) "/" = false.
Proof.
  intros (Hne & Hslash & _). destruct c as [|x c]; [done|].
  rewrite append_cons. cbn [startswith]. apply andb_false_intro1.
  apply Ascii.eqb_neq. intros <-. apply Hslash. by left.
Qed.

(** A plain name in a directory that can be reached: the walk ends at the
    name. *)
Lemma resolve_plain (files : gmap string node) (dir c : string) :
  reaches files dir -> plain c ->
  resolve files "" "" (dir +:+ c) =
  match files !! (dir +:+ c) with
  | Some (Dir _) => Some IsADirectoryError
  | _ => None
  end.
Proof.
  intros Hdir Hc. rewrite resolve_reaches by done.
  rewrite <- (append_nil_r c) at 1. rewrite resolve_component by apply Hc.
  change ("" +:+ c) with c. cbn [resolve].
  by rewrite plain_nonempty, plain_short.
Qed.

Lemma char_in_false (c : ascii) (s : string) :
  ~ In c (chars s) -> char_in c s = false.
Proof.
  intros Hc. destruct (char_in c s) eqn:Hin; [|done].
  unfold char_in in Hin. exfalso. apply Hc. clear Hc.
  induction s as [|x s IH]; [done|]. cbn [any_char] in Hin.
  apply orb_true_iff in Hin as [Hx|Hs].
  - apply Ascii.eqb_eq in Hx. subst. by left.
  - right. by apply IH.
Qed.

Lemma create_error_plain (files : gmap string node) (dir c : string) :
  reaches files dir -> plain c ->
  (String.length (dir +:+ c) < PATH_MAX)%nat ->
  create_error files (dir +:+ c) =
  match files !! (dir +:+ c) with
  | Some (Dir _) => Some (os_error IsADirectoryError (dir +:+ c))
  | _ => None
  end.
Proof.
  intros Hdir Hc Hlen. unfold create_error.
  rewrite char_in_false.
  2:{ rewrite chars_append, in_app_iff. intros [Hin|Hin].
      - by apply (reaches_no_nul files dir).
      - by destruct Hc as (_ & _ & Hnul & _). }
  assert (String.eqb (dir +:+ c) "" = false) as ->.
  { apply String.eqb_neq. destruct Hc as [Hne _].
    destruct dir; [done|]. by rewrite append_cons. }
  assert ((PATH_MAX <=? String.length (dir +:+ c))%nat = false) as ->
    by (apply Nat.leb_gt; exact Hlen).
  rewrite resolve_plain by done.
  by destruct (files !! (dir +:+ c)) as [[| |]|].
Qed.

Lemma can_create_no_error (files : gmap string node) (path name_ : string) :
  can_create files path name_ ->
  create_error files (os_path_join path name_) = None.
Proof.
  intros (Hdir & Hname & Hlen & Hfree).
  rewrite os_path_join_relative in * by (rewrite <- (append_nil_r name_); by apply plain_relative).
  rewrite create_error_plain by done.
  by destruct Hfree as [->|[data ->]].
Qed.

Lemma reaches_insert (files : gmap string node) (p : string) (n : node)
  (dir : string) :
  (forall entries, files !! p <> Some (Dir entries)) ->
  reaches files dir -> reaches (<[p := n]> files) dir.
Proof.
  intros Hp. induction 1 as [|dir Hdir IH|dir c entries Hdir IH Hc Hlook].
  - constructor.
  - by constructor.
  - apply (reaches_dir _ dir c entries); [done..|].
    rewrite lookup_insert_ne; [done|]. intros ->. by destruct (Hp entries).
Qed.

(** A missing directory on the way *)
Lemma create_error_missing (files : gmap string node) (dir c more : string) :
  reaches files dir -> plain c ->
  files !! (dir +:+ c) = None ->
  ~ In nul (chars more) ->
  (String.length (dir +:+ c +:+ "/" +:+ more) < PATH_MAX)%nat ->
  create_error files (dir +:+ c +:+ "/" +:+ more) =
  Some (os_error FileNotFoundError (dir +:+ c +:+ "/" +:+ more)).
Proof.
  intros Hdir Hc Hlook Hmore Hlen. unfold create_error.
  rewrite char_in_false.
  2:{ rewrite !chars_append, !in_app_iff. intros [Hin|[Hin|[Hin|Hin]]].
      - by apply (reaches_no_nul files dir).
      - by destruct Hc as (_ & _ & Hnul & _).
      - by destruct Hin as [[=]|[]].
      - done. }
  assert (String.eqb (dir +:+ c +:+ "/" +:+ more) "" = false) as ->.
  { apply String.eqb_neq. destruct Hc as [Hne _].
    destruct dir; [|by rewrite append_cons]. by destruct c. }
  assert ((PATH_MAX <=? String.length (dir +:+ c +:+ "/" +:+ more))%nat = false)
    as -> by (apply Nat.leb_gt; exact Hlen).
  rewrite resolve_reaches by done.
  rewrite resolve_component by apply Hc.
  change ("" +:+ c) with c. change ("/" +:+ more) with (String "/" more).
  cbn [resolve]. rewrite Ascii.eqb_refl, plain_nonempty, plain_short by done.
  by rewrite Hlook.
Qed.

(** ** One turn of each loop *)

Lemma get_int_turn (prompt error_msg : string) (min_ max_ : Z) (w : World) :
  get_int prompt error_msg min_ max_ w =
  match input prompt w with
  | (Raise e, w1) => (Raise e, w1)
  | (Ok line, w1) =>
      match int_of_str line with
      | Some x =>
          if (min_ <=? x) && (x <=? max_) then (Ok x, w1)
          else get_int prompt error_msg min_ max_ (emit [Print error_msg] w1)
      | None =>
          get_int prompt error_msg min_ max_
            (emit [Print "Please enter a number."] w1)
      end
  end.
Proof.
  rewrite get_int_unfold_eq; unfold get_int_unfold.
  destruct (inspect (input prompt w)) as [[[line|e] w1] Hin]; simpl;
    (etransitivity; [|rewrite Hin; reflexivity]); [|reflexivity].
  destruct (int_of_str line) as [x|]; simpl; [|reflexivity].
  destruct ((min_ <=? x) && (x <=? max_)); reflexivity.
Qed.

Lemma for_pages_turn {S : Type} (body : Z -> S -> result unit * S)
  (g : gen_state) (self : OutputFile) (s : S) :
  for_pages body g self s =
  match pages_next g self with
  | (None, _, self') => (Ok tt, s, self')
  | (Some page_number, g', self') =>
      match body page_number s with
      | (Ok _, s') => for_pages body g' self' s'
      | (Raise e, s') => (Raise e, s', self')
      end
  end.
Proof.
  rewrite for_pages_unfold_eq; unfold for_pages_unfold.
  destruct (inspect (pages_next g self)) as [[[[page_number|] g'] self'] Hnext];
    simpl; (etransitivity; [|rewrite Hnext; reflexivity]); [|reflexivity].
  destruct (body page_number s) as [[[]|e] s']; reflexivity.
Qed.

(** ** The log *)

Lemma emit_nil (w : World) : emit [] w = w.
Proof. destruct w. unfold emit. simpl. by rewrite app_nil_r. Qed.

(** ** The file-name validator *)

Lemma any_char_In (p : ascii -> bool) (s : string) :
  any_char p s = true <-> exists c, In c (chars s) /\ p c = true.
Proof.
  induction s as [|a s IH]; simpl.
  - split; [discriminate | intros (c & [] & _)].
  - rewrite orb_true_iff, IH. split.
    + intros [Ha | (c & Hc & Hp)]; [exists a | exists c]; auto.
    + intros (c & [<- | Hc] & Hp); [left | right; exists c]; auto.
Qed.

Lemma char_in_In (c : ascii) (s : string) :
  char_in c s = true <-> In c (chars s).
Proof.
  unfold char_in. rewrite any_char_In. split.
  - intros (c' & Hc' & Heq). apply Ascii.eqb_eq in Heq. by subst.
  - intros Hc. exists c. split; [done | apply Ascii.eqb_refl].
Qed.

Lemma any_forbidden (name_ : string) :
  any_char (fun char => char_in char forbidden_chars) name_ = true
  <-> has_forbidden name_.
Proof.
  rewrite any_char_In. unfold has_forbidden.
  split; intros (c & Hc & Hf); exists c; (split; [done|]).
  - by apply char_in_In in Hf.
  - by apply char_in_In.
Qed.

Lemma startswith_dot (name_ : string) :
  startswith name_ "." = true <-> starts_with_dot name_.
Proof.
  unfold starts_with_dot. destruct name_ as [|c rest]; cbn [startswith].
  - split; [intros [=] | intros [? [=]]].
  - rewrite andb_true_iff, Ascii.eqb_eq. split.
    + intros [<- _]. eauto.
    + intros [? [= <- _]]. by destruct rest.
Qed.

(** The chain of checks follows the rules of [verdict]. *)
Lemma check_file_name_verdict (allow_hidden : bool) (name_ : string) (w : World) :
  exists done out,
    check_file_name allow_hidden name_ w = (Ok done, emit out w) /\
    verdict allow_hidden name_ done out.
Proof.
  unfold check_file_name.
  destruct (String.eqb name_ "") eqn:Hempty.
  { apply String.eqb_eq in Hempty. eexists _, _. split; [reflexivity|].
    by constructor. }
  apply String.eqb_neq in Hempty.
  destruct (any_char _ name_) eqn:Hforb.
  { apply any_forbidden in Hforb. eexists _, _. split; [reflexivity|].
    by apply verdict_forbidden. }
  assert (~ has_forbidden name_) as Hnf.
  { rewrite <- any_forbidden, Hforb. discriminate. }
  destruct (negb allow_hidden && startswith name_ ".") eqn:Hdot.
  { apply andb_true_iff in Hdot as [Hah Hdot].
    apply startswith_dot in Hdot. apply negb_true_iff in Hah.
    eexists _, _. split; [reflexivity|]. by constructor. }
  assert (allow_hidden = false -> ~ starts_with_dot name_) as Hnd.
  { intros -> Hd. apply startswith_dot in Hd. by rewrite Hd in Hdot. }
  destruct (255 <? String.length name_)%nat eqn:Hlen.
  { apply Nat.ltb_lt in Hlen. eexists _, _. split; [reflexivity|].
    by constructor. }
  apply Nat.ltb_ge in Hlen.
  destruct (any_char isalnum name_) eqn:Halnum; simpl.
  - apply any_char_In in Halnum. exists true, [].
    split; [by rewrite emit_nil | by constructor].
  - eexists _, _. split; [reflexivity|]. constructor; try done.
    unfold has_alnum. rewrite <- any_char_In, Halnum. discriminate.
Qed.

(** The accept flag is set for the acceptable names and for no other. *)
Lemma verdict_acceptable (allow_hidden : bool) (name_ : string)
  (done : bool) (out : list event) :
  verdict allow_hidden name_ done out ->
  (done = true <-> acceptable allow_hidden name_).
Proof.
  unfold acceptable.
  destruct 1; (split; [try discriminate; try done | try done]);
    intros (? & ? & ? & ? & ?); try done; try lia; naive_solver.
Qed.

(** One turn of the loop of [get_file_name] takes one line, trims it and
    validates it. *)
Lemma get_file_name_turn_verdict (prompt : string) (allow_hidden : bool)
  (line : string) (rest : list string) (w : World) :
  stdin w = line :: rest ->
  exists done out,
    verdict allow_hidden (strip line) done out /\
    get_file_name_turn prompt allow_hidden w =
    (Ok (strip line, done),
     {| stdin := rest; fs := fs w; heap := heap w;
        log := log w ++ Prompt prompt :: out |}).
Proof.
  intros Hin. unfold get_file_name_turn, bind, input. simpl. rewrite Hin.
  destruct (check_file_name_verdict allow_hidden (strip line)
              (set_stdin rest (emit [Prompt prompt] w)))
    as (done & out & -> & Hv).
  exists done, out. split; [done|]. unfold ret, emit. simpl.
  by rewrite <- app_assoc.
Qed.

(** C1. [get_file_name] reads exactly one line: it shows the prompt once,
    takes the first waiting line and leaves the others, prints the message
    of the first check that fails, if one does, and returns the trimmed
    line whether or not it was accepted.  The trimmed line is the line
    without the whitespace around it: the line is the value returned
    between two runs of whitespace, and the value returned neither starts
    nor ends with whitespace. *)
Theorem get_file_name_reads_one_line (prompt error_msg : string)
  (allow_hidden : bool) (line : string) (rest : list string) (w : World) :
  stdin w = line :: rest ->
  exists done out,
    trimmed line (strip line) /\
    verdict allow_hidden (strip line) done out /\
    get_file_name prompt error_msg allow_hidden w =
    (Ok (strip line),
     {| stdin := rest; fs := fs w; heap := heap w;
        log := log w ++ Prompt prompt :: out |}).
Proof.
  intros Hin.
  destruct (get_file_name_turn_verdict prompt allow_hidden line rest w Hin)
    as (done & out & Hv & Hturn).
  exists done, out. split; [apply strip_trimmed|]. split; [done|].
  unfold get_file_name, bind. by rewrite Hturn.
Qed.

(** C7. The accept flag of the validator is false for every line whose
    trimmed value holds one of the nine forbidden characters; it is true
    exactly for the trimmed names that are not empty, hold no forbidden
    character, do not start with a dot unless hidden names are allowed,
    are at most 255 characters long and hold a letter or a digit; and the
    message printed is that of the first of the five checks that fails,
    in this order. *)
Theorem validator_accept_flag (prompt : string) (allow_hidden : bool)
  (line : string) (rest : list string) (w : World) :
  stdin w = line :: rest ->
  exists done out,
    get_file_name_turn prompt allow_hidden w =
    (Ok (strip line, done),
     {| stdin := rest; fs := fs w; heap := heap w;
        log := log w ++ Prompt prompt :: out |}) /\
    (has_forbidden (strip line) -> done = false) /\
    (done = true <-> acceptable allow_hidden (strip line)) /\
    verdict allow_hidden (strip line) done out.
Proof.
  intros Hin.
  destruct (get_file_name_turn_verdict prompt allow_hidden line rest w Hin)
    as (done & out & Hv & Hturn).
  exists done, out. split; [done|].
  pose proof (verdict_acceptable _ _ _ _ Hv) as Hacc.
  repeat split; try apply Hacc; try done.
  intros Hforb. destruct done; [|done].
  destruct Hacc as [Hacc _]. destruct (Hacc eq_refl) as (_ & Hnf & _). done.
Qed.

(** ** The bounded-integer prompt *)

Lemma get_int_eof (prompt error_msg : string) (min_ max_ : Z) (w : World) :
  stdin w = [] ->
  exists e, get_int prompt error_msg min_ max_ w = (Raise e, emit [Prompt prompt] w).
Proof.
  intros Hin. rewrite get_int_turn. unfold input. simpl. rewrite Hin. eauto.
Qed.

Lemma get_int_accepts (prompt error_msg : string) (min_ max_ : Z)
  (line : string) (rest : list string) (x : Z) (w : World) :
  stdin w = line :: rest ->
  int_of_str line = Some x -> min_ <= x <= max_ ->
  get_int prompt error_msg min_ max_ w =
  (Ok x, {| stdin := rest; fs := fs w; heap := heap w;
            log := log w ++ [Prompt prompt] |}).
Proof.
  intros Hin Hx Hrange. rewrite get_int_turn. unfold input. simpl.
  rewrite Hin, Hx.
  replace ((min_ <=? x) && (x <=? max_)) with true; [done|].
  symmetry. apply andb_true_iff. lia.
Qed.

Lemma get_int_rejects (prompt error_msg : string) (min_ max_ : Z)
  (line : string) (rest : list string) (w : World) :
  stdin w = line :: rest ->
  rejected min_ max_ line ->
  get_int prompt error_msg min_ max_ w =
  get_int prompt error_msg min_ max_
    {| stdin := rest; fs := fs w; heap := heap w;
       log := log w ++ retry prompt error_msg line |}.
Proof.
  intros Hin Hrej. rewrite get_int_turn. unfold input, retry. simpl.
  rewrite Hin. unfold emit, set_stdin. simpl.
  destruct (int_of_str line) as [x|] eqn:Hx.
  - destruct ((min_ <=? x) && (x <=? max_)) eqn:Hrange.
    + apply andb_true_iff in Hrange. exfalso. apply (Hrej x Hx). lia.
    + by rewrite <- app_assoc.
  - by rewrite <- app_assoc.
Qed.

Lemma rejected_dec (min_ max_ : Z) (line : string) :
  rejected min_ max_ line \/
  exists x, int_of_str line = Some x /\ min_ <= x <= max_.
Proof.
  unfold rejected. destruct (int_of_str line) as [x|]; [|left; done].
  destruct (decide (min_ <= x <= max_)); [right; eauto|].
  left. by intros ? [= <-].
Qed.

Lemma get_int_skips (prompt error_msg : string) (min_ max_ : Z)
  (bad rest : list string) (w : World) :
  stdin w = bad ++ rest ->
  Forall (rejected min_ max_) bad ->
  get_int prompt error_msg min_ max_ w =
  get_int prompt error_msg min_ max_
    {| stdin := rest; fs := fs w; heap := heap w;
       log := log w ++ flat_map (retry prompt error_msg) bad |}.
Proof.
  revert w. induction bad as [|line bad IH]; intros w Hin Hbad.
  - simpl in *. rewrite app_nil_r, <- Hin. by destruct w.
  - inversion Hbad as [|? ? Hline Hbad']; subst.
    rewrite (get_int_rejects _ _ _ _ line (bad ++ rest)); [|done..].
    rewrite IH; [|done..]. cbn [flat_map stdin fs heap log].
    by rewrite <- app_assoc.
Qed.

Lemma get_int_returns (prompt error_msg : string) (min_ max_ : Z)
  (bad : list string) (line : string) (rest : list string) (x : Z) (w : World) :
  stdin w = bad ++ line :: rest ->
  Forall (rejected min_ max_) bad ->
  int_of_str line = Some x ->
  min_ <= x <= max_ ->
  get_int prompt error_msg min_ max_ w =
  (Ok x, {| stdin := rest; fs := fs w; heap := heap w;
            log := log w ++ flat_map (retry prompt error_msg) bad
                     ++ [Prompt prompt] |}).
Proof.
  intros Hin Hbad Hx Hrange.
  rewrite (get_int_skips _ _ _ _ bad (line :: rest)); [|done..].
  rewrite (get_int_accepts _ _ _ _ line rest x); [|done..].
  cbn [stdin fs heap log]. by rewrite <- app_assoc.
Qed.

(** C2. [get_int] returns [x] exactly when standard input starts with
    rejected lines followed by a line that parses to [x] with
    [min_ <= x <= max_]: the value returned is within the bounds and is the
    first valid integer entered.  Every rejected line was answered with
    its message, the fixed one when it is not a number and [error_msg]
    when it is out of bounds, and followed by a new prompt.  This holds
    for all bounds, so for all [min_ <= max_]. *)
Theorem get_int_first_valid (prompt error_msg : string) (min_ max_ : Z)
  (w : World) (x : Z) (w' : World) :
  get_int prompt error_msg min_ max_ w = (Ok x, w') <->
  exists bad line rest,
    stdin w = bad ++ line :: rest /\
    Forall (rejected min_ max_) bad /\
    int_of_str line = Some x /\
    min_ <= x <= max_ /\
    w' = {| stdin := rest; fs := fs w; heap := heap w;
            log := log w ++ flat_map (retry prompt error_msg) bad
                     ++ [Prompt prompt] |}.
Proof.
  split.
  - remember (stdin w) as lines eqn:Hin. symmetry in Hin.
    revert w Hin. induction lines as [|line lines IH]; intros w Hin Hget.
    + destruct (get_int_eof prompt error_msg min_ max_ w Hin) as [e He].
      congruence.
    + destruct (rejected_dec min_ max_ line) as [Hrej | (y & Hy & Hrange)].
      * rewrite (get_int_rejects _ _ _ _ line lines) in Hget; [|done..].
        apply IH in Hget as (bad & good & rest & Hlines & Hbad & Hx & Hr & ->);
          [|done].
        simpl in Hlines. subst lines.
        exists (line :: bad), good, rest. repeat split; try done; try lia.
        -- by constructor.
        -- cbn [flat_map stdin fs heap log]. by rewrite <- !app_assoc.
      * rewrite (get_int_accepts _ _ _ _ line lines y) in Hget; [|done..].
        injection Hget as <- <-.
        exists [], line, lines. repeat split; try done; try lia.
  - intros (bad & line & rest & Hin & Hbad & Hx & Hrange & ->).
    by apply (get_int_returns _ _ _ _ bad line rest).
Qed.

(** ** The page generator *)

Lemma at_page_current (self : OutputFile) :
  at_page self (current_page self) = self.
Proof. by destruct self. Qed.

Lemma advance_at_page (self : OutputFile) (c : Z) :
  advance (at_page self c) = at_page self (c + 1).
Proof. done. Qed.

(** A generator stopped at its [yield] for page [c] goes on with the pages
    after [c]. *)
Lemma for_pages_suspended {S : Type} (body : Z -> S -> result unit * S)
  (self : OutputFile) (n : nat) :
  forall (c : Z) (s : S),
    Z.to_nat ((page_interval self).2 - c) = n ->
    for_pages body GenSuspended (at_page self c) s =
    let '(r, s', stop) :=
      run_pages body (seqZ (c + 1) ((page_interval self).2 - c)) s in
    (r, s', at_page self (match stop with
                          | Some page_number => page_number
                          | None => Z.max (c + 1) ((page_interval self).2 + 1)
                          end)).
Proof.
  induction n as [|n IH]; intros c s Hn; rewrite for_pages_turn;
    cbn [pages_next]; rewrite advance_at_page; unfold pages_test;
    cbn [current_page page_interval at_page].
  - rewrite seqZ_nil by lia.
    replace (c + 1 <=? (page_interval self).2) with false
      by (symmetry; apply Z.leb_gt; lia).
    simpl. f_equal. f_equal. lia.
  - rewrite seqZ_cons by lia.
    replace (c + 1 <=? (page_interval self).2) with true
      by (symmetry; apply Z.leb_le; lia).
    cbn [run_pages]. destruct (body (c + 1) s) as [[[]|e] s']; [|done].
    rewrite IH by lia.
    replace (Z.succ (c + 1)) with (c + 1 + 1) by lia.
    replace (Z.pred ((page_interval self).2 - c))
      with ((page_interval self).2 - (c + 1)) by lia.
    destruct (run_pages body _ s') as [[r s''] [page_number|]]; [done|].
    f_equal. f_equal. lia.
Qed.

(** A new generator goes through the pages from the cursor to the end of
    the interval; the cursor ends after the last page, or on the page the
    body raised on. *)
Lemma for_pages_created {S : Type} (body : Z -> S -> result unit * S)
  (self : OutputFile) (s : S) :
  for_pages body GenCreated self s =
  let '(r, s', stop) :=
    run_pages body
      (seqZ (current_page self)
         ((page_interval self).2 - current_page self + 1)) s in
  (r, s', at_page self (match stop with
                        | Some page_number => page_number
                        | None => Z.max (current_page self)
                                    ((page_interval self).2 + 1)
                        end)).
Proof.
  rewrite for_pages_turn. cbn [pages_next]. unfold pages_test.
  destruct (current_page self <=? (page_interval self).2) eqn:Hle.
  - apply Z.leb_le in Hle. rewrite seqZ_cons by lia. cbn [run_pages].
    destruct (body (current_page self) s) as [[[]|e] s'].
    + rewrite <- (at_page_current self) at 1.
      rewrite (for_pages_suspended body self _ _ _ eq_refl).
      replace (Z.succ (current_page self)) with (current_page self + 1) by lia.
      replace (Z.pred ((page_interval self).2 - current_page self + 1))
        with ((page_interval self).2 - current_page self) by lia.
      destruct (run_pages body _ s') as [[r s''] [page_number|]]; [done|].
      f_equal. f_equal. lia.
    + by rewrite at_page_current.
  - apply Z.leb_gt in Hle. rewrite seqZ_nil by lia. simpl.
    rewrite Z.max_l by lia. by rewrite at_page_current.
Qed.

(** [OutputFile(path, name_, (start, end_))], when the file can be opened,
    is a new object with its cursor at [start]. *)
Lemma OutputFile_init_fresh (path name_ : string) (start end_ : Z)
  (w : World) (output : ref) (w' : World) :
  OutputFile_init path name_ (start, end_) w = (Ok output, w') ->
  exists self,
    heap w' !! output = Some self /\
    page_interval self = (start, end_) /\
    current_page self = start /\
    name self = name_ /\
    stream self = os_path_join path name_.
Proof.
  unfold OutputFile_init, bind, open_wb, alloc.
  destruct (create_error (fs w) (os_path_join path name_)); [done|].
  destruct (fs w !! os_path_join path name_) as [[data|entries|err]|];
    intros [= <- <-]; eexists;
    (split; [cbn [emit set_fs set_heap heap]; by apply list_lookup_middle|done]).
Qed.

Lemma run_pages_collect (pages acc : list Z) :
  run_pages (fun page_number acc => (Ok tt, acc ++ [page_number])) pages acc
  = (Ok tt, acc ++ pages, None).
Proof.
  revert acc. induction pages as [|n pages IH]; intros acc; simpl.
  - by rewrite app_nil_r.
  - rewrite IH. by rewrite <- app_assoc.
Qed.

(** [list(output.pages())] gives the pages from the cursor on and leaves
    the cursor after the interval. *)
Lemma list_pages_from_cursor (output : ref) (self : OutputFile) (w : World) :
  heap w !! output = Some self ->
  list_pages output w =
  (Ok (seqZ (current_page self)
         ((page_interval self).2 - current_page self + 1)),
   set_heap (<[output := at_page self
                           (Z.max (current_page self)
                              ((page_interval self).2 + 1))]> (heap w)) w).
Proof.
  intros Hself. unfold list_pages, bind, deref. rewrite Hself.
  rewrite for_pages_created, run_pages_collect. done.
Qed.

(** C3. An [OutputFile] as [__init__] leaves it (its cursor at [start],
    see [OutputFile_init_fresh]), with the interval [(start, end_)] where
    [1 <= start <= end_ <= page_count], yields the
    ascending integers from [start] to [end_], which are
    [end_ - start + 1] pages; iterating [pages()] of the same object again
    yields nothing, since the cursor stays where the first iteration left
    it. *)
Theorem pages_once (output : ref) (self : OutputFile)
  (start end_ page_count : Z) (w : World) :
  heap w !! output = Some self ->
  page_interval self = (start, end_) ->
  current_page self = start ->
  1 <= start <= end_ /\ end_ <= page_count ->
  exists w1,
    list_pages output w = (Ok (seqZ start (end_ - start + 1)), w1) /\
    Z.of_nat (length (seqZ start (end_ - start + 1))) = end_ - start + 1 /\
    (forall i, 0 <= i < end_ - start + 1 ->
               seqZ start (end_ - start + 1) !! Z.to_nat i = Some (start + i)) /\
    list_pages output w1 = (Ok [], w1).
Proof.
  intros Hself Hint Hcur Hrange.
  rewrite (list_pages_from_cursor output self w Hself).
  rewrite Hint, Hcur. cbn [fst snd]. eexists. split; [reflexivity|].
  split; [rewrite length_seqZ; lia|].
  split.
  { intros i Hi. rewrite lookup_seqZ. split; lia. }
  assert (output < length (heap w))%nat as Hlt by (by eapply lookup_lt_Some).
  rewrite (list_pages_from_cursor output (at_page self (Z.max start (end_ + 1)))).
  - cbn [current_page page_interval at_page set_heap heap stdin fs log].
    rewrite Hint. cbn [snd]. rewrite seqZ_nil by lia.
    rewrite list_insert_insert_eq.
    replace (Z.max (Z.max start (end_ + 1)) (end_ + 1))
      with (Z.max start (end_ + 1)) by lia.
    done.
  - cbn [heap set_heap]. by rewrite list_lookup_insert_eq.
Qed.

(** ** The directory scan *)

Lemma endswith_app (s p : string) :
  endswith s p = true <-> exists before, s = before +:+ p.
Proof.
  induction s as [|c s IH]; cbn [endswith].
  - rewrite orb_false_r, String.eqb_eq. split.
    + intros <-. by exists "".
    + intros ([|? ?] & Heq); simpl in Heq; [done | discriminate].
  - rewrite orb_true_iff, String.eqb_eq, IH. split.
    + intros [<- | (before & ->)]; [by exists "" | by exists (String c before)].
    + intros ([|c' before] & Heq); simpl in Heq; [by left|].
      injection Heq as <- ->. right. eauto.
Qed.

Lemma fold_pdf_files (files acc : list string) :
  fold_left
    (fun pdf_files file =>
       if endswith (lower file) ".pdf" then pdf_files ++ [file] else pdf_files)
    files acc
  = acc ++ List.filter (fun file => endswith (lower file) ".pdf") files.
Proof.
  revert acc. induction files as [|file files IH]; intros acc; simpl.
  - by rewrite app_nil_r.
  - rewrite IH. destruct (endswith (lower file) ".pdf"); [|done].
    by rewrite <- app_assoc.
Qed.

(** A path that does not exist: [None], and nothing else happens. *)
Lemma list_pdf_files_missing (directory_path : string) (w : World) :
  fs w !! directory_path = None ->
  list_pdf_files directory_path w = (Ok None, w).
Proof.
  intros Hnone. unfold list_pdf_files, bind, os_path_exists.
  rewrite Hnone. rewrite bool_decide_eq_false_2; [done|].
  by intros [? ?].
Qed.

(** A directory: its entries whose lowercased name ends in [.pdf], in
    the order of the listing, and nothing else happens. *)
Lemma list_pdf_files_directory (directory_path : string)
  (entries : list string) (w : World) :
  fs w !! directory_path = Some (Dir entries) ->
  exists pdf_files,
    list_pdf_files directory_path w = (Ok (Some pdf_files), w) /\
    pdf_files = List.filter (fun file => endswith (lower file) ".pdf") entries /\
    forall file,
      In file pdf_files <->
      In file entries /\ exists before, lower file = before +:+ ".pdf".
Proof.
  intros Hdir. eexists. split; [|split; [reflexivity|]].
  - unfold list_pdf_files, bind, os_path_exists, os_listdir.
    rewrite Hdir. rewrite bool_decide_eq_true_2 by eauto. cbn [negb].
    unfold ret. rewrite Hdir. by rewrite fold_pdf_files.
  - intros file. by rewrite filter_In, endswith_app.
Qed.

(** A path that exists and is not a directory: [os.listdir] raises
    [NotADirectoryError], which [list_pdf_files] lets through. *)
Lemma list_pdf_files_not_a_directory (directory_path : string) (w : World) :
  (exists data, fs w !! directory_path = Some (File data)) \/
  (exists err, fs w !! directory_path = Some (Dev err)) ->
  list_pdf_files directory_path w =
  (Raise (Exn NotADirectoryError ("Not a directory: " +:+ directory_path)), w).
Proof.
  intros Hfile. unfold list_pdf_files, bind, os_path_exists, os_listdir.
  destruct Hfile as [[? Hfile] | [? Hfile]]; rewrite Hfile;
    rewrite bool_decide_eq_true_2 by eauto; cbn [negb]; by rewrite Hfile.
Qed.

(** ** Generation *)

Lemma run_copy_ok (reader : PdfFileReader) (pages : list Z) (doc : list page) :
  Forall2 (fun page_number p => getPage reader (page_number - 1) = Ok p) pages doc ->
  forall writer calls,
    run_pages (copy_page reader) pages (writer, calls) =
    (Ok tt,
     (writer ++ doc,
      calls ++ map (fun page_number => GetPage (page_number - 1)) pages),
     None).
Proof.
  induction 1 as [|n p pages doc Hp _ IH]; intros writer calls; simpl.
  - by rewrite !app_nil_r.
  - unfold copy_page at 1. rewrite Hp. cbn [fst snd]. unfold addPage.
    rewrite IH. by rewrite <- !app_assoc.
Qed.

(** Whatever the reader answers, the calls made are for pages of the
    list, each page number [n] at index [n - 1]. *)
Lemma run_copy_calls (reader : PdfFileReader) (pages : list Z) :
  forall s r s' stop,
    run_pages (copy_page reader) pages s = (r, s', stop) ->
    exists tried,
      s'.2 = s.2 ++ map (fun page_number => GetPage (page_number - 1)) tried /\
      forall page_number, In page_number tried -> In page_number pages.
Proof.
  induction pages as [|n pages IH]; intros s r s' stop; simpl.
  - intros [= <- <- <-]. exists []. by rewrite app_nil_r.
  - unfold copy_page at 1.
    destruct (getPage reader (n - 1)) as [p|e].
    + intros Hrun. apply IH in Hrun as (tried & -> & Hin). cbn [fst snd].
      exists (n :: tried). split; [by rewrite <- app_assoc|].
      intros m [<-|Hm]; [by left | right; auto].
    + intros [= <- <- <-]. exists [n]. split; [done|].
      intros m [<-|[]]. by left.
Qed.

(** [generate_output_file], loop by loop. *)
Lemma generate_output_file_run (reader : PdfFileReader) (output : ref)
  (generated_callback : ref -> IO unit) (self : OutputFile) (w : World) :
  heap w !! output = Some self ->
  generate_output_file reader output generated_callback w =
  let '(copied, (writer, calls), stop) :=
    run_pages (copy_page reader)
      (seqZ (current_page self)
         ((page_interval self).2 - current_page self + 1))
      (PdfFileWriter_new, []) in
  let self' := at_page self (match stop with
                             | Some page_number => page_number
                             | None => Z.max (current_page self)
                                         ((page_interval self).2 + 1)
                             end) in
  let w1 := emit calls (set_heap (<[output := self']> (heap w)) w) in
  match copied with
  | Raise e => (Raise e, w1)
  | Ok _ =>
      (PdfFileWriter_write writer (stream self) ;; generated_callback output) w1
  end.
Proof.
  intros Hself. unfold generate_output_file, deref.
  unfold bind at 1. rewrite Hself. rewrite for_pages_created.
  destruct (run_pages _ _ _) as [[copied [writer calls]] stop].
  unfold bind, store. by destruct copied.
Qed.

(** One output whose pages can all be read and whose stream takes the
    write. *)
Lemma generate_output_file_ok (reader : PdfFileReader) (output : ref)
  (generated_callback : ref -> IO unit) (said : OutputFile -> list event)
  (self : OutputFile) (doc : list page) (w : World) :
  heap w !! output = Some self ->
  current_page self = (page_interval self).1 ->
  readable reader self doc ->
  (forall err, fs w !! stream self <> Some (Dev err)) ->
  logs_only generated_callback said ->
  generate_output_file reader output generated_callback w =
  (Ok tt,
   {| stdin := stdin w;
      fs := <[stream self := File (Some doc)]> (fs w);
      heap := <[output := exhausted self]> (heap w);
      log := log w ++ output_events said self doc |}).
Proof.
  intros Hself Hcur Hread Hdev Hcb.
  rewrite (generate_output_file_run _ _ _ self) by done.
  unfold readable, interval_pages in Hread. rewrite <- Hcur in Hread.
  rewrite (run_copy_ok _ _ _ Hread).
  unfold PdfFileWriter_new. rewrite !app_nil_l.
  cbv zeta. unfold bind, PdfFileWriter_write.
  cbn [emit set_heap fs heap stdin log].
  destruct (fs w !! stream self) as [[data|entries|err]|] eqn:Hs;
    [| |by destruct (Hdev err)|];
    (erewrite Hcb;
     [|cbn [emit set_fs set_heap heap]; apply list_lookup_insert_eq;
       by eapply lookup_lt_Some]);
    unfold emit, set_fs, set_heap, output_events, exhausted, interval_pages;
    cbn [stdin fs heap log]; rewrite <- Hcur; by rewrite <- !app_assoc.
Qed.

Lemma print_generated_logs_only :
  logs_only print_generated
    (fun self => [Print ("Generated: " +:+ OutputFile_str self)]).
Proof.
  intros output self w Hself. unfold print_generated, bind, deref.
  by rewrite Hself.
Qed.

Lemma lookups_insert_fresh (h : list OutputFile) (output : ref)
  (self' : OutputFile) (plan : list ref) (outputs : list OutputFile) :
  output ∉ plan ->
  Forall2 (fun r self => h !! r = Some self) plan outputs ->
  Forall2 (fun r self => <[output := self']> h !! r = Some self) plan outputs.
Proof.
  intros Hnotin Hall. induction Hall as [|r self plan outputs Hr _ IH].
  - constructor.
  - apply not_elem_of_cons in Hnotin as [Hne Hnotin].
    constructor; [|by apply IH]. by rewrite list_lookup_insert_ne.
Qed.

Lemma no_dev_insert (files : gmap string node) (s s' : file_object)
  (data : content) :
  (forall err, files !! s <> Some (Dev err)) ->
  forall err, <[s' := File data]> files !! s <> Some (Dev err).
Proof.
  intros Hdev err. destruct (decide (s' = s)) as [->|Hne].
  - by rewrite lookup_insert_eq.
  - by rewrite lookup_insert_ne.
Qed.

(** The whole plan, when every output can be read and written: the
    outputs are generated one after the other. *)
Lemma generate_output_files_ok (reader : PdfFileReader)
  (generated_callback : ref -> IO unit) (said : OutputFile -> list event)
  (plan : list ref) :
  logs_only generated_callback said ->
  forall (outputs : list OutputFile) (docs : list (list page)) (w : World),
    NoDup plan ->
    Forall2 (fun output self => heap w !! output = Some self) plan outputs ->
    Forall2 (fun self doc =>
               current_page self = (page_interval self).1 /\
               readable reader self doc /\
               forall err, fs w !! stream self <> Some (Dev err))
      outputs docs ->
    exists w',
      generate_output_files reader plan generated_callback w = (Ok tt, w') /\
      stdin w' = stdin w /\
      log w' = log w ++ concat (zip_with (output_events said) outputs docs).
Proof.
  intros Hcb.
  induction plan as [|output plan IH]; intros outputs docs w Hnodup Hheap Hout.
  - inversion Hheap; subst. inversion Hout; subst.
    exists w. simpl. by rewrite app_nil_r.
  - inversion Hheap as [|? self ? outputs' Hself Hheap']; subst.
    inversion Hout as [|? doc ? docs' (Hcur & Hread & Hdev) Hout']; subst.
    apply NoDup_cons in Hnodup as [Hnotin Hnodup].
    cbn [generate_output_files]. unfold bind.
    rewrite (generate_output_file_ok _ _ _ said self doc) by done.
    edestruct (IH outputs' docs') as (w' & -> & Hstdin & Hlog); [done| | |].
    + cbn [heap]. by apply lookups_insert_fresh.
    + cbn [fs]. eapply Forall2_impl; [exact Hout'|].
      intros self' doc' (? & ? & ?). repeat split; try done.
      by apply no_dev_insert.
    + exists w'. split; [done|]. split; [done|].
      rewrite Hlog. cbn [log zip_with concat]. by rewrite <- app_assoc.
Qed.

(** C5. [generate_output_files] goes through the plan in order.  For each
    output it reads the pages of the interval in ascending order, page
    number [n] at index [n - 1], into a writer that starts empty, writes
    that document to the stream of the output, and then calls the
    callback for the output: the log grows by the events of the first
    output, then those of the second, and so on, and the document written
    for an output holds the pages of its interval and no other. *)
Theorem generate_in_plan_order (reader : PdfFileReader)
  (generated_callback : ref -> IO unit) (said : OutputFile -> list event)
  (plan : list ref) (outputs : list OutputFile) (docs : list (list page))
  (w : World) :
  logs_only generated_callback said ->
  NoDup plan ->
  Forall2 (fun output self => heap w !! output = Some self) plan outputs ->
  Forall2 (fun self doc =>
             current_page self = (page_interval self).1 /\
             readable reader self doc /\
             forall err, fs w !! stream self <> Some (Dev err))
    outputs docs ->
  exists w',
    generate_output_files reader plan generated_callback w = (Ok tt, w') /\
    log w' =
    log w ++
    concat (zip_with
              (fun self doc =>
                 map (fun page_number => GetPage (page_number - 1))
                   (seqZ (page_interval self).1
                      ((page_interval self).2 - (page_interval self).1 + 1))
                 ++ [Write (stream self) doc]
                 ++ said (exhausted self))
              outputs docs).
Proof.
  intros Hcb Hnodup Hheap Hout.
  destruct (generate_output_files_ok reader generated_callback said plan Hcb
              outputs docs w Hnodup Hheap Hout) as (w' & Hgen & _ & Hlog).
  exists w'. split; [done|]. by rewrite Hlog.
Qed.

(** ** The reader of a document *)

Lemma py_index_in_range {A} (l : list A) (i : Z) :
  0 <= i < Z.of_nat (length l) ->
  exists x, l !! Z.to_nat i = Some x /\ py_index l i = Some x.
Proof.
  intros Hi. unfold py_index.
  replace ((0 <=? i) && (i <? Z.of_nat (length l))) with true
    by (symmetry; apply andb_true_iff; split; [apply Z.leb_le | apply Z.ltb_lt]; lia).
  destruct (lookup_lt_is_Some_2 l (Z.to_nat i)) as [x Hx]; [lia|]. eauto.
Qed.

Lemma getPage_in_range (doc : list page) (index : Z) :
  0 <= index <= Z.of_nat (length doc) - 1 ->
  exists p, doc !! Z.to_nat index = Some p /\
            getPage (reader_of doc) index = Ok p.
Proof.
  intros Hi. destruct (py_index_in_range doc index) as (p & Hp & Hidx); [lia|].
  exists p. split; [done|]. cbn [getPage reader_of]. by rewrite Hidx.
Qed.

(** The reader of a document gives its pages, in order, for the interval
    from 1 to the number of pages. *)
Lemma reader_of_readable (doc : list page) (self : OutputFile) :
  page_interval self = (1, Z.of_nat (length doc)) ->
  readable (reader_of doc) self doc.
Proof.
  intros Hint. unfold readable, interval_pages. rewrite Hint. cbn [fst snd].
  apply Forall2_same_length_lookup_2.
  - rewrite length_seqZ. lia.
  - intros i n p Hn Hp. apply lookup_seqZ in Hn as [-> Hi].
    destruct (getPage_in_range doc (1 + Z.of_nat i - 1)) as (p' & Hp' & ->); [lia|].
    replace (Z.to_nat (1 + Z.of_nat i - 1)) with i in Hp' by lia. congruence.
Qed.

(** C9. Round trip: for a source document [doc] of [N] pages, generation
    with the single output for the interval [(1, N)] writes a document
    that is [doc] itself, so [N] pages in the order of the source. *)
Theorem split_whole_document (doc : list page) (output : ref)
  (self : OutputFile) (generated_callback : ref -> IO unit)
  (said : OutputFile -> list event) (w : World) :
  logs_only generated_callback said ->
  heap w !! output = Some self ->
  page_interval self = (1, getNumPages (reader_of doc)) ->
  current_page self = 1 ->
  (forall err, fs w !! stream self <> Some (Dev err)) ->
  exists w',
    generate_output_files (reader_of doc) [output] generated_callback w
    = (Ok tt, w') /\
    fs w' = <[stream self := File (Some doc)]> (fs w) /\
    log w' =
    log w ++
    map (fun page_number => GetPage (page_number - 1))
      (seqZ 1 (Z.of_nat (length doc)))
    ++ [Write (stream self) doc] ++ said (exhausted self).
Proof.
  intros Hcb Hself Hint Hcur Hdev. cbn [getNumPages reader_of] in Hint.
  eexists. cbn [generate_output_files]. unfold bind.
  rewrite (generate_output_file_ok _ _ _ said self doc); try done.
  - unfold ret. split; [reflexivity|]. split; [done|].
    cbn [log]. unfold output_events, interval_pages. rewrite Hint. cbn [fst snd].
    by replace (Z.of_nat (length doc) - 1 + 1) with (Z.of_nat (length doc)) by lia.
  - by rewrite Hint.
  - by apply reader_of_readable.
Qed.

(** ** Generation, whatever the reader and the streams do *)

Lemma run_pages_stop {S : Type} (body : Z -> S -> result unit * S)
  (pages : list Z) :
  forall s r s' page_number,
    run_pages body pages s = (r, s', Some page_number) -> In page_number pages.
Proof.
  induction pages as [|n pages IH]; intros s r s' m; simpl; [done|].
  destruct (body n s) as [[[]|e] s1].
  - intros Hrun. right. by eapply IH.
  - intros [= _ _ <-]. by left.
Qed.

(** One output with the callback of [main]: the page numbers tried lie
    between the cursor and the end of the interval, the cursor does not
    move back, and an output that raises has written nothing. *)
Lemma generate_output_file_outcome (reader : PdfFileReader) (output : ref)
  (self : OutputFile) (w : World) (res : result unit) (w' : World) :
  heap w !! output = Some self ->
  generate_output_file reader output print_generated w = (res, w') ->
  exists tried self' tail,
    stdin w' = stdin w /\
    heap w' = <[output := self']> (heap w) /\
    page_interval self' = page_interval self /\
    current_page self <= current_page self' /\
    log w' = log w ++ map (fun page_number => GetPage (page_number - 1)) tried
               ++ tail /\
    (forall page_number,
        In page_number tried ->
        current_page self <= page_number <= (page_interval self).2) /\
    match res with
    | Raise _ => tail = [] /\ fs w' = fs w
    | Ok _ => exists doc,
        tail = [Write (stream self) doc;
                Print ("Generated: " +:+ OutputFile_str self')]
    end.
Proof.
  intros Hself. rewrite (generate_output_file_run _ _ _ self) by done.
  destruct (run_pages _ _ _) as [[copied [writer calls]] stop] eqn:Hrun.
  destruct (run_copy_calls _ _ _ _ _ _ Hrun) as (tried & Hcalls & Htried).
  cbn [snd] in Hcalls. rewrite app_nil_l in Hcalls. subst calls.
  set (self' := at_page self _). cbv zeta.
  assert (current_page self <= current_page self') as Hcur.
  { subst self'. cbn [current_page at_page]. destruct stop as [n|]; [|lia].
    apply run_pages_stop in Hrun. apply list_elem_of_In, elem_of_seqZ in Hrun. lia. }
  assert (forall n, In n tried -> current_page self <= n <= (page_interval self).2)
    as Hrange.
  { intros n Hn. apply Htried, list_elem_of_In, elem_of_seqZ in Hn. lia. }
  assert (<[output := self']> (heap w) !! output = Some self') as Hself'.
  { apply list_lookup_insert_eq. by eapply lookup_lt_Some. }
  destruct copied as [[]|e].
  - unfold bind, PdfFileWriter_write. cbn [emit set_heap fs].
    destruct (fs w !! stream self) as [[data|entries|err]|] eqn:Hs.
    1,2,4: unfold print_generated, bind, deref;
      cbn [emit set_fs set_heap heap]; rewrite Hself';
      intros [= <- <-];
      exists tried, self',
        [Write (stream self) writer;
         Print ("Generated: " +:+ OutputFile_str self')];
      cbn [stdin heap log emit set_fs set_heap print];
      split_and!; try done; try (by rewrite <- !app_assoc); eauto.
    intros [= <- <-]. exists tried, self', [].
    cbn [stdin heap log fs emit set_heap]. rewrite app_nil_r.
    split_and!; auto.
  - intros [= <- <-]. exists tried, self', [].
    cbn [emit set_heap stdin heap log fs]. rewrite app_nil_r.
    split_and!; auto.
Qed.

Lemma generate_output_file_dangling (reader : PdfFileReader) (output : ref)
  (generated_callback : ref -> IO unit) (w : World) :
  heap w !! output = None ->
  exists e, generate_output_file reader output generated_callback w = (Raise e, w).
Proof.
  intros Hnone. unfold generate_output_file, deref. unfold bind at 1.
  rewrite Hnone. eauto.
Qed.

Lemma generate_output_files_app (reader : PdfFileReader)
  (generated_callback : ref -> IO unit) (first later : list ref) (w : World) :
  generate_output_files reader (first ++ later) generated_callback w =
  match generate_output_files reader first generated_callback w with
  | (Ok _, w1) => generate_output_files reader later generated_callback w1
  | (Raise e, w1) => (Raise e, w1)
  end.
Proof.
  revert w. induction first as [|output first IH]; intros w; [done|].
  cbn [app generate_output_files]. unfold bind.
  destruct (generate_output_file reader output generated_callback w)
    as [[[]|e] w1]; [apply IH | done].
Qed.

Lemma run_copy_fails (reader : PdfFileReader) (before : list Z)
  (doc : list page) (page_number : Z) (after : list Z) (e : exn) :
  Forall2 (fun n p => getPage reader (n - 1) = Ok p) before doc ->
  getPage reader (page_number - 1) = Raise e ->
  forall writer calls,
    run_pages (copy_page reader) (before ++ page_number :: after) (writer, calls) =
    (Raise e,
     (writer ++ doc,
      calls ++ map (fun n => GetPage (n - 1)) (before ++ [page_number])),
     Some page_number).
Proof.
  intros Hread Hfail.
  induction Hread as [|n p before doc Hp _ IH]; intros writer calls.
  - cbn [app run_pages]. unfold copy_page. rewrite Hfail.
    cbn [fst snd map]. by rewrite app_nil_r.
  - cbn [app run_pages]. unfold copy_page at 1. rewrite Hp. cbn [fst snd].
    unfold addPage. rewrite IH. cbn [map app]. by rewrite <- !app_assoc.
Qed.

(** Copying fails: the reader raises on a page of the interval.  The
    output raises the same exception; it has called the reader up to that
    page and written nothing, and the cursor is on that page. *)
Lemma generate_output_file_copy_fails (reader : PdfFileReader) (output : ref)
  (generated_callback : ref -> IO unit) (self : OutputFile)
  (before : list Z) (doc : list page) (page_number : Z) (after : list Z)
  (e : exn) (w : World) :
  heap w !! output = Some self ->
  seqZ (current_page self) ((page_interval self).2 - current_page self + 1)
  = before ++ page_number :: after ->
  Forall2 (fun n p => getPage reader (n - 1) = Ok p) before doc ->
  getPage reader (page_number - 1) = Raise e ->
  generate_output_file reader output generated_callback w =
  (Raise e,
   {| stdin := stdin w; fs := fs w;
      heap := <[output := at_page self page_number]> (heap w);
      log := log w ++ map (fun n => GetPage (n - 1)) (before ++ [page_number]) |}).
Proof.
  intros Hself Hpages Hread Hfail.
  rewrite (generate_output_file_run _ _ _ self) by done.
  rewrite Hpages, (run_copy_fails _ _ _ _ _ _ Hread Hfail). done.
Qed.

(** Writing fails: the pages are read and the stream answers the write
    with an error.  The output raises that error before the callback. *)
Lemma generate_output_file_write_fails (reader : PdfFileReader) (output : ref)
  (generated_callback : ref -> IO unit) (self : OutputFile)
  (doc : list page) (err : exn) (w : World) :
  heap w !! output = Some self ->
  current_page self = (page_interval self).1 ->
  readable reader self doc ->
  fs w !! stream self = Some (Dev err) ->
  generate_output_file reader output generated_callback w =
  (Raise err,
   {| stdin := stdin w; fs := fs w;
      heap := <[output := exhausted self]> (heap w);
      log := log w ++ map (fun n => GetPage (n - 1)) (interval_pages self) |}).
Proof.
  intros Hself Hcur Hread Hdev.
  rewrite (generate_output_file_run _ _ _ self) by done.
  unfold readable, interval_pages in *. rewrite <- Hcur in *.
  rewrite (run_copy_ok _ _ _ Hread). cbv zeta.
  unfold bind, PdfFileWriter_write. cbn [emit set_heap fs]. by rewrite Hdev.
Qed.

(** An output that raises under the callback of [main] has read pages and
    done nothing else. *)
Lemma generate_output_file_raises (reader : PdfFileReader) (output : ref)
  (w : World) (e : exn) (w' : World) :
  generate_output_file reader output print_generated w = (Raise e, w') ->
  fs w' = fs w /\
  exists calls, log w' = log w ++ calls /\ Forall is_GetPage calls.
Proof.
  destruct (heap w !! output) as [self|] eqn:Hself.
  - intros Hgen.
    destruct (generate_output_file_outcome _ _ _ _ _ _ Hself Hgen)
      as (tried & self' & tail & _ & _ & _ & _ & Hlog & _ & -> & Hfs).
    split; [done|]. eexists. split; [exact Hlog|].
    rewrite app_nil_r. apply List.Forall_map, List.Forall_forall.
    intros n _. by eexists.
  - destruct (generate_output_file_dangling reader output print_generated w Hself)
      as [e' ->].
    intros [= _ <-]. split; [done|]. exists []. by rewrite app_nil_r.
Qed.

(** C6. When the generation of one output raises, after the outputs
    before it were generated, [generate_output_files] raises the same
    exception and stops there, whatever outputs come later in the plan:
    the world is the one the failing output left.  The failing output has
    only read pages, so the files written for the outputs before it are
    as they were.  [main] prints one line for the exception: the
    file-not-found line for [FileNotFoundError], the read-error line for
    the other classes of [OSError], and the unexpected-error line with
    the text of the exception for every other class. *)
Theorem generation_failure_aborts (selected_file : string)
  (reader : PdfFileReader) (finished : list ref) (failing : ref)
  (later : list ref) (w w1 w2 : World) (e : exn) :
  generate_output_files reader finished print_generated w = (Ok tt, w1) ->
  generate_output_file reader failing print_generated w1 = (Raise e, w2) ->
  generate_output_files reader (finished ++ failing :: later) print_generated w
  = (Raise e, w2) /\
  fs w2 = fs w1 /\
  (exists calls, log w2 = log w1 ++ calls /\ Forall is_GetPage calls) /\
  exists line,
    generate_and_report selected_file reader (finished ++ failing :: later) w
    = (Ok tt, emit [Print line] w2) /\
    (exn_class_of e = FileNotFoundError ->
     line = "File not found: " +:+ selected_file) /\
    (In (exn_class_of e) [NotADirectoryError; IsADirectoryError; OSError] ->
     line = "Error reading file: " +:+ selected_file) /\
    (~ In (exn_class_of e)
         [FileNotFoundError; NotADirectoryError; IsADirectoryError; OSError] ->
     line = "An unexpected error occurred: " +:+ exn_str e).
Proof.
  intros Hfinished Hfailing.
  assert (generate_output_files reader (finished ++ failing :: later)
            print_generated w = (Raise e, w2)) as Hgen.
  { rewrite generate_output_files_app, Hfinished.
    cbn [generate_output_files]. unfold bind. by rewrite Hfailing. }
  destruct (generate_output_file_raises _ _ _ _ _ Hfailing) as [Hfs Hlog].
  split; [done|]. split; [done|]. split; [done|].
  unfold generate_and_report, try_except. rewrite Hgen.
  unfold report_generation_error, is_FileNotFoundError, is_IOError, print.
  destruct e as [cls msg]. cbn [exn_class_of exn_str].
  destruct cls; eexists; (split; [reflexivity|]);
    split_and!; cbn [In]; intros Hcls; try done;
    exfalso; first [ intuition discriminate | apply Hcls; tauto ].
Qed.

(** ** Page indices *)

Lemma generate_output_files_indices (reader : PdfFileReader)
  (page_count : Z) (plan : list ref) :
  forall (w : World) (res : result unit) (w' : World),
    within page_count plan (heap w) ->
    generate_output_files reader plan print_generated w = (res, w') ->
    exists evs,
      log w' = log w ++ evs /\
      forall index, In (GetPage index) evs -> 0 <= index <= page_count - 1.
Proof.
  induction plan as [|output plan IH]; intros w res w' Hin.
  - intros [= <- <-]. exists []. by rewrite app_nil_r.
  - cbn [generate_output_files]. unfold bind.
    destruct (generate_output_file reader output print_generated w)
      as [r1 w1] eqn:Hone.
    destruct (heap w !! output) as [self|] eqn:Hself.
    + destruct (generate_output_file_outcome _ _ _ _ _ _ Hself Hone)
        as (tried & self' & tail & _ & Hheap & Hint & Hcur & Hlog & Htried & Htail).
      destruct (Hin output self) as [Hlo Hhi]; [by left | done |].
      assert (forall index,
                 In (GetPage index)
                   (map (fun page_number => GetPage (page_number - 1)) tried ++ tail) ->
                 0 <= index <= page_count - 1) as Hevs.
      { intros index [Hidx|Hidx]%in_app_or.
        - apply in_map_iff in Hidx as (n & [= <-] & Hn).
          apply Htried in Hn. lia.
        - destruct r1 as [[]|e1].
          + destruct Htail as [doc ->]. destruct Hidx as [[=]|[[=]|[]]].
          + destruct Htail as [-> _]. destruct Hidx. }
      destruct r1 as [[]|e1].
      * intros Hrest. apply IH in Hrest as (evs & Hlog' & Hevs').
        -- eexists. split; [rewrite Hlog', Hlog, <- app_assoc; reflexivity|].
           intros index [Hidx|Hidx]%in_app_or; auto.
        -- rewrite Hheap. intros r o Hr Ho.
           destruct (decide (r = output)) as [->|Hne].
           ++ rewrite list_lookup_insert_eq in Ho by (by eapply lookup_lt_Some).
              injection Ho as <-. rewrite Hint. lia.
           ++ rewrite list_lookup_insert_ne in Ho by done.
              apply (Hin r o); [by right | done].
      * intros [= <- <-]. eauto.
    + destruct (generate_output_file_dangling reader output print_generated w Hself)
        as [e He]. rewrite He in Hone. injection Hone as <- <-.
      intros [= <- <-]. exists []. by rewrite app_nil_r.
Qed.

(** C8. When every planned output has [1 <= start <= end_ <= page_count]
    and its cursor at [start], as the plans of [get_output_files] have
    ([get_output_files_planned]), every index given to the reader during
    generation, which is [page_number - 1] for a page number of an
    interval, is between [0] and [page_count - 1]; and for the reader of
    a document of [page_count] pages every one of these calls finds its
    page, so that no call ends in a page-out-of-range error. *)
Theorem page_indices_in_range (reader : PdfFileReader) (page_count : Z)
  (plan : list ref) (w : World) (res : result unit) (w' : World) :
  (forall output, In output plan ->
     exists self,
       heap w !! output = Some self /\
       1 <= (page_interval self).1 <= (page_interval self).2 /\
       (page_interval self).2 <= page_count /\
       current_page self = (page_interval self).1) ->
  generate_output_files reader plan print_generated w = (res, w') ->
  exists evs,
    log w' = log w ++ evs /\
    (forall index, In (GetPage index) evs -> 0 <= index <= page_count - 1) /\
    (forall doc,
        reader = reader_of doc -> getNumPages reader = page_count ->
        forall index, In (GetPage index) evs ->
                      exists p, getPage reader index = Ok p).
Proof.
  intros Hplan Hgen.
  destruct (generate_output_files_indices reader page_count plan w res w')
    as (evs & Hlog & Hevs); [|done|].
  { intros output self Hin Hself.
    destruct (Hplan output Hin) as (self0 & Hself0 & Hstart & Hend & Hcur).
    assert (self0 = self) as -> by congruence. lia. }
  exists evs. split; [done|]. split; [done|].
  intros doc -> Hn index Hidx. cbn [getNumPages reader_of] in Hn.
  destruct (getPage_in_range doc index) as (p & _ & Hp); [|by eauto].
  rewrite Hn. by apply Hevs.
Qed.

(** ** Collecting the plan *)

(** C10. One turn of the loop of [get_output_files]: whatever line is
    typed for the name, accepted by the validator or not, the name of the
    output is the trimmed line with [.pdf] appended, and the file of that
    name in the directory is opened for writing in this very turn, once
    the pages were asked.  When the file can be opened it is created, or
    emptied if it was there (a device stays as it is), and the turn ends
    with the file open and the new object in the plan, before the loop
    goes on and so before [get_output_files] returns the plan to be
    generated.  When it cannot be opened the exception leaves
    [get_output_files] in this turn and no object is built.  A plain name
    in a directory that can be reached can be opened when the path is free
    or a regular file; a name with a slash whose directory is missing ends
    in [FileNotFoundError].  A line of whitespace only gives the name
    [.pdf]. *)
Theorem output_file_opened_at_collection (path : string) (page_count : Z)
  (i : Z) (indices : list Z) (targets : list ref)
  (line : string) (bad1 : list string) (first : string)
  (bad2 : list string) (last : string) (rest : list string)
  (start end_ : Z) (w : World) :
  stdin w = line :: bad1 ++ first :: bad2 ++ last :: rest ->
  Forall (rejected 1 page_count) bad1 ->
  int_of_str first = Some start -> 1 <= start <= page_count ->
  Forall (rejected start page_count) bad2 ->
  int_of_str last = Some end_ -> start <= end_ <= page_count ->
  exists done out asked,
    trimmed line (strip line) /\
    verdict false (strip line) done out /\
    (blank line -> strip line +:+ ".pdf" = ".pdf") /\
    asked = {| stdin := rest; fs := fs w; heap := heap w;
               log := log w
                      ++ [Print "--------------------------------";
                          Print ("Output file " +:+ str_of_int (i + 1) +:+ ":");
                          Prompt "> File name: "]
                      ++ out
                      ++ flat_map (retry "> First page: " "Invalid page number") bad1
                      ++ [Prompt "> First page: "]
                      ++ flat_map (retry "> Last page: " "Invalid page number") bad2
                      ++ [Prompt "> Last page: "] |} /\
    (create_error (fs w) (os_path_join path (strip line +:+ ".pdf")) = None ->
     get_output_files_loop path page_count (i :: indices) targets w =
     get_output_files_loop path page_count indices
       (targets ++ [length (heap w)])
       {| stdin := rest;
          fs := match fs w !! os_path_join path (strip line +:+ ".pdf") with
                | Some (Dev _) => fs w
                | _ => <[os_path_join path (strip line +:+ ".pdf") := File None]>
                         (fs w)
                end;
          heap := heap w ++
                  [{| name := strip line +:+ ".pdf";
                      page_interval := (start, end_);
                      current_page := start;
                      stream := os_path_join path (strip line +:+ ".pdf") |}];
          log := log asked
                 ++ [Open (os_path_join path (strip line +:+ ".pdf")) "wb"] |}) /\
    (forall e,
        create_error (fs w) (os_path_join path (strip line +:+ ".pdf")) = Some e ->
        get_output_files_loop path page_count (i :: indices) targets w =
        (Raise e, asked)) /\
    (can_create (fs w) path (strip line +:+ ".pdf") ->
     create_error (fs w) (os_path_join path (strip line +:+ ".pdf")) = None /\
     forall err,
       fs w !! os_path_join path (strip line +:+ ".pdf") <> Some (Dev err)) /\
    (forall c more,
        strip line +:+ ".pdf" = c +:+ "/" +:+ more ->
        reaches (fs w) (os_path_join path "") ->
        plain c ->
        fs w !! (os_path_join path "" +:+ c) = None ->
        ~ In nul (chars more) ->
        (String.length (os_path_join path (strip line +:+ ".pdf")) < PATH_MAX)%nat ->
        create_error (fs w) (os_path_join path (strip line +:+ ".pdf")) =
        Some (os_error FileNotFoundError
                (os_path_join path (strip line +:+ ".pdf")))).
Proof.
  intros Hin Hbad1 Hfirst Hstart Hbad2 Hlast Hend.
  destruct (get_file_name_turn_verdict (PROMPT_STR +:+ "File name: ") false
              line (bad1 ++ first :: bad2 ++ last :: rest)
              (emit [Print ("Output file " +:+ str_of_int (i + 1) +:+ ":")]
                 (emit [Print "--------------------------------"] w)))
    as (done & out & Hv & Hturn); [exact Hin|].
  exists done, out. eexists.
  split; [apply strip_trimmed|]. split; [done|].
  split; [by intros ->%strip_blank|].
  split; [reflexivity|].
  assert (get_output_files_loop path page_count (i :: indices) targets w =
          match create_error (fs w) (os_path_join path (strip line +:+ ".pdf")) with
          | Some e =>
              (Raise e,
               {| stdin := rest; fs := fs w; heap := heap w;
                  log := log w
                         ++ [Print "--------------------------------";
                             Print ("Output file " +:+ str_of_int (i + 1) +:+ ":");
                             Prompt "> File name: "]
                         ++ out
                         ++ flat_map (retry "> First page: " "Invalid page number") bad1
                         ++ [Prompt "> First page: "]
                         ++ flat_map (retry "> Last page: " "Invalid page number") bad2
                         ++ [Prompt "> Last page: "] |})
          | None =>
              get_output_files_loop path page_count indices
                (targets ++ [length (heap w)])
                {| stdin := rest;
                   fs := match fs w !! os_path_join path (strip line +:+ ".pdf") with
                         | Some (Dev _) => fs w
                         | _ => <[os_path_join path (strip line +:+ ".pdf") := File None]>
                                  (fs w)
                         end;
                   heap := heap w ++
                           [{| name := strip line +:+ ".pdf";
                               page_interval := (start, end_);
                               current_page := start;
                               stream := os_path_join path (strip line +:+ ".pdf") |}];
                   log := (log w
                           ++ [Print "--------------------------------";
                               Print ("Output file " +:+ str_of_int (i + 1) +:+ ":");
                               Prompt "> File name: "]
                           ++ out
                           ++ flat_map (retry "> First page: " "Invalid page number") bad1
                           ++ [Prompt "> First page: "]
                           ++ flat_map (retry "> Last page: " "Invalid page number") bad2
                           ++ [Prompt "> Last page: "])
                          ++ [Open (os_path_join path (strip line +:+ ".pdf")) "wb"] |}
          end) as Hloop.
  { cbn [get_output_files_loop]. unfold bind at 1 2 3. unfold print at 1 2.
    unfold get_file_name. unfold bind at 1 2.
    rewrite Hturn. unfold ret at 1. cbn [fst].
    erewrite (get_int_returns _ _ _ _ bad1 first); [|reflexivity|done..].
    unfold bind at 1.
    erewrite (get_int_returns _ _ _ _ bad2 last); [|reflexivity|done..].
    unfold bind at 1. unfold OutputFile_init, bind, open_wb, alloc.
    cbn [emit set_fs set_heap stdin fs heap log fst].
    destruct (create_error (fs w) (os_path_join path (strip line +:+ ".pdf"))).
    - rewrite <- !app_assoc. reflexivity.
    - destruct (fs w !! os_path_join path (strip line +:+ ".pdf"))
        as [[data|entries|err]|];
        unfold set_heap, emit, set_fs; cbn [stdin fs heap log];
        rewrite <- !app_assoc; reflexivity. }
  split_and!.
  - intros Hopen. by rewrite Hloop, Hopen.
  - intros e Hopen. by rewrite Hloop, Hopen.
  - intros Hcan. split; [by apply can_create_no_error|].
    destruct Hcan as (_ & _ & _ & [Hfree|[data Hfree]]); by rewrite Hfree.
  - intros c more Hname Hdir Hc Hmissing Hnul Hlen.
    rewrite os_path_join_relative in *
      by (rewrite Hname; by apply plain_relative).
    rewrite Hname in *. by apply create_error_missing.
Qed.

(** ** The plan that [get_output_files] returns *)

Lemma get_int_within (prompt error_msg : string) (min_ max_ : Z)
  (w : World) (x : Z) (w' : World) :
  get_int prompt error_msg min_ max_ w = (Ok x, w') ->
  min_ <= x <= max_ /\ heap w' = heap w /\ fs w' = fs w.
Proof.
  remember (stdin w) as lines eqn:Hin. symmetry in Hin.
  revert w Hin. induction lines as [|line lines IH]; intros w Hin Hget.
  - destruct (get_int_eof prompt error_msg min_ max_ w Hin) as [e He].
    congruence.
  - destruct (rejected_dec min_ max_ line) as [Hrej | (y & Hy & Hrange)].
    + rewrite (get_int_rejects _ _ _ _ line lines) in Hget; [|done..].
      by apply IH in Hget.
    + rewrite (get_int_accepts _ _ _ _ line lines y) in Hget; [|done..].
      by injection Hget as <- <-.
Qed.

Lemma get_file_name_frame (prompt error_msg : string) (allow_hidden : bool)
  (w : World) (res : result string) (w' : World) :
  get_file_name prompt error_msg allow_hidden w = (res, w') ->
  heap w' = heap w /\ fs w' = fs w.
Proof.
  destruct (stdin w) as [|line rest] eqn:Hin.
  - unfold get_file_name, get_file_name_turn, bind, input.
    cbn [emit stdin]. rewrite Hin. by intros [= <- <-].
  - destruct (get_file_name_turn_verdict prompt allow_hidden line rest w Hin)
      as (done & out & _ & Hturn).
    unfold get_file_name, bind. rewrite Hturn. by intros [= <- <-].
Qed.

(** The loop of [get_output_files] adds one new object for each target,
    with the bounds that the prompts have enforced and its cursor at the
    start of its interval, and returns the references in the order of
    entry. *)
Lemma get_output_files_loop_planned (path : string) (page_count : Z)
  (indices : list Z) :
  forall (targets : list ref) (w : World) (plan : list ref) (w' : World),
    get_output_files_loop path page_count indices targets w = (Ok plan, w') ->
    exists outputs,
      length outputs = length indices /\
      plan = targets ++ seq (length (heap w)) (length outputs) /\
      heap w' = heap w ++ outputs /\
      Forall (planned page_count) outputs.
Proof.
  induction indices as [|i indices IH]; intros targets w plan w'.
  - intros [= <- <-]. exists []. by rewrite !app_nil_r.
  - cbn [get_output_files_loop]. unfold bind at 1 2 3. unfold print at 1 2.
    destruct (get_file_name _ _ _ _) as [[name_|e] w1] eqn:Hname; [|done].
    apply get_file_name_frame in Hname as [Hheap1 _]. cbn [emit heap] in Hheap1.
    unfold bind at 1.
    destruct (get_int _ _ 1 _ w1) as [[start|e] w2] eqn:Hstart; [|done].
    apply get_int_within in Hstart as (Hstart & Hheap2 & _).
    unfold bind at 1.
    destruct (get_int _ _ start _ w2) as [[end_|e] w3] eqn:Hend; [|done].
    apply get_int_within in Hend as (Hend & Hheap3 & _).
    unfold bind at 1. unfold OutputFile_init, bind, open_wb, alloc.
    destruct (create_error (fs w3) _); [done|].
    destruct (fs w3 !! _) as [[data|entries|err]|];
      (intros Hloop; apply IH in Hloop as (outputs & Hlen & -> & -> & Hall);
       cbn [emit set_fs set_heap heap fst] in *;
       rewrite Hheap3, Hheap2, Hheap1 in *;
       eexists (_ :: outputs);
       split; [cbn [length]; by rewrite Hlen|];
       split; [rewrite length_app; cbn [length seq];
               rewrite <- app_assoc, Nat.add_1_r; reflexivity|];
       split; [by rewrite <- app_assoc|];
       constructor; [|done]; unfold planned;
       cbn [page_interval current_page fst snd]; lia).
Qed.

(** The plan of [get_output_files]: distinct references to objects that
    are in the heap, within the bounds and not yet iterated. *)
Lemma get_output_files_planned (path : string) (page_count : Z)
  (w : World) (plan : list ref) (w' : World) :
  get_output_files path page_count w = (Ok plan, w') ->
  NoDup plan /\
  forall output, In output plan ->
    exists self, heap w' !! output = Some self /\ planned page_count self.
Proof.
  unfold get_output_files. unfold bind at 1 2. unfold print.
  destruct (get_int _ _ 1 100 _) as [[target_count|e] w1] eqn:Hcount; [|done].
  apply get_int_within in Hcount as (_ & Hheap & _). cbn [emit heap] in Hheap.
  intros Hloop.
  apply get_output_files_loop_planned in Hloop as (outputs & _ & -> & -> & Hall).
  cbn [app]. split; [apply NoDup_seq|].
  intros output Hin%in_seq.
  destruct (lookup_lt_is_Some_2 outputs (output - length (heap w1))) as [self Hself];
    [lia|].
  exists self. split.
  - rewrite lookup_app_r by lia. done.
  - rewrite List.Forall_forall in Hall. apply Hall.
    by eapply list_elem_of_In, list_elem_of_lookup_2.
Qed.

(** * Further properties of the code *)

(** ** [get_int] at the end of the input *)

Lemma get_int_at_eof (prompt error_msg : string) (min_ max_ : Z) (w : World) :
  stdin w = [] ->
  get_int prompt error_msg min_ max_ w =
  (Raise (Exn EOFError "EOF when reading a line"),
   {| stdin := []; fs := fs w; heap := heap w;
      log := log w ++ [Prompt prompt] |}).
Proof.
  intros Hin. rewrite get_int_turn. unfold input, emit. simpl. by rewrite Hin.
Qed.

Lemma get_int_all_rejected (prompt error_msg : string) (min_ max_ : Z)
  (w : World) :
  Forall (rejected min_ max_) (stdin w) ->
  get_int prompt error_msg min_ max_ w =
  (Raise (Exn EOFError "EOF when reading a line"),
   {| stdin := []; fs := fs w; heap := heap w;
      log := log w ++ flat_map (retry prompt error_msg) (stdin w)
               ++ [Prompt prompt] |}).
Proof.
  intros Hbad.
  rewrite (get_int_skips _ _ _ _ (stdin w) []); [|by rewrite app_nil_r|done].
  rewrite get_int_at_eof by done. cbn [stdin fs heap log].
  by rewrite <- app_assoc.
Qed.

Lemma get_int_all_rejected_inv (prompt error_msg : string) (min_ max_ : Z)
  (w : World) (e : exn) (w' : World) :
  get_int prompt error_msg min_ max_ w = (Raise e, w') ->
  Forall (rejected min_ max_) (stdin w) /\ stdin w' = [].
Proof.
  remember (stdin w) as lines eqn:Hin. symmetry in Hin.
  revert w Hin. induction lines as [|line lines IH]; intros w Hin Hget.
  - rewrite get_int_at_eof in Hget by done. injection Hget as <- <-.
    by split; [constructor|].
  - destruct (rejected_dec min_ max_ line) as [Hrej | (y & Hy & Hrange)].
    + rewrite (get_int_rejects _ _ _ _ line lines) in Hget; [|done..].
      apply IH in Hget as [Hbad Hrest]; [|done]. by split; [constructor|].
    + rewrite (get_int_accepts _ _ _ _ line lines y) in Hget; [|done..].
      discriminate.
Qed.

(** X1. The only way out of [get_int] besides returning is the end of the
    input: it raises exactly when no waiting line is a number within the
    bounds, the exception is the [EOFError] of [input], and by then it has
    read every line and answered each with its message.  A line that is
    not a number never makes it raise. *)
Theorem get_int_raises_only_at_eof (prompt error_msg : string)
  (min_ max_ : Z) (w : World) (e : exn) (w' : World) :
  get_int prompt error_msg min_ max_ w = (Raise e, w') <->
  Forall (rejected min_ max_) (stdin w) /\
  e = Exn EOFError "EOF when reading a line" /\
  w' = {| stdin := []; fs := fs w; heap := heap w;
          log := log w ++ flat_map (retry prompt error_msg) (stdin w)
                   ++ [Prompt prompt] |}.
Proof.
  split.
  - intros Hget. destruct (get_int_all_rejected_inv _ _ _ _ _ _ _ Hget) as [Hbad He].
    split; [done|]. rewrite get_int_all_rejected in Hget by done.
    by injection Hget as <- <-.
  - intros (Hbad & -> & ->). by apply get_int_all_rejected.
Qed.

(** X2. With bounds that leave no integer ([max_ < min_]) [get_int] never
    returns: whatever is typed, it reads the whole input and ends in
    [EOFError]. *)
Theorem get_int_empty_range (prompt error_msg : string) (min_ max_ : Z)
  (w : World) :
  max_ < min_ ->
  get_int prompt error_msg min_ max_ w =
  (Raise (Exn EOFError "EOF when reading a line"),
   {| stdin := []; fs := fs w; heap := heap w;
      log := log w ++ flat_map (retry prompt error_msg) (stdin w)
               ++ [Prompt prompt] |}).
Proof.
  intros Hempty. apply get_int_all_rejected.
  apply List.Forall_forall. intros line _ x _. lia.
Qed.

(** ** The directory scan, case by case *)

(** X3. [list_pdf_files] changes nothing in the world, whether it returns
    or raises, and it returns [None] exactly for the paths that do not
    exist. *)
Theorem list_pdf_files_none_iff_missing (directory_path : string) (w : World) :
  (forall res w', list_pdf_files directory_path w = (res, w') -> w' = w) /\
  (list_pdf_files directory_path w = (Ok None, w)
   <-> fs w !! directory_path = None).
Proof.
  destruct (fs w !! directory_path) as [[data|entries|err]|] eqn:Hpath.
  - rewrite list_pdf_files_not_a_directory by eauto.
    split; [by intros ? ? [= <- <-] | split; discriminate].
  - destruct (list_pdf_files_directory directory_path entries w Hpath)
      as (pdf_files & -> & _).
    split; [by intros ? ? [= <- <-] | split; discriminate].
  - rewrite list_pdf_files_not_a_directory by eauto.
    split; [by intros ? ? [= <- <-] | split; discriminate].
  - rewrite list_pdf_files_missing by done.
    split; [by intros ? ? [= <- <-] | done].
Qed.

(** X4. For a directory, [list_pdf_files] returns the entries whose
    lowercased name ends in [.pdf], each as often as it is listed and in
    the order of the listing, so upper-case extensions count; an entry
    that is not listed is never returned. *)
Theorem list_pdf_files_filters_listing (directory_path : string)
  (entries : list string) (w : World) :
  fs w !! directory_path = Some (Dir entries) ->
  exists pdf_files,
    list_pdf_files directory_path w = (Ok (Some pdf_files), w) /\
    pdf_files = List.filter (fun file => endswith (lower file) ".pdf") entries /\
    sublist pdf_files entries /\
    forall file,
      In file pdf_files <->
      In file entries /\ exists before, lower file = before +:+ ".pdf".
Proof.
  intros Hdir.
  destruct (list_pdf_files_directory directory_path entries w Hdir)
    as (pdf_files & Hrun & Hfilter & Hin).
  exists pdf_files. split_and!; try done.
  rewrite Hfilter. clear. induction entries as [|entry entries IH]; simpl.
  - constructor.
  - destruct (endswith (lower entry) ".pdf"); by constructor.
Qed.

(** ** [select_file] *)

Lemma get_int_frame (prompt error_msg : string) (min_ max_ : Z)
  (w : World) (res : result Z) (w' : World) :
  get_int prompt error_msg min_ max_ w = (res, w') ->
  heap w' = heap w /\ fs w' = fs w.
Proof.
  remember (stdin w) as lines eqn:Hin. symmetry in Hin.
  revert w Hin. induction lines as [|line lines IH]; intros w Hin Hget.
  - rewrite get_int_at_eof in Hget by done. by injection Hget as <- <-.
  - destruct (rejected_dec min_ max_ line) as [Hrej | (y & Hy & Hrange)].
    + rewrite (get_int_rejects _ _ _ _ line lines) in Hget; [|done..].
      by apply IH in Hget.
    + rewrite (get_int_accepts _ _ _ _ line lines y) in Hget; [|done..].
      by injection Hget as <- <-.
Qed.

Lemma for_each_menu (files : list string) :
  forall (i : Z) (w : World),
    for_each (enumerate_from i files)
      (fun '(i, file) => print (str_of_int (i + 1) +:+ ". " +:+ file)) w =
    (Ok tt,
     emit (imap (fun k file =>
                   Print (str_of_int (i + Z.of_nat k + 1) +:+ ". " +:+ file))
             files) w).
Proof.
  induction files as [|file files IH]; intros i w.
  - cbn. by rewrite emit_nil.
  - cbn [enumerate_from for_each imap]. unfold bind, print at 1. rewrite IH.
    unfold emit. cbn [stdin fs heap log]. rewrite <- app_assoc. cbn [app].
    replace (i + Z.of_nat 0 + 1) with (i + 1) by lia.
    do 4 f_equal. apply imap_ext. intros k file' _. cbn. do 3 f_equal. lia.
Qed.

(** X5. [select_file] prints the heading and one numbered line for each
    file, asks until a number between 1 and the number of files is typed,
    and returns the file at that position counted from 1: the first file
    for 1, the last for the number of files.  It never ends in an index
    error. *)
Theorem select_file_returns_choice (files : list string)
  (bad : list string) (line : string) (rest : list string) (k : Z)
  (w : World) :
  stdin w = bad ++ line :: rest ->
  Forall (rejected 1 (Z.of_nat (length files))) bad ->
  int_of_str line = Some k ->
  1 <= k <= Z.of_nat (length files) ->
  exists file,
    files !! Z.to_nat (k - 1) = Some file /\
    select_file files w =
    (Ok file,
     {| stdin := rest; fs := fs w; heap := heap w;
        log := log w
               ++ [Print (newline +:+ "Select a file to split:")]
               ++ menu files
               ++ flat_map
                    (retry "> " ("Please enter a number between 1 and "
                                   +:+ str_of_int (Z.of_nat (length files))))
                    bad
               ++ [Prompt "> "] |}).
Proof.
  intros Hin Hbad Hline Hk.
  destruct (py_index_in_range files (k - 1)) as (file & Hfile & Hidx); [lia|].
  exists file. split; [done|].
  unfold select_file. unfold bind at 1 2 3. unfold print.
  rewrite for_each_menu.
  erewrite (get_int_returns _ _ _ _ bad line rest k); [|exact Hin|done..].
  rewrite Hidx. unfold ret, emit, menu. cbn [stdin fs heap log].
  by rewrite <- !app_assoc.
Qed.

(** X6. With no file to choose from, [select_file] never returns: no
    number is between 1 and 0, so it reads the whole input and ends in
    [EOFError].  ([main] does not call it with an empty list.) *)
Theorem select_file_nothing_to_select (w : World) :
  select_file [] w =
  (Raise (Exn EOFError "EOF when reading a line"),
   {| stdin := []; fs := fs w; heap := heap w;
      log := log w
             ++ [Print (newline +:+ "Select a file to split:")]
             ++ flat_map (retry "> " "Please enter a number between 1 and 0")
                  (stdin w)
             ++ [Prompt "> "] |}).
Proof.
  unfold select_file. unfold bind at 1 2 3. unfold print.
  rewrite for_each_menu. cbn [imap length Z.of_nat].
  rewrite get_int_all_rejected.
  - unfold emit. cbn [stdin fs heap log]. rewrite app_nil_r.
    by rewrite <- !app_assoc.
  - apply List.Forall_forall. intros line _ x _. lia.
Qed.

(** ** The plan of [get_output_files] *)

Lemma range_length (n : Z) : length (range n) = Z.to_nat n.
Proof. unfold range. by rewrite length_map, length_seq. Qed.

Lemma range_first (n : Z) : 1 <= n -> exists indices, range n = 0 :: indices.
Proof.
  intros Hn. unfold range. destruct (Z.to_nat n) as [|m] eqn:Hm; [lia|].
  cbn [seq map]. eauto.
Qed.

Lemma get_file_name_at_eof (prompt error_msg : string) (allow_hidden : bool)
  (w : World) :
  stdin w = [] ->
  get_file_name prompt error_msg allow_hidden w =
  (Raise (Exn EOFError "EOF when reading a line"),
   {| stdin := []; fs := fs w; heap := heap w;
      log := log w ++ [Prompt prompt] |}).
Proof.
  intros Hin. unfold get_file_name, get_file_name_turn, bind, input, emit.
  cbn [stdin]. by rewrite Hin.
Qed.

Lemma get_file_name_returns (prompt error_msg : string) (allow_hidden : bool)
  (line : string) (rest : list string) (w : World) :
  stdin w = line :: rest ->
  exists out,
    get_file_name prompt error_msg allow_hidden w =
    (Ok (strip line),
     {| stdin := rest; fs := fs w; heap := heap w;
        log := log w ++ Prompt prompt :: out |}).
Proof.
  intros Hin.
  destruct (get_file_name_turn_verdict prompt allow_hidden line rest w Hin)
    as (done & out & _ & Hturn).
  exists out. unfold get_file_name, bind. by rewrite Hturn.
Qed.

Lemma get_output_files_loop_built (path : string) (page_count : Z)
  (indices : list Z) :
  forall (targets : list ref) (w : World) (plan : list ref) (w' : World),
    get_output_files_loop path page_count indices targets w = (Ok plan, w') ->
    exists outputs,
      length outputs = length indices /\
      plan = targets ++ seq (length (heap w)) (length outputs) /\
      heap w' = heap w ++ outputs /\
      Forall (built path page_count) outputs.
Proof.
  induction indices as [|i indices IH]; intros targets w plan w'.
  - intros [= <- <-]. exists []. by rewrite !app_nil_r.
  - cbn [get_output_files_loop]. unfold bind at 1 2 3. unfold print at 1 2.
    destruct (get_file_name _ _ _ _) as [[name_|e] w1] eqn:Hname; [|done].
    apply get_file_name_frame in Hname as [Hheap1 _]. cbn [emit heap] in Hheap1.
    unfold bind at 1.
    destruct (get_int _ _ 1 _ w1) as [[start|e] w2] eqn:Hstart; [|done].
    apply get_int_within in Hstart as (Hstart & Hheap2 & _).
    unfold bind at 1.
    destruct (get_int _ _ start _ w2) as [[end_|e] w3] eqn:Hend; [|done].
    apply get_int_within in Hend as (Hend & Hheap3 & _).
    unfold bind at 1. unfold OutputFile_init, bind, open_wb, alloc.
    destruct (create_error (fs w3) _); [done|].
    destruct (fs w3 !! _) as [[data|entries|err]|];
      (intros Hloop; apply IH in Hloop as (outputs & Hlen & -> & -> & Hall);
       cbn [emit set_fs set_heap heap fst] in *;
       rewrite Hheap3, Hheap2, Hheap1 in *;
       eexists (_ :: outputs);
       split; [cbn [length]; by rewrite Hlen|];
       split; [rewrite length_app; cbn [length seq];
               rewrite <- app_assoc, Nat.add_1_r; reflexivity|];
       split; [by rewrite <- app_assoc|];
       constructor; [|done]; unfold built, planned;
       cbn [page_interval current_page name stream fst snd];
       split_and!; eauto; lia).
Qed.

(** X7. Whenever [get_output_files] returns a plan, the plan holds
    between 1 and 100 outputs; they are new objects, added to the heap in
    the order of entry and referred to in that order, so the references are
    distinct; the objects that were there are as they were; and every
    output has [1 <= start <= end_ <= page_count], its cursor at [start], a
    name ending in [.pdf] and the file of that name in the directory as
    its stream. *)
Theorem get_output_files_plan (path : string) (page_count : Z)
  (w : World) (plan : list ref) (w' : World) :
  get_output_files path page_count w = (Ok plan, w') ->
  exists outputs,
    (1 <= length outputs <= 100)%nat /\
    plan = seq (length (heap w)) (length outputs) /\
    NoDup plan /\
    heap w' = heap w ++ outputs /\
    Forall (built path page_count) outputs.
Proof.
  unfold get_output_files. unfold bind at 1 2. unfold print.
  destruct (get_int _ _ 1 100 _) as [[target_count|e] w1] eqn:Hcount; [|done].
  apply get_int_within in Hcount as (Hrange & Hheap & _). cbn [emit heap] in Hheap.
  intros Hloop.
  apply get_output_files_loop_built in Hloop as (outputs & Hlen & -> & -> & Hall).
  rewrite range_length in Hlen. rewrite Hheap. cbn [app].
  exists outputs. split_and!; try done; try lia. apply NoDup_seq.
Qed.

(** X8. For a source without pages ([page_count < 1]) no output can be
    planned: whatever is typed, [get_output_files] reads the whole input
    and ends in [EOFError], since no first page is between 1 and
    [page_count]; it creates no file and no object. *)
Theorem get_output_files_no_pages (path : string) (page_count : Z) (w : World) :
  page_count < 1 ->
  exists w',
    get_output_files path page_count w =
    (Raise (Exn EOFError "EOF when reading a line"), w') /\
    stdin w' = [] /\ heap w' = heap w /\ fs w' = fs w.
Proof.
  intros Hpages. unfold get_output_files. unfold bind at 1 2. unfold print.
  destruct (get_int _ _ 1 100 _) as [[target_count|e] w1] eqn:Hcount.
  - apply get_int_within in Hcount as (Hrange & Hheap & Hfs).
    cbn [emit heap fs] in Hheap, Hfs.
    destruct (range_first target_count) as [indices ->]; [lia|].
    cbn [get_output_files_loop]. unfold bind at 1 2 3. unfold print at 1 2.
    destruct (stdin w1) as [|line rest] eqn:Hin.
    + rewrite get_file_name_at_eof by done. eexists. split; [reflexivity|].
      cbn [stdin heap fs emit]. by rewrite Hheap, Hfs.
    + match goal with
      | |- context [get_file_name ?p ?e ?a ?w0] =>
          destruct (get_file_name_returns p e a line rest w0) as (out & ->);
            [exact Hin|]
      end.
      unfold bind at 1.
      rewrite get_int_all_rejected
        by (apply List.Forall_forall; intros ? _ ? _; lia).
      eexists. split; [reflexivity|].
      cbn [stdin heap fs emit]. by rewrite Hheap, Hfs.
  - pose proof Hcount as Hframe. apply get_int_frame in Hframe as [Hheap Hfs].
    pose proof Hcount as Hraise.
    apply get_int_all_rejected_inv in Hraise as [Hbad Hrest].
    rewrite get_int_all_rejected in Hcount by done. injection Hcount as <- <-.
    eexists. split; [reflexivity|]. done.
Qed.

(** ** Collecting a whole plan *)

Lemma get_int_answers (prompt error_msg : string) (min_ max_ : Z)
  (a : answer) (x : Z) (rest : list string) (w : World) :
  stdin w = answer_lines a ++ rest ->
  answers min_ max_ a x ->
  get_int prompt error_msg min_ max_ w =
  (Ok x, {| stdin := rest; fs := fs w; heap := heap w;
            log := log w ++ flat_map (retry prompt error_msg) (skipped a)
                     ++ [Prompt prompt] |}).
Proof.
  intros Hin (Hbad & Hx & Hrange).
  apply (get_int_returns _ _ _ _ (skipped a) (typed a) rest); try done.
  rewrite Hin. unfold answer_lines. by rewrite <- app_assoc.
Qed.

(** Creating one file of the directory leaves the others as easy to
    create as they were. *)
Lemma can_create_insert (files : gmap string node) (path p q : string) :
  can_create files path p -> can_create files path q ->
  can_create (<[os_path_join path p := File None]> files) path q.
Proof.
  intros (_ & _ & _ & Hp) (Hdir & Hq & Hlen & Hfree).
  split_and!; [|done|done|].
  - apply reaches_insert; [|done].
    intros entries. by destruct Hp as [->|[data ->]].
  - destruct (decide (os_path_join path p = os_path_join path q)) as [->|Hne].
    + rewrite lookup_insert_eq. eauto.
    + by rewrite lookup_insert_ne.
Qed.

Lemma can_create_opens (path name_ : string) (w : World) :
  can_create (fs w) path name_ ->
  open_wb (os_path_join path name_) w =
  (Ok (os_path_join path name_),
   emit [Open (os_path_join path name_) "wb"]
     (set_fs (<[os_path_join path name_ := File None]> (fs w)) w)).
Proof.
  intros Hcan. unfold open_wb. rewrite can_create_no_error by done.
  by destruct Hcan as (_ & _ & _ & [->|[data ->]]).
Qed.

(** One turn of the loop of [get_output_files], for what is typed as
    [t]. *)
Lemma get_output_files_loop_turn (path : string) (page_count : Z)
  (i : Z) (indices : list Z) (targets : list ref) (t : target)
  (rest : list string) (w : World) :
  stdin w = target_lines t ++ rest ->
  well_typed page_count t ->
  can_create (fs w) path (strip (name_line t) +:+ ".pdf") ->
  exists evs,
    get_output_files_loop path page_count (i :: indices) targets w =
    get_output_files_loop path page_count indices
      (targets ++ [length (heap w)])
      {| stdin := rest;
         fs := <[destination path t := File None]> (fs w);
         heap := heap w ++ [target_object path t];
         log := log w ++ evs |}.
Proof.
  intros Hin [Hfirst Hlast] Hdest.
  unfold target_lines in Hin. cbn [app] in Hin. rewrite <- app_assoc in Hin.
  cbn [get_output_files_loop]. unfold bind at 1 2 3. unfold print at 1 2.
  match goal with
  | |- context [get_file_name ?p ?e ?a ?w0] =>
      destruct (get_file_name_returns p e a (name_line t)
                  (answer_lines (first_page t)
                     ++ answer_lines (last_page t) ++ rest) w0)
        as (out & ->); [exact Hin|]
  end.
  unfold bind at 1.
  erewrite (get_int_answers _ _ _ _ (first_page t) (start_page t));
    [|reflexivity|done].
  unfold bind at 1.
  erewrite (get_int_answers _ _ _ _ (last_page t) (end_page t));
    [|reflexivity|done].
  unfold bind at 1. unfold OutputFile_init. unfold bind at 1.
  rewrite can_create_opens by exact Hdest. unfold alloc.
  eexists. unfold target_object, destination, set_heap, emit, set_fs.
  cbn [stdin fs heap log]. rewrite <- !app_assoc. reflexivity.
Qed.

Lemma get_output_files_loop_collects (path : string) (page_count : Z)
  (ts : list target) :
  forall (indices : list Z) (targets : list ref) (rest : list string)
         (w : World),
    length indices = length ts ->
    stdin w = concat (map target_lines ts) ++ rest ->
    Forall (well_typed page_count) ts ->
    Forall (fun t => can_create (fs w) path (strip (name_line t) +:+ ".pdf"))
      ts ->
    exists evs,
      get_output_files_loop path page_count indices targets w =
      (Ok (targets ++ seq (length (heap w)) (length ts)),
       {| stdin := rest;
          fs := created (fs w) (map (destination path) ts);
          heap := heap w ++ map (target_object path) ts;
          log := log w ++ evs |}).
Proof.
  induction ts as [|t ts IH]; intros indices targets rest w Hlen Hin Htyped Hfree.
  - destruct indices; [|done]. exists []. cbn. rewrite !app_nil_r.
    cbn in Hin. rewrite <- Hin. by destruct w.
  - destruct indices as [|i indices]; [done|].
    inversion Htyped as [|? ? Ht Hts]; subst.
    inversion Hfree as [|? ? Hd Hds]; subst.
    cbn [map concat] in Hin. rewrite <- app_assoc in Hin.
    destruct (get_output_files_loop_turn path page_count i indices targets t
                _ w Hin Ht Hd) as (evs & ->).
    edestruct (IH indices) as (evs' & ->).
    + cbn in Hlen. lia.
    + reflexivity.
    + done.
    + cbn [fs]. eapply List.Forall_impl; [|exact Hds].
      intros t'. by apply can_create_insert.
    + exists (evs ++ evs'). cbn [stdin fs heap log map created foldl length seq].
      rewrite length_app. cbn [length]. rewrite Nat.add_1_r.
      by rewrite <- !app_assoc.
Qed.

(** X9. What [get_output_files] does with well-formed input: after the
    count [n] (taken between 1 and 100) and, for each of the [n] outputs,
    a line for the name, a first page between 1 and [page_count] and a last
    page between the first page and [page_count], where the directory can
    be reached and every name, trimmed and with [.pdf] appended, is a
    plain name whose file in the directory is free or a regular file, it
    returns [n] new outputs in the order of entry, each with the interval
    typed and named after the trimmed line with [.pdf] appended; it has
    read exactly these lines, and every destination is an empty file by
    then. *)
Theorem get_output_files_collects (path : string) (page_count : Z)
  (count : answer) (ts : list target) (rest : list string) (w : World) :
  stdin w = answer_lines count ++ concat (map target_lines ts) ++ rest ->
  answers 1 100 count (Z.of_nat (length ts)) ->
  Forall (well_typed page_count) ts ->
  Forall (fun t => can_create (fs w) path (strip (name_line t) +:+ ".pdf")) ts ->
  exists w',
    get_output_files path page_count w =
    (Ok (seq (length (heap w)) (length ts)), w') /\
    stdin w' = rest /\
    heap w' = heap w ++ map (target_object path) ts /\
    fs w' = created (fs w) (map (destination path) ts).
Proof.
  intros Hin Hcount Htyped Hfree.
  unfold get_output_files. unfold bind at 1 2. unfold print.
  erewrite (get_int_answers _ _ _ _ count); [|exact Hin|done].
  edestruct (get_output_files_loop_collects path page_count ts
               (range (Z.of_nat (length ts))) [] rest) as (evs & ->);
    [by rewrite range_length, Nat2Z.id | reflexivity | done | done |].
  eexists. split; [reflexivity|]. done.
Qed.

(** ** The pages an output receives *)

Lemma reader_of_slice (doc : list page) (self : OutputFile) :
  1 <= (page_interval self).1 ->
  (page_interval self).2 <= Z.of_nat (length doc) ->
  readable (reader_of doc) self
    (slice doc (page_interval self).1 (page_interval self).2).
Proof.
  intros Hstart Hend. unfold readable, interval_pages, slice.
  set (start := (page_interval self).1) in *.
  set (end_ := (page_interval self).2) in *.
  apply Forall2_same_length_lookup_2.
  - rewrite length_seqZ, length_take, length_drop. lia.
  - intros i n p Hn Hp. apply lookup_seqZ in Hn as [-> Hi].
    apply lookup_take_Some in Hp as [Hp _]. rewrite lookup_drop in Hp.
    destruct (getPage_in_range doc (start + Z.of_nat i - 1)) as (p' & Hp' & ->);
      [lia|].
    replace (Z.to_nat (start + Z.of_nat i - 1))
      with (Z.to_nat (start - 1) + i)%nat in Hp' by lia.
    congruence.
Qed.

(** X10. An output with the interval [(start, end_)], where
    [1 <= start <= end_] and [end_] is at most the number of pages of the
    source, receives pages [start] to [end_] of the source in their order,
    which are [end_ - start + 1] pages, and no other page. *)
Theorem output_receives_slice (doc : list page) (output : ref)
  (self : OutputFile) (start end_ : Z)
  (generated_callback : ref -> IO unit) (said : OutputFile -> list event)
  (w : World) :
  logs_only generated_callback said ->
  heap w !! output = Some self ->
  page_interval self = (start, end_) ->
  current_page self = start ->
  1 <= start <= end_ /\ end_ <= getNumPages (reader_of doc) ->
  (forall err, fs w !! stream self <> Some (Dev err)) ->
  exists w',
    generate_output_files (reader_of doc) [output] generated_callback w
    = (Ok tt, w') /\
    fs w' = <[stream self := File (Some (slice doc start end_))]> (fs w) /\
    Z.of_nat (length (slice doc start end_)) = end_ - start + 1 /\
    forall i, 0 <= i < end_ - start + 1 ->
      slice doc start end_ !! Z.to_nat i = doc !! Z.to_nat (start - 1 + i).
Proof.
  intros Hcb Hself Hint Hcur [Hstart Hend] Hdev.
  cbn [getNumPages reader_of] in Hend.
  eexists. cbn [generate_output_files]. unfold bind.
  rewrite (generate_output_file_ok _ _ _ said self (slice doc start end_));
    try done.
  - unfold ret. split; [reflexivity|]. split; [done|].
    unfold slice. split.
    + rewrite length_take, length_drop. lia.
    + intros i Hi. rewrite lookup_take_lt by lia. rewrite lookup_drop.
      f_equal. lia.
  - by rewrite Hint.
  - pose proof (reader_of_slice doc self) as Hslice.
    rewrite Hint in Hslice. cbn [fst snd] in Hslice. apply Hslice; lia.
Qed.

(** ** What generation leaves alone *)

Lemma generate_output_file_effect (reader : PdfFileReader) (output : ref)
  (self : OutputFile) (w : World) (res : result unit) (w' : World) :
  heap w !! output = Some self ->
  generate_output_file reader output print_generated w = (res, w') ->
  stdin w' = stdin w /\
  (exists c, heap w' = <[output := at_page self c]> (heap w)) /\
  (fs w' = fs w \/
   exists doc, fs w' = <[stream self := File (Some doc)]> (fs w)).
Proof.
  intros Hself. rewrite (generate_output_file_run _ _ _ self) by done.
  destruct (run_pages _ _ _) as [[copied [writer calls]] stop].
  cbv zeta. set (self' := at_page self _).
  assert (<[output := self']> (heap w) !! output = Some self') as Hself'.
  { apply list_lookup_insert_eq. by eapply lookup_lt_Some. }
  destruct copied as [[]|e].
  - unfold bind, PdfFileWriter_write. cbn [emit set_heap fs].
    destruct (fs w !! stream self) as [[data|entries|err]|].
    1,2,4: unfold print_generated, bind, deref;
      cbn [emit set_fs set_heap heap]; rewrite Hself';
      intros [= <- <-]; cbn [stdin heap fs emit set_fs set_heap print];
      split_and!; eauto.
    intros [= <- <-]. cbn [stdin heap fs emit set_heap]. split_and!; eauto.
  - intros [= <- <-]. cbn [stdin heap fs emit set_heap]. split_and!; eauto.
Qed.

Lemma generate_output_files_frame (reader : PdfFileReader) (plan : list ref) :
  forall (w : World) (res : result unit) (w' : World),
    generate_output_files reader plan print_generated w = (res, w') ->
    stdin w' = stdin w /\
    length (heap w') = length (heap w) /\
    (forall r, r ∉ plan -> heap w' !! r = heap w !! r) /\
    (forall (r : ref) self, heap w !! r = Some self ->
       exists c, heap w' !! r = Some (at_page self c)) /\
    (forall path,
        (forall output self,
            output ∈ plan -> heap w !! output = Some self ->
            stream self <> path) ->
        fs w' !! path = fs w !! path).
Proof.
  induction plan as [|output plan IH]; intros w res w'.
  - intros [= <- <-]. split_and!; try done.
    intros r self Hr. exists (current_page self). by rewrite at_page_current.
  - cbn [generate_output_files]. unfold bind.
    destruct (generate_output_file reader output print_generated w)
      as [r1 w1] eqn:Hone.
    assert (stdin w1 = stdin w /\
            length (heap w1) = length (heap w) /\
            (forall r, r <> output -> heap w1 !! r = heap w !! r) /\
            (forall (r : ref) self, heap w !! r = Some self ->
               exists c, heap w1 !! r = Some (at_page self c)) /\
            (forall path,
                (forall self, heap w !! output = Some self -> stream self <> path) ->
                fs w1 !! path = fs w !! path)) as (Hin1 & Hlen1 & Hne1 & Hsame1 & Hfs1).
    { destruct (heap w !! output) as [self|] eqn:Hself.
      - destruct (generate_output_file_effect _ _ _ _ _ _ Hself Hone)
          as (Hin & (c & Hheap) & Hfs).
        rewrite Hheap. split_and!; try done.
        + by rewrite length_insert.
        + intros r Hr. by rewrite list_lookup_insert_ne.
        + intros r self0 Hr. destruct (decide (r = output)) as [->|Hne].
          * rewrite list_lookup_insert_eq by (by eapply lookup_lt_Some).
            assert (self0 = self) as -> by congruence. eauto.
          * rewrite list_lookup_insert_ne by done.
            exists (current_page self0). by rewrite at_page_current.
        + intros path Hpath. specialize (Hpath self eq_refl).
          destruct Hfs as [-> | [doc ->]]; [done|]. by rewrite lookup_insert_ne.
      - destruct (generate_output_file_dangling reader output print_generated w Hself)
          as [e He]. rewrite He in Hone. injection Hone as <- <-.
        split_and!; try done.
        intros r self Hr. exists (current_page self). by rewrite at_page_current. }
    destruct r1 as [[]|e1].
    + intros Hrest. apply IH in Hrest as (Hin & Hlen & Hne & Hsame & Hfs).
      split_and!.
      * congruence.
      * congruence.
      * intros r Hr. apply not_elem_of_cons in Hr as [Hr1 Hr2].
        rewrite Hne by done. by apply Hne1.
      * intros r self Hr. destruct (Hsame1 r self Hr) as (c1 & Hr1).
        destruct (Hsame r _ Hr1) as (c2 & Hr2). exists c2. by rewrite Hr2.
      * intros path Hpath. rewrite Hfs.
        -- apply Hfs1. intros self Hself. apply (Hpath output); [left|done].
        -- intros r self1 Hr Hself1.
           destruct (lookup_lt_is_Some_2 (heap w) r) as [self0 Hself0].
           { rewrite <- Hlen1. by eapply lookup_lt_Some. }
           destruct (Hsame1 r self0 Hself0) as (c & Hr1).
           assert (self1 = at_page self0 c) as -> by congruence.
           cbn [stream at_page]. apply (Hpath r); [by right|done].
    + intros [= <- <-]. split_and!; try done.
      * intros r Hr. apply not_elem_of_cons in Hr as [Hr1 Hr2]. by apply Hne1.
      * intros path Hpath. apply Hfs1. intros self Hself.
        apply (Hpath output); [left|done].
Qed.

(** X11. What generation never does, whether it succeeds or raises: it
    reads no line of input; it adds no object to the heap and removes
    none; an object keeps its name, its interval and its stream, only the
    cursor moves, and an object that is not in the plan keeps its cursor
    too; and a file that is not the stream of a planned output is as it
    was.  In particular the source file is as it was unless an output was
    given its path. *)
Theorem generation_leaves_the_rest (reader : PdfFileReader) (plan : list ref)
  (w : World) (res : result unit) (w' : World) :
  generate_output_files reader plan print_generated w = (res, w') ->
  stdin w' = stdin w /\
  length (heap w') = length (heap w) /\
  (forall r, r ∉ plan -> heap w' !! r = heap w !! r) /\
  (forall (r : ref) self,
      heap w !! r = Some self ->
      exists self',
        heap w' !! r = Some self' /\
        name self' = name self /\
        page_interval self' = page_interval self /\
        stream self' = stream self) /\
  (forall path,
      (forall output self,
          output ∈ plan -> heap w !! output = Some self ->
          stream self <> path) ->
      fs w' !! path = fs w !! path).
Proof.
  intros Hgen.
  destruct (generate_output_files_frame reader plan w res w' Hgen)
    as (Hin & Hlen & Hne & Hsame & Hfs).
  split_and!; try done.
  intros r self Hr. destruct (Hsame r self Hr) as (c & Hc).
  by exists (at_page self c).
Qed.

(** ** Outputs that were iterated before *)

Lemma generate_output_file_exhausted (reader : PdfFileReader) (output : ref)
  (generated_callback : ref -> IO unit) (said : OutputFile -> list event)
  (self : OutputFile) (w : World) :
  heap w !! output = Some self ->
  (page_interval self).2 < current_page self ->
  (forall err, fs w !! stream self <> Some (Dev err)) ->
  logs_only generated_callback said ->
  generate_output_file reader output generated_callback w =
  (Ok tt,
   {| stdin := stdin w;
      fs := <[stream self := File (Some [])]> (fs w);
      heap := heap w;
      log := log w ++ [Write (stream self) []] ++ said self |}).
Proof.
  intros Hself Hcur Hdev Hcb.
  rewrite (generate_output_file_run _ _ _ self) by done.
  rewrite seqZ_nil by lia. cbn [run_pages]. cbv zeta.
  rewrite Z.max_l by lia. rewrite at_page_current.
  rewrite list_insert_id by done.
  unfold bind, PdfFileWriter_write, PdfFileWriter_new.
  cbn [emit set_heap fs].
  destruct (fs w !! stream self) as [[data|entries|err]|] eqn:Hs;
    [| |by destruct (Hdev err)|];
    (erewrite Hcb; [|cbn [emit set_fs set_heap heap]; exact Hself]);
    unfold emit, set_fs, set_heap; cbn [stdin fs heap log];
    destruct w; cbn [stdin fs heap log]; by rewrite app_nil_r, <- app_assoc.
Qed.

(** X12. The cursor of an output is not reset: when a plan of one output
    has been generated and is generated once more, the second run reads no
    page and writes a document without pages to the same stream, in place
    of the document of the first run, and calls the callback again. *)
Theorem generating_twice_writes_no_pages (reader : PdfFileReader)
  (output : ref) (generated_callback : ref -> IO unit)
  (said : OutputFile -> list event) (self : OutputFile)
  (doc : list page) (w : World) :
  logs_only generated_callback said ->
  heap w !! output = Some self ->
  current_page self = (page_interval self).1 ->
  readable reader self doc ->
  (forall err, fs w !! stream self <> Some (Dev err)) ->
  exists w1 w2,
    generate_output_files reader [output] generated_callback w = (Ok tt, w1) /\
    fs w1 !! stream self = Some (File (Some doc)) /\
    generate_output_files reader [output] generated_callback w1 = (Ok tt, w2) /\
    fs w2 !! stream self = Some (File (Some [])) /\
    log w2 = log w1 ++ [Write (stream self) []] ++ said (exhausted self).
Proof.
  intros Hcb Hself Hcur Hread Hdev.
  eexists _, _. split.
  { cbn [generate_output_files]. unfold bind.
    rewrite (generate_output_file_ok _ _ _ said self doc) by done.
    reflexivity. }
  cbn [fs]. split; [by rewrite lookup_insert_eq|].
  cbn [generate_output_files]. unfold bind.
  rewrite (generate_output_file_exhausted _ _ _ said (exhausted self)).
  - unfold ret. split; [reflexivity|]. cbn [fs log stream exhausted at_page].
    split; [by rewrite lookup_insert_eq | done].
  - cbn [heap]. apply list_lookup_insert_eq. by eapply lookup_lt_Some.
  - cbn [exhausted at_page current_page page_interval]. lia.
  - cbn [fs exhausted at_page stream]. intros err.
    by rewrite lookup_insert_eq.
  - done.
Qed.

(** X13. A copy that fails leaves the cursor on the page that failed.
    When the reader raises on page [p] of an output, after the pages before
    [p] were read, generation raises the same exception, nothing has been
    written, and the pages that the object yields from then on are [p] to
    the end of the interval: the page that failed comes again, the pages
    before it do not. *)
Theorem failed_copy_stays_on_page (reader : PdfFileReader)
  (output : ref) (later : list ref) (generated_callback : ref -> IO unit)
  (self : OutputFile) (p : Z) (before_doc : list page) (e : exn) (w : World) :
  heap w !! output = Some self ->
  current_page self <= p <= (page_interval self).2 ->
  Forall2 (fun n pg => getPage reader (n - 1) = Ok pg)
    (seqZ (current_page self) (p - current_page self)) before_doc ->
  getPage reader (p - 1) = Raise e ->
  exists w' w'',
    generate_output_files reader (output :: later) generated_callback w
    = (Raise e, w') /\
    fs w' = fs w /\
    list_pages output w' = (Ok (seqZ p ((page_interval self).2 - p + 1)), w'').
Proof.
  intros Hself Hp Hread Hfail.
  cbn [generate_output_files]. unfold bind.
  rewrite (generate_output_file_copy_fails _ _ _ self
             (seqZ (current_page self) (p - current_page self)) before_doc p
             (seqZ (p + 1) ((page_interval self).2 - p)) e); try done.
  - eexists _, _. split; [reflexivity|]. split; [done|].
    rewrite (list_pages_from_cursor output (at_page self p)).
    + reflexivity.
    + cbn [heap]. apply list_lookup_insert_eq. by eapply lookup_lt_Some.
  - replace ((page_interval self).2 - current_page self + 1)
      with ((p - current_page self) + ((page_interval self).2 - p + 1)) by lia.
    rewrite seqZ_app by lia. f_equal.
    + replace (current_page self + (p - current_page self)) with p by lia.
      rewrite seqZ_cons by lia. f_equal. f_equal; lia.
Qed.

(** ** The files after a session *)

Lemma created_lookup_other (paths : list string) :
  forall (files : gmap string node) (p : string),
    p ∉ paths -> created files paths !! p = files !! p.
Proof.
  induction paths as [|q paths IH]; intros files p Hp; [done|].
  apply not_elem_of_cons in Hp as [Hne Hp]. cbn [created foldl].
  fold (created (<[q := File None]> files) paths).
  rewrite IH by done. by rewrite lookup_insert_ne.
Qed.

Lemma created_lookup (paths : list string) :
  forall (files : gmap string node) (p : string),
    p ∈ paths -> created files paths !! p = Some (File None).
Proof.
  induction paths as [|q paths IH]; intros files p Hp; [by inversion Hp|].
  cbn [created foldl]. fold (created (<[q := File None]> files) paths).
  destruct (decide (p ∈ paths)) as [Hin|Hnotin]; [by apply IH|].
  rewrite created_lookup_other by done.
  apply elem_of_cons in Hp as [->|Hp]; [|done]. by rewrite lookup_insert_eq.
Qed.

Lemma written_lookup_other (outputs : list OutputFile) :
  forall (docs : list (list page)) (files : gmap string node) (p : string),
    p ∉ map stream outputs -> written files outputs docs !! p = files !! p.
Proof.
  induction outputs as [|self outputs IH]; intros docs files p Hp; [done|].
  destruct docs as [|doc docs]; [done|].
  cbn [map] in Hp. apply not_elem_of_cons in Hp as [Hne Hp].
  unfold written. cbn [zip zip_with foldl].
  fold (written (<[stream self := File (Some doc)]> files) outputs docs).
  rewrite IH by done. by rewrite lookup_insert_ne.
Qed.

Lemma written_lookup (outputs : list OutputFile) :
  forall (docs : list (list page)) (files : gmap string node)
         (i : nat) (self : OutputFile) (doc : list page),
    NoDup (map stream outputs) ->
    outputs !! i = Some self -> docs !! i = Some doc ->
    written files outputs docs !! stream self = Some (File (Some doc)).
Proof.
  induction outputs as [|self0 outputs IH];
    intros docs files i self doc Hnodup Hself Hdoc; [done|].
  destruct docs as [|doc0 docs]; [done|].
  cbn [map] in Hnodup. apply NoDup_cons in Hnodup as [Hnotin Hnodup].
  unfold written. cbn [zip zip_with foldl].
  fold (written (<[stream self0 := File (Some doc0)]> files) outputs docs).
  destruct i as [|i]; cbn in Hself, Hdoc.
  - injection Hself as <-. injection Hdoc as <-.
    rewrite written_lookup_other by done. by rewrite lookup_insert_eq.
  - by eapply IH.
Qed.

(** The whole plan, when every output can be read and written: the
    files after generation. *)
Lemma generate_output_files_written (reader : PdfFileReader)
  (generated_callback : ref -> IO unit) (said : OutputFile -> list event)
  (plan : list ref) :
  logs_only generated_callback said ->
  forall (outputs : list OutputFile) (docs : list (list page)) (w : World),
    NoDup plan ->
    Forall2 (fun output self => heap w !! output = Some self) plan outputs ->
    Forall2 (fun self doc =>
               current_page self = (page_interval self).1 /\
               readable reader self doc /\
               forall err, fs w !! stream self <> Some (Dev err))
      outputs docs ->
    exists w',
      generate_output_files reader plan generated_callback w = (Ok tt, w') /\
      stdin w' = stdin w /\
      fs w' = written (fs w) outputs docs.
Proof.
  intros Hcb.
  induction plan as [|output plan IH]; intros outputs docs w Hnodup Hheap Hout.
  - inversion Hheap; subst. inversion Hout; subst. by exists w.
  - inversion Hheap as [|? self ? outputs' Hself Hheap']; subst.
    inversion Hout as [|? doc ? docs' (Hcur & Hread & Hdev) Hout']; subst.
    apply NoDup_cons in Hnodup as [Hnotin Hnodup].
    cbn [generate_output_files]. unfold bind.
    rewrite (generate_output_file_ok _ _ _ said self doc) by done.
    edestruct (IH outputs' docs') as (w' & -> & Hstdin & Hfs); [done| | |].
    + cbn [heap]. by apply lookups_insert_fresh.
    + cbn [fs]. eapply Forall2_impl; [exact Hout'|].
      intros self' doc' (? & ? & ?). repeat split; try done.
      by apply no_dev_insert.
    + exists w'. split; [done|]. split; [done|]. by rewrite Hfs.
Qed.

(** ** [main], stage by stage *)

(** The first turns of the loop of [get_output_files], for what is typed
    as [ts]. *)
Lemma get_output_files_loop_prefix (path : string) (page_count : Z)
  (ts : list target) :
  forall (indices later : list Z) (targets : list ref) (rest : list string)
         (w : World),
    length indices = length ts ->
    stdin w = concat (map target_lines ts) ++ rest ->
    Forall (well_typed page_count) ts ->
    Forall (fun t => can_create (fs w) path (strip (name_line t) +:+ ".pdf"))
      ts ->
    exists evs,
      get_output_files_loop path page_count (indices ++ later) targets w =
      get_output_files_loop path page_count later
        (targets ++ seq (length (heap w)) (length ts))
        {| stdin := rest;
           fs := created (fs w) (map (destination path) ts);
           heap := heap w ++ map (target_object path) ts;
           log := log w ++ evs |}.
Proof.
  induction ts as [|t ts IH];
    intros indices later targets rest w Hlen Hin Htyped Hfree.
  - destruct indices; [|done]. exists []. cbn. rewrite !app_nil_r.
    cbn in Hin. rewrite <- Hin. by destruct w.
  - destruct indices as [|i indices]; [done|].
    inversion Htyped as [|? ? Ht Hts]; subst.
    inversion Hfree as [|? ? Hd Hds]; subst.
    cbn [map concat] in Hin. rewrite <- app_assoc in Hin.
    rewrite <- app_comm_cons.
    destruct (get_output_files_loop_turn path page_count i (indices ++ later)
                targets t _ w Hin Ht Hd) as (evs & ->).
    edestruct (IH indices later) as (evs' & ->).
    + cbn in Hlen. lia.
    + reflexivity.
    + done.
    + cbn [fs]. eapply List.Forall_impl; [|exact Hds].
      intros t'. by apply can_create_insert.
    + exists (evs ++ evs'). cbn [stdin fs heap log map created foldl length seq].
      rewrite length_app. cbn [length]. rewrite Nat.add_1_r.
      by rewrite <- !app_assoc.
Qed.

(** The files created for earlier outputs are not on the way of the
    directory. *)
Lemma reaches_created (path : string) (ts : list target) :
  forall files : gmap string node,
    Forall (fun t => can_create files path (strip (name_line t) +:+ ".pdf")) ts ->
    reaches files (os_path_join path "") ->
    reaches (created files (map (destination path) ts)) (os_path_join path "").
Proof.
  induction ts as [|t ts IH]; intros files Hfree Hdir; [done|].
  inversion Hfree as [|? ? Hd Hds]; subst.
  cbn [map created foldl]. apply IH.
  - eapply List.Forall_impl; [|exact Hds]. intros t'. by apply can_create_insert.
  - apply reaches_insert; [|done]. intros entries.
    unfold destination. by destruct Hd as (_ & _ & _ & [->|[data ->]]).
Qed.

(** A turn of the loop whose destination is a directory. *)
Lemma get_output_files_loop_turn_fails (path : string) (page_count : Z)
  (i : Z) (indices : list Z) (targets : list ref) (t : target)
  (inside : list string) (rest : list string) (w : World) :
  stdin w = target_lines t ++ rest ->
  well_typed page_count t ->
  reaches (fs w) (os_path_join path "") ->
  plain (strip (name_line t) +:+ ".pdf") ->
  (String.length (destination path t) < PATH_MAX)%nat ->
  fs w !! destination path t = Some (Dir inside) ->
  exists evs,
    get_output_files_loop path page_count (i :: indices) targets w =
    (Raise (Exn IsADirectoryError ("Is a directory: " +:+ destination path t)),
     {| stdin := rest; fs := fs w; heap := heap w; log := log w ++ evs |}).
Proof.
  intros Hin [Hfirst Hlast] Hreach Hplain Hlen Hdest.
  assert (create_error (fs w) (destination path t) =
          Some (os_error IsADirectoryError (destination path t))) as Herror.
  { unfold destination in *.
    rewrite os_path_join_relative in *
      by (rewrite <- (append_nil_r (strip _ +:+ _)); by apply plain_relative).
    rewrite create_error_plain by done. by rewrite Hdest. }
  unfold target_lines in Hin. cbn [app] in Hin. rewrite <- app_assoc in Hin.
  cbn [get_output_files_loop]. unfold bind at 1 2 3. unfold print at 1 2.
  match goal with
  | |- context [get_file_name ?p ?e ?a ?w0] =>
      destruct (get_file_name_returns p e a (name_line t)
                  (answer_lines (first_page t)
                     ++ answer_lines (last_page t) ++ rest) w0)
        as (out & ->); [exact Hin|]
  end.
  unfold bind at 1.
  erewrite (get_int_answers _ _ _ _ (first_page t) (start_page t));
    [|reflexivity|done].
  unfold bind at 1.
  erewrite (get_int_answers _ _ _ _ (last_page t) (end_page t));
    [|reflexivity|done].
  unfold bind at 1. unfold OutputFile_init, bind, open_wb, alloc.
  cbn [emit set_fs set_heap stdin fs heap log fst].
  fold (destination path t). rewrite Herror.
  eexists. unfold emit, os_error. cbn [stdin fs heap log].
  rewrite <- !app_assoc. reflexivity.
Qed.

(** X19. A directory in the way of an output.  When the name typed for
    an output is a plain name whose file in the directory is itself a
    directory, and the outputs before it were plain names that could be
    created, [get_output_files] raises [IsADirectoryError] once the name
    and the pages of that output were typed: the lines of the outputs that
    follow are not read, no object is built for the output, and the
    outputs entered before it stay behind as objects and as empty files. *)
Theorem get_output_files_directory_in_the_way (path : string) (page_count : Z)
  (count : answer) (n : Z) (ts : list target) (t : target)
  (inside : list string) (rest : list string) (w : World) :
  stdin w = answer_lines count ++ concat (map target_lines ts)
              ++ target_lines t ++ rest ->
  answers 1 100 count n ->
  Z.of_nat (length ts) < n ->
  Forall (well_typed page_count) ts ->
  well_typed page_count t ->
  Forall (fun t' => can_create (fs w) path (strip (name_line t') +:+ ".pdf"))
    ts ->
  reaches (fs w) (os_path_join path "") ->
  plain (strip (name_line t) +:+ ".pdf") ->
  (String.length (destination path t) < PATH_MAX)%nat ->
  fs w !! destination path t = Some (Dir inside) ->
  exists w',
    get_output_files path page_count w =
    (Raise (Exn IsADirectoryError ("Is a directory: " +:+ destination path t)),
     w') /\
    stdin w' = rest /\
    heap w' = heap w ++ map (target_object path) ts /\
    fs w' = created (fs w) (map (destination path) ts).
Proof.
  intros Hin Hcount Hmore Htyped Ht Hfree Hreach Hplain Hlen Hdir.
  unfold get_output_files. unfold bind at 1 2. unfold print.
  erewrite (get_int_answers _ _ _ _ count); [|exact Hin|done].
  rewrite <- (take_drop (length ts) (range n)).
  destruct (drop (length ts) (range n)) as [|i later] eqn:Hdrop.
  { apply (f_equal length) in Hdrop. rewrite length_drop, range_length in Hdrop.
    cbn in Hdrop. lia. }
  edestruct (get_output_files_loop_prefix path page_count ts
               (take (length ts) (range n)) (i :: later) [])
    as (evs & ->);
    [rewrite length_take, range_length; lia | reflexivity | done | done |].
  cbn [emit stdin fs heap log].
  edestruct (get_output_files_loop_turn_fails path page_count i later)
    as (evs' & ->);
    [reflexivity | exact Ht | | exact Hplain | exact Hlen | |].
  - cbn [fs]. by apply reaches_created.
  - cbn [fs]. rewrite created_lookup_other; [exact Hdir|].
    intros Hmem. apply list_elem_of_In, in_map_iff in Hmem as (t' & Heq & Ht').
    rewrite List.Forall_forall in Hfree.
    destruct (Hfree t' Ht') as (_ & _ & _ & Hfree').
    fold (destination path t') in Hfree'. rewrite Heq, Hdir in Hfree'.
    by destruct Hfree' as [?|[? ?]].
  - eexists. by split_and!.
Qed.

Lemma intro_reads (line : string) (rest : list string) (w : World) :
  stdin w = line :: rest ->
  intro w =
  (Ok (typed_path line),
   {| stdin := rest; fs := fs w; heap := heap w;
      log := log w ++ banner ++ [Prompt "> "] |}).
Proof.
  intros Hin. unfold intro, bind, print, input. cbn [emit stdin].
  rewrite Hin. unfold ret, set_stdin, emit, banner, typed_path.
  cbn [stdin fs heap log]. by rewrite <- !app_assoc.
Qed.

Lemma select_file_answers (files : list string) (choice : answer) (k : Z)
  (selected : string) (rest : list string) (w : World) :
  stdin w = answer_lines choice ++ rest ->
  answers 1 (Z.of_nat (length files)) choice k ->
  files !! Z.to_nat (k - 1) = Some selected ->
  select_file files w =
  (Ok selected,
   {| stdin := rest; fs := fs w; heap := heap w;
      log := log w ++ selection_log files choice |}).
Proof.
  intros Hin Hchoice Hsel. pose proof Hchoice as (_ & _ & Hk).
  destruct (py_index_in_range files (k - 1)) as (file & Hfile & Hidx); [lia|].
  assert (file = selected) as -> by congruence.
  unfold select_file. unfold bind at 1 2 3. unfold print.
  rewrite for_each_menu.
  erewrite (get_int_answers _ _ _ _ choice k); [|exact Hin|done].
  rewrite Hidx. unfold ret, emit, selection_log, menu. cbn [stdin fs heap log].
  by rewrite <- !app_assoc.
Qed.

(** [main] up to the selection of the source. *)
Lemma main_selected (dir_line : string) (entries : list string)
  (choice : answer) (k : Z) (selected : string) (rest : list string)
  (w : World) :
  stdin w = dir_line :: answer_lines choice ++ rest ->
  fs w !! typed_path dir_line = Some (Dir entries) ->
  answers 1 (Z.of_nat (length (pdf_entries entries))) choice k ->
  pdf_entries entries !! Z.to_nat (k - 1) = Some selected ->
  main w =
  after_selection (typed_path dir_line) selected
    {| stdin := rest; fs := fs w; heap := heap w;
       log := log w ++ banner ++ [Prompt "> "]
                ++ selection_log (pdf_entries entries) choice |}.
Proof.
  intros Hin Hdir Hchoice Hsel.
  unfold main. unfold bind at 1. rewrite (intro_reads dir_line _ w Hin).
  unfold bind at 1.
  edestruct (list_pdf_files_directory (typed_path dir_line) entries)
    as (pdf_files & -> & -> & _); [exact Hdir|].
  fold (pdf_entries entries).
  destruct (pdf_entries entries) as [|file files] eqn:Hfiles; [done|].
  cbn [length Nat.eqb]. unfold bind at 1.
  erewrite (select_file_answers _ choice k selected rest);
    [|reflexivity|done..].
  cbn [stdin fs heap log]. by rewrite <- !app_assoc.
Qed.

(** X14. When the path typed does not exist, [main] says that the
    directory does not exist and ends: it has read the one line of the
    path, asks nothing more, opens no file and changes none.  An empty
    line stands for the current directory. *)
Theorem main_directory_missing (line : string) (rest : list string) (w : World) :
  stdin w = line :: rest ->
  fs w !! (if String.eqb line "" then "." else line) = None ->
  main w =
  (Ok tt,
   {| stdin := rest; fs := fs w; heap := heap w;
      log := log w ++ banner
               ++ [Prompt "> ";
                   Print ("Directory '"
                            +:+ (if String.eqb line "" then "." else line)
                            +:+ "' does not exist.")] |}).
Proof.
  intros Hin Hmissing. fold (typed_path line) in *.
  unfold main. unfold bind at 1. rewrite (intro_reads line rest w Hin).
  unfold bind at 1. rewrite list_pdf_files_missing by done.
  unfold print, emit. cbn [stdin fs heap log]. by rewrite <- !app_assoc.
Qed.

(** X15. When the directory lists no entry whose lowercased name ends in
    [.pdf], [main] says that no PDF file was found and ends without a
    further prompt. *)
Theorem main_no_pdf_files (line : string) (rest : list string)
  (entries : list string) (w : World) :
  stdin w = line :: rest ->
  fs w !! (if String.eqb line "" then "." else line) = Some (Dir entries) ->
  Forall (fun entry => endswith (lower entry) ".pdf" = false) entries ->
  main w =
  (Ok tt,
   {| stdin := rest; fs := fs w; heap := heap w;
      log := log w ++ banner
               ++ [Prompt "> "; Print "No PDF files found in the directory."] |}).
Proof.
  intros Hin Hdir Hnone. fold (typed_path line) in *.
  unfold main. unfold bind at 1. rewrite (intro_reads line rest w Hin).
  unfold bind at 1.
  edestruct (list_pdf_files_directory (typed_path line) entries)
    as (pdf_files & -> & -> & _); [exact Hdir|].
  replace (List.filter _ entries) with (@nil string).
  - unfold print, emit. cbn [stdin fs heap log length Nat.eqb].
    by rewrite <- !app_assoc.
  - symmetry. clear Hdir. induction Hnone as [|entry entries Hentry _ IH]; [done|].
    cbn [List.filter]. by rewrite Hentry.
Qed.

(** X16. When the file selected cannot be opened, [main] prints one line
    and ends without asking for a plan: the file-not-found line when the
    file is not there (the listing named it, the file system does not have
    it), the read-error line when its path is a directory. *)
Theorem main_source_not_opened (dir_line : string) (entries : list string)
  (choice : answer) (k : Z) (selected : string) (rest : list string)
  (w : World) :
  stdin w = dir_line :: answer_lines choice ++ rest ->
  fs w !! typed_path dir_line = Some (Dir entries) ->
  answers 1 (Z.of_nat (length (pdf_entries entries))) choice k ->
  pdf_entries entries !! Z.to_nat (k - 1) = Some selected ->
  (fs w !! os_path_join (typed_path dir_line) selected = None \/
   exists inside,
     fs w !! os_path_join (typed_path dir_line) selected = Some (Dir inside)) ->
  main w =
  (Ok tt,
   {| stdin := rest; fs := fs w; heap := heap w;
      log := log w ++ banner ++ [Prompt "> "]
               ++ selection_log (pdf_entries entries) choice
               ++ [Print ((match fs w !! os_path_join (typed_path dir_line) selected with
                           | None => "File not found: "
                           | Some _ => "Error reading file: "
                           end) +:+ selected)] |}).
Proof.
  intros Hin Hdir Hchoice Hsel Hsource.
  rewrite (main_selected dir_line entries choice k selected rest w) by done.
  unfold after_selection. unfold bind at 1. unfold try_except, bind, open_rb.
  cbn [fs].
  destruct Hsource as [Hsource | [inside Hsource]]; rewrite Hsource;
    cbn [is_FileNotFoundError is_IOError exn_class_of];
    unfold print, ret, emit; cbn [stdin fs heap log];
    by rewrite <- !app_assoc.
Qed.

(** X17. The construction of the reader is outside every [try] of
    [main]: when the file selected is opened but is not a PDF, so that
    the reader raises, the exception leaves [main]; no plan is asked for,
    and the source that was opened is not closed. *)
Theorem main_source_not_a_pdf (dir_line : string) (entries : list string)
  (choice : answer) (k : Z) (selected : string) (rest : list string)
  (w : World) :
  stdin w = dir_line :: answer_lines choice ++ rest ->
  fs w !! typed_path dir_line = Some (Dir entries) ->
  answers 1 (Z.of_nat (length (pdf_entries entries))) choice k ->
  pdf_entries entries !! Z.to_nat (k - 1) = Some selected ->
  fs w !! os_path_join (typed_path dir_line) selected = Some (File None) ->
  exists e,
    exn_class_of e = PdfReadError /\
    main w =
    (Raise e,
     {| stdin := rest; fs := fs w; heap := heap w;
        log := log w ++ banner ++ [Prompt "> "]
                 ++ selection_log (pdf_entries entries) choice
                 ++ [Open (os_path_join (typed_path dir_line) selected) "rb"] |}).
Proof.
  intros Hin Hdir Hchoice Hsel Hsource.
  rewrite (main_selected dir_line entries choice k selected rest w) by done.
  unfold after_selection. unfold bind at 1. unfold try_except, bind, open_rb.
  cbn [fs]. rewrite Hsource. unfold ret at 1.
  unfold PdfFileReader_init. cbn [emit fs].
  unfold file_object. eexists.
  split; [|rewrite Hsource; unfold emit; cbn [stdin fs heap log];
           rewrite <- !app_assoc; reflexivity].
  done.
Qed.

Lemma lookups_appended (h new : list OutputFile) :
  Forall2 (fun (r : ref) self => (h ++ new) !! r = Some self)
    (seq (length h) (length new)) new.
Proof.
  apply Forall2_same_length_lookup_2; [by rewrite length_seq|].
  intros i r self Hr Hself. apply lookup_seq in Hr as [-> Hi].
  rewrite lookup_app_r by lia.
  by replace (length h + i - length h)%nat with i by lia.
Qed.

Lemma get_output_files_answers (path : string) (page_count : Z)
  (count : answer) (ts : list target) (rest : list string) (w : World) :
  stdin w = answer_lines count ++ concat (map target_lines ts) ++ rest ->
  answers 1 100 count (Z.of_nat (length ts)) ->
  Forall (well_typed page_count) ts ->
  Forall (fun t => can_create (fs w) path (strip (name_line t) +:+ ".pdf")) ts ->
  exists evs,
    get_output_files path page_count w =
    (Ok (seq (length (heap w)) (length ts)),
     {| stdin := rest;
        fs := created (fs w) (map (destination path) ts);
        heap := heap w ++ map (target_object path) ts;
        log := log w ++ evs |}).
Proof.
  intros Hin Hcount Htyped Hfree.
  unfold get_output_files. unfold bind at 1 2. unfold print.
  erewrite (get_int_answers _ _ _ _ count); [|exact Hin|done].
  edestruct (get_output_files_loop_collects path page_count ts
               (range (Z.of_nat (length ts))) [] rest) as (evs & ->);
    [by rewrite range_length, Nat2Z.id | reflexivity | done | done |].
  eexists. cbn [app stdin fs heap log emit]. rewrite <- !app_assoc. reflexivity.
Qed.

(** X18. A whole session with well-formed input.  The directory typed
    exists, a file of its listing is chosen, the file is a PDF of
    [page_count] pages, a count between 1 and 100 is typed and then, for
    each output, a name, a first page and a last page within the bounds;
    every name, trimmed and with [.pdf] appended, is a plain name, so that
    the outputs are files of the directory itself; their paths are free or
    regular files, different from each other and from the source.  Then
    [main] ends normally having read exactly these lines; every
    destination holds pages [start] to [end_] of the source, in their
    order; and the source and every other file of the directory are as
    they were. *)
Theorem main_splits_the_source (dir_line : string) (entries : list string)
  (choice : answer) (k : Z) (selected : string) (doc : list page)
  (count : answer) (ts : list target) (rest : list string) (w : World) :
  stdin w = dir_line :: answer_lines choice ++ answer_lines count
              ++ concat (map target_lines ts) ++ rest ->
  fs w !! typed_path dir_line = Some (Dir entries) ->
  answers 1 (Z.of_nat (length (pdf_entries entries))) choice k ->
  pdf_entries entries !! Z.to_nat (k - 1) = Some selected ->
  plain selected ->
  fs w !! os_path_join (typed_path dir_line) selected = Some (File (Some doc)) ->
  answers 1 100 count (Z.of_nat (length ts)) ->
  Forall (well_typed (Z.of_nat (length doc))) ts ->
  Forall (fun t => can_create (fs w) (typed_path dir_line)
                     (strip (name_line t) +:+ ".pdf")) ts ->
  NoDup (os_path_join (typed_path dir_line) selected
           :: map (destination (typed_path dir_line)) ts) ->
  exists w',
    main w = (Ok tt, w') /\
    stdin w' = rest /\
    (forall t, In t ts ->
       fs w' !! destination (typed_path dir_line) t =
       Some (File (Some (slice doc (start_page t) (end_page t))))) /\
    fs w' !! os_path_join (typed_path dir_line) selected =
    Some (File (Some doc)) /\
    (forall name_,
        plain name_ ->
        os_path_join (typed_path dir_line) name_
          ∉ map (destination (typed_path dir_line)) ts ->
        fs w' !! os_path_join (typed_path dir_line) name_ =
        fs w !! os_path_join (typed_path dir_line) name_).
Proof.
  intros Hin Hdir Hchoice Hsel _ Hsource Hcount Htyped Hfree Hnodup.
  set (path := typed_path dir_line) in *.
  apply NoDup_cons in Hnodup as [Hsrc Hnodup].
  rewrite (main_selected dir_line entries choice k selected
             (answer_lines count ++ concat (map target_lines ts) ++ rest) w)
    by done.
  fold path. unfold after_selection. unfold bind at 1.
  unfold try_except, bind at 1, open_rb. cbn [fs]. rewrite Hsource.
  unfold ret at 1. unfold bind at 1. unfold PdfFileReader_init.
  cbn [emit fs]. unfold file_object. rewrite Hsource.
  unfold bind at 1. unfold print at 1. unfold bind at 1.
  cbn [getNumPages reader_of].
  edestruct (get_output_files_answers path (Z.of_nat (length doc)) count ts rest)
    as (evs & ->); [reflexivity|done|done|exact Hfree|].
  unfold bind at 1. unfold print at 1. unfold bind at 1.
  unfold generate_and_report, try_except.
  set (outputs := map (target_object path) ts).
  set (docs := map (fun t => slice doc (start_page t) (end_page t)) ts).
  edestruct (generate_output_files_written (reader_of doc) print_generated _
               (seq (length (heap w)) (length ts))
               print_generated_logs_only outputs docs)
    as (w1 & -> & Hstdin & Hfs).
  - apply NoDup_seq.
  - cbn [emit heap]. replace (length ts) with (length outputs)
      by (subst outputs; by rewrite length_map).
    apply lookups_appended.
  - subst outputs docs. cbn [emit fs].
    assert (forall t, In t ts ->
              created (fs w) (map (destination path) ts) !! destination path t
              = Some (File None)) as Hcreated.
    { intros t Ht. apply created_lookup, list_elem_of_In, in_map, Ht. }
    generalize dependent (created (fs w) (map (destination path) ts)).
    clear Hin Hcount Hnodup Hsrc Hfree.
    intros m Hcreated.
    induction ts as [|t ts IH]; [constructor|].
    inversion Htyped as [|? ? [Hfirst Hlast] Hts]; subst.
    cbn [map]. constructor.
    + cbn [target_object current_page page_interval stream fst snd].
      split; [done|]. split.
      * destruct Hfirst as (_ & _ & Hstart). destruct Hlast as (_ & _ & Hend).
        pose proof (reader_of_slice doc (target_object path t)) as Hslice.
        cbn [target_object page_interval fst snd] in Hslice.
        apply Hslice; lia.
      * intros err. rewrite Hcreated by (by left). done.
    + apply IH; [done|]. intros t' Ht'. apply Hcreated. by right.
  - cbn [emit stdin fs] in Hstdin, Hfs.
    assert (map stream outputs = map (destination path) ts) as Hstreams.
    { subst outputs. rewrite map_map. reflexivity. }
    eexists. split; [reflexivity|]. cbn [emit stdin fs].
    split; [exact Hstdin|]. rewrite Hfs. split.
    + intros t Ht. apply list_elem_of_In, list_elem_of_lookup in Ht as [i Hi].
      apply (written_lookup outputs docs _ i (target_object path t)).
      * by rewrite Hstreams.
      * subst outputs. by rewrite list_lookup_fmap, Hi.
      * subst docs. by rewrite list_lookup_fmap, Hi.
    + split.
      * rewrite written_lookup_other by (by rewrite Hstreams).
        by rewrite created_lookup_other.
      * intros name_ _ Hp.
        rewrite written_lookup_other by (by rewrite Hstreams).
        by apply created_lookup_other.
Qed.

End Properties.

(** * Worked examples

    The theorems above at concrete inputs, on ASCII text and with pages
    named by numbers. *)

#[local] Existing Instance ascii_str.

(** Every line of the list is rejected by the prompt. *)
Ltac all_rejected :=
  repeat constructor; intros x Hx; vm_compute in Hx; inversion Hx; subst;
  intros Hrange; vm_compute in Hrange; destruct Hrange as [Hlow Hhigh];
  first [by apply Hlow | by apply Hhigh].

(** The character is not in the string. *)
Ltac not_in_chars :=
  let Hin := fresh "Hin" in
  intros Hin; vm_compute in Hin; intuition discriminate.

(** The name is a plain component. *)
Ltac plain_name :=
  match goal with
  | |- plain ?c => let c' := eval vm_compute in c in change (plain c')
  end;
  split; [discriminate|]; split; [not_in_chars|]; split; [not_in_chars|];
  apply Nat.leb_le; vm_compute; reflexivity.

(** The directory [d] of the example file system can be reached. *)
Ltac reaches_d :=
  match goal with
  | |- reaches ?files _ => change (reaches files ("" +:+ "d" +:+ "/"))
  end;
  eapply reaches_dir; [apply reaches_start | plain_name | vm_compute; reflexivity].

(** A file with a plain name can be created in [d]. *)
Ltac can_create_in_d :=
  split; [reaches_d|]; split; [plain_name|];
  split; [apply Nat.ltb_lt; vm_compute; reflexivity|];
  first [ left; vm_compute; reflexivity
        | right; eexists; vm_compute; reflexivity ].

Lemma get_file_name_reads_one_line_witness :
  exists (done : bool) (out : list (@event nat)),
    trimmed "  a/b " "a/b" /\
    verdict false "a/b" done out /\
    get_file_name "> " "Invalid file name" false
      (world_of ["  a/b "; "7"] example_fs) =
    (Ok "a/b",
     {| stdin := ["7"]; fs := example_fs; heap := [];
        log := [] ++ Prompt "> " :: out |}).
Proof.
  exact (@get_file_name_reads_one_line nat ascii_str "> " "Invalid file name"
           false "  a/b " ["7"] (world_of ["  a/b "; "7"] example_fs)
           eq_refl).
Defined.

Lemma get_int_first_valid_witness :
  get_int "> " "Invalid page number" 1 5
    (world_of ["x"; "9"; "3"; "4"] example_fs) =
  (Ok 3,
   {| stdin := ["4"]; fs := example_fs; heap := [];
      log := [Prompt "> "; Print "Please enter a number.";
              Prompt "> "; Print "Invalid page number";
              Prompt "> "] |}).
Proof.
  apply (proj2 (@get_int_first_valid nat ascii_str "> " "Invalid page number" 1 5
                  (world_of ["x"; "9"; "3"; "4"] example_fs) 3 _)).
  exists ["x"; "9"], "3", ["4"].
  split; [reflexivity|]. split.
  { repeat constructor; intros x Hx; vm_compute in Hx; inversion Hx; lia. }
  split; [reflexivity|]. split; [lia | reflexivity].
Defined.

Lemma pages_once_witness :
  exists w1 : @World nat,
    list_pages 1%nat example_world = (Ok (seqZ 2 (3 - 2 + 1)), w1) /\
    Z.of_nat (length (seqZ 2 (3 - 2 + 1))) = 3 - 2 + 1 /\
    (forall i, 0 <= i < 3 - 2 + 1 ->
               seqZ 2 (3 - 2 + 1) !! Z.to_nat i = Some (2 + i)) /\
    list_pages 1%nat w1 = (Ok [], w1).
Proof.
  apply (@pages_once nat 1%nat
           {| name := "full.pdf"; page_interval := (2, 3); current_page := 2;
              stream := "d/full.pdf" |}
           2 3 3 example_world);
    [reflexivity | reflexivity | reflexivity | lia].
Defined.

(** C4. A path that exists and is not a directory is told apart from a path
    that does not exist: for the regular file [notes.txt] the scan raises
    [NotADirectoryError], for the missing [nowhere] it returns [None]. *)
Theorem list_pdf_files_regular_file :
  list_pdf_files "notes.txt" (world_of [] example_fs) =
  (Raise (Exn NotADirectoryError "Not a directory: notes.txt"),
   world_of [] example_fs) /\
  list_pdf_files "nowhere" (world_of [] example_fs) =
  (Ok None, world_of [] example_fs).
Proof.
  split.
  - apply (list_pdf_files_not_a_directory "notes.txt"). left. by eexists.
  - by apply list_pdf_files_missing.
Qed.

Lemma generate_in_plan_order_witness :
  exists w' : @World nat,
    generate_output_files (reader_of [10; 20; 30]%nat) [0; 2]%nat
      print_generated example_world = (Ok tt, w') /\
    log w' =
    [GetPage 0; GetPage 1; Write "d/x.pdf" [10; 20]%nat;
     Print "Generated: x.pdf (1-2)";
     GetPage 2; Write "d/y.pdf" [30]%nat;
     Print "Generated: y.pdf (3-3)"].
Proof.
  apply (@generate_in_plan_order nat (reader_of [10; 20; 30]%nat)
           print_generated
           (fun self => [Print ("Generated: " +:+ OutputFile_str self)])
           [0; 2]%nat
           [ {| name := "x.pdf"; page_interval := (1, 2); current_page := 1;
                stream := "d/x.pdf" |};
             {| name := "y.pdf"; page_interval := (3, 3); current_page := 3;
                stream := "d/y.pdf" |} ]
           [[10; 20]; [30]]%nat example_world).
  - apply print_generated_logs_only.
  - apply (bool_decide_unpack _). by vm_compute.
  - repeat constructor.
  - repeat constructor; by vm_compute.
Defined.

Lemma generation_failure_aborts_witness :
  generate_output_files (reader_of [10; 20; 30]%nat) ([0] ++ 1 :: [2])%nat
    print_generated example_world
  = (Raise (Exn OSError "No space left on device"), example_world2) /\
  fs example_world2 = fs example_world1 /\
  (exists calls,
      log example_world2 = log example_world1 ++ calls /\
      Forall is_GetPage calls) /\
  exists line,
    generate_and_report "a.PDF" (reader_of [10; 20; 30]%nat)
      ([0] ++ 1 :: [2])%nat example_world
    = (Ok tt, emit [Print line] example_world2) /\
    (OSError = FileNotFoundError -> line = "File not found: a.PDF") /\
    (In OSError [NotADirectoryError; IsADirectoryError; OSError] ->
     line = "Error reading file: a.PDF") /\
    (~ In OSError
         [FileNotFoundError; NotADirectoryError; IsADirectoryError; OSError] ->
     line = "An unexpected error occurred: No space left on device").
Proof.
  apply (@generation_failure_aborts nat "a.PDF" (reader_of [10; 20; 30]%nat)
           [0%nat] 1%nat [2%nat] example_world example_world1 example_world2
           (Exn OSError "No space left on device")).
  - vm_compute. reflexivity.
  - vm_compute. reflexivity.
Defined.

Lemma validator_accept_flag_witness :
  exists (done : bool) (out : list (@event nat)),
    get_file_name_turn "> " false (world_of [" a?b "; "7"] example_fs) =
    (Ok (strip " a?b ", done),
     {| stdin := ["7"]; fs := example_fs; heap := [];
        log := [] ++ Prompt "> " :: out |}) /\
    (has_forbidden (strip " a?b ") -> done = false) /\
    (done = true <-> acceptable false (strip " a?b ")) /\
    verdict false (strip " a?b ") done out.
Proof.
  apply (@validator_accept_flag nat ascii_str "> " false " a?b " ["7"]
           (world_of [" a?b "; "7"] example_fs)).
  reflexivity.
Defined.

Lemma page_indices_in_range_witness :
  exists evs : list (@event nat),
    log example_world2 = log example_world ++ evs /\
    (forall index, In (GetPage index) evs -> 0 <= index <= 3 - 1) /\
    (forall doc,
        reader_of [10; 20; 30]%nat = reader_of doc ->
        getNumPages (reader_of [10; 20; 30]%nat) = 3 ->
        forall index, In (GetPage index) evs ->
                      exists p, getPage (reader_of [10; 20; 30]%nat) index = Ok p).
Proof.
  apply (@page_indices_in_range nat (reader_of [10; 20; 30]%nat) 3
           [0; 1; 2]%nat example_world
           (Raise (Exn OSError "No space left on device")) example_world2).
  - intros output [<-|[<-|[<-|[]]]]; eexists; (split; [reflexivity|]);
      cbn [page_interval current_page fst snd]; lia.
  - vm_compute. reflexivity.
Defined.

Lemma split_whole_document_witness :
  exists w' : @World nat,
    generate_output_files (reader_of [10; 20; 30]%nat) [0%nat] print_generated
      whole_world
    = (Ok tt, w') /\
    fs w' = <["d/all.pdf" := File (Some [10; 20; 30]%nat)]> example_fs /\
    log w' =
    [GetPage 0; GetPage 1; GetPage 2; Write "d/all.pdf" [10; 20; 30]%nat;
     Print "Generated: all.pdf (1-3)"].
Proof.
  apply (@split_whole_document nat [10; 20; 30]%nat 0%nat
           {| name := "all.pdf"; page_interval := (1, 3); current_page := 1;
              stream := "d/all.pdf" |}
           print_generated
           (fun self => [Print ("Generated: " +:+ OutputFile_str self)])
           whole_world).
  - apply print_generated_logs_only.
  - reflexivity.
  - reflexivity.
  - reflexivity.
  - intros err. by vm_compute.
Defined.

Lemma output_file_opened_at_collection_witness :
  (exists w' : @World nat,
      get_output_files_loop "d" 3 (0 :: [1]) [] collecting_world =
      get_output_files_loop "d" 3 [1] [0%nat] w' /\
      stdin w' = ["later"] /\
      heap w' = [{| name := ".pdf"; page_interval := (2, 3);
                    current_page := 2; stream := "d/.pdf" |}] /\
      fs w' = <["d/.pdf" := File None]> example_fs /\
      last (log w') = Some (Open "d/.pdf" "wb")) /\
  (exists w' : @World nat,
      get_output_files_loop "d" 3 (0 :: [1]) [] refused_world =
      (Raise (Exn FileNotFoundError "No such file or directory: d/bad/name.pdf"),
       w') /\
      stdin w' = ["later"] /\ heap w' = [] /\ fs w' = example_fs).
Proof.
  split.
  - destruct (@output_file_opened_at_collection nat ascii_str "d" 3 0 [1] []
                "   " ["0"] "2" [] "3" ["later"] 2 3 collecting_world)
      as (done & out & asked & _ & _ & _ & -> & Hopen & _ & Hcan & _).
    + reflexivity.
    + all_rejected.
    + reflexivity.
    + lia.
    + constructor.
    + reflexivity.
    + lia.
    + destruct Hcan as [Hnone _]; [can_create_in_d|].
      eexists. split; [exact (Hopen Hnone)|].
      split; [reflexivity|]. split; [reflexivity|].
      split; [vm_compute; reflexivity|].
      cbn [log]. by rewrite last_snoc.
  - destruct (@output_file_opened_at_collection nat ascii_str "d" 3 0 [1] []
                "bad/name" [] "1" [] "2" ["later"] 1 2 refused_world)
      as (done & out & asked & _ & _ & _ & -> & _ & Hfail & _ & Hmissing).
    + reflexivity.
    + constructor.
    + reflexivity.
    + lia.
    + constructor.
    + reflexivity.
    + lia.
    + eexists. split.
      * apply Hfail. apply (Hmissing "bad" "name.pdf").
        -- reflexivity.
        -- reaches_d.
        -- plain_name.
        -- vm_compute. reflexivity.
        -- not_in_chars.
        -- apply Nat.ltb_lt. vm_compute. reflexivity.
      * split; [reflexivity|]. split; reflexivity.
Defined.

(** ** The further properties at concrete inputs *)

Lemma get_int_raises_only_at_eof_witness :
  get_int "> " "Invalid page number" 1 5 (world_of ["x"; "9"] example_fs) =
  (Raise (Exn EOFError "EOF when reading a line"),
   {| stdin := []; fs := example_fs; heap := [];
      log := [Prompt "> "; Print "Please enter a number.";
              Prompt "> "; Print "Invalid page number";
              Prompt "> "] |}).
Proof.
  apply (proj2 (get_int_raises_only_at_eof "> " "Invalid page number" 1 5
                  (world_of ["x"; "9"] example_fs) _ _)).
  split; [all_rejected|]. split; reflexivity.
Defined.

Lemma get_int_empty_range_witness :
  get_int "> " "Invalid page number" 3 2 (world_of ["2"; "3"] example_fs) =
  (Raise (Exn EOFError "EOF when reading a line"),
   {| stdin := []; fs := example_fs; heap := [];
      log := [Prompt "> "; Print "Invalid page number";
              Prompt "> "; Print "Invalid page number";
              Prompt "> "] |}).
Proof.
  refine (eq_trans (get_int_empty_range "> " "Invalid page number" 3 2
                      (world_of ["2"; "3"] example_fs) _) _);
    [lia | reflexivity].
Defined.

Lemma list_pdf_files_none_iff_missing_witness :
  list_pdf_files "nowhere" example_world = (Ok None, example_world).
Proof.
  apply (proj2 (proj2 (list_pdf_files_none_iff_missing "nowhere" example_world))).
  by vm_compute.
Defined.

Lemma list_pdf_files_filters_listing_witness :
  exists pdf_files,
    list_pdf_files "d" example_world = (Ok (Some pdf_files), example_world) /\
    pdf_files = List.filter (fun file => endswith (lower file) ".pdf")
                  ["a.PDF"; "b.txt"; "c.pdf"] /\
    sublist pdf_files ["a.PDF"; "b.txt"; "c.pdf"] /\
    forall file,
      In file pdf_files <->
      In file ["a.PDF"; "b.txt"; "c.pdf"] /\
      exists before, lower file = before +:+ ".pdf".
Proof.
  apply (list_pdf_files_filters_listing "d" ["a.PDF"; "b.txt"; "c.pdf"]
           example_world).
  by vm_compute.
Defined.

Lemma select_file_returns_choice_witness :
  exists file,
    ["a.PDF"; "c.pdf"] !! Z.to_nat (2 - 1) = Some file /\
    select_file ["a.PDF"; "c.pdf"] (world_of ["0"; "x"; "2"; "z"] example_fs) =
    (Ok file,
     {| stdin := ["z"]; fs := example_fs; heap := [];
        log := []
               ++ [Print (newline +:+ "Select a file to split:")]
               ++ menu ["a.PDF"; "c.pdf"]
               ++ flat_map
                    (retry "> " ("Please enter a number between 1 and "
                                   +:+ str_of_int (Z.of_nat 2)))
                    ["0"; "x"]
               ++ [Prompt "> "] |}).
Proof.
  apply (select_file_returns_choice ["a.PDF"; "c.pdf"] ["0"; "x"] "2" ["z"] 2
           (world_of ["0"; "x"; "2"; "z"] example_fs)).
  - reflexivity.
  - all_rejected.
  - reflexivity.
  - cbn. lia.
Defined.

Lemma get_output_files_plan_witness :
  exists outputs : list OutputFile,
    (1 <= length outputs <= 100)%nat /\
    [0; 1]%nat = seq (length (heap planning_world)) (length outputs) /\
    NoDup [0; 1]%nat /\
    heap (snd (get_output_files "d" 3 planning_world))
    = heap planning_world ++ outputs /\
    Forall (built "d" 3) outputs.
Proof.
  apply (get_output_files_plan "d" 3 planning_world [0; 1]%nat
           (snd (get_output_files "d" 3 planning_world))).
  vm_compute. reflexivity.
Defined.

Lemma get_output_files_no_pages_witness :
  exists w' : @World nat,
    get_output_files "d" 0 planning_world =
    (Raise (Exn EOFError "EOF when reading a line"), w') /\
    stdin w' = [] /\ heap w' = heap planning_world /\ fs w' = fs planning_world.
Proof.
  apply (get_output_files_no_pages "d" 0 planning_world). lia.
Defined.

Lemma get_output_files_collects_witness :
  exists w' : @World nat,
    get_output_files "d" 3 planning_world = (Ok [0; 1]%nat, w') /\
    stdin w' = ["later"] /\
    heap w' =
    [ {| name := "x.pdf"; page_interval := (1, 2); current_page := 1;
         stream := "d/x.pdf" |};
      {| name := "y.pdf"; page_interval := (3, 3); current_page := 3;
         stream := "d/y.pdf" |} ] /\
    fs w' = <["d/y.pdf" := File None]> (<["d/x.pdf" := File None]> example_fs).
Proof.
  destruct (get_output_files_collects "d" 3
           {| skipped := ["0"]; typed := "2" |}
           [ {| name_line := " x ";
                first_page := {| skipped := []; typed := "1" |};
                start_page := 1;
                last_page := {| skipped := ["9"]; typed := "2" |};
                end_page := 2 |};
             {| name_line := "y";
                first_page := {| skipped := []; typed := "3" |};
                start_page := 3;
                last_page := {| skipped := []; typed := "3" |};
                end_page := 3 |} ]
           ["later"] planning_world)
    as (w' & Hrun & Hstdin & Hheap & Hfs).
  - reflexivity.
  - split; [all_rejected|]. split; [reflexivity | cbn; lia].
  - repeat constructor; cbn; try lia; try reflexivity; all_rejected.
  - repeat (apply List.Forall_cons; [can_create_in_d|]). apply List.Forall_nil.
  - exists w'. split; [exact Hrun|]. split; [exact Hstdin|].
    rewrite Hheap, Hfs. split; vm_compute; reflexivity.
Defined.

Lemma output_receives_slice_witness :
  exists w' : @World nat,
    generate_output_files (reader_of [10; 20; 30]%nat) [2%nat] print_generated
      example_world
    = (Ok tt, w') /\
    fs w' = <["d/y.pdf" := File (Some (slice [10; 20; 30]%nat 3 3))]> example_fs /\
    Z.of_nat (length (slice [10; 20; 30]%nat 3 3)) = 3 - 3 + 1 /\
    forall i, 0 <= i < 3 - 3 + 1 ->
      slice [10; 20; 30]%nat 3 3 !! Z.to_nat i
      = [10; 20; 30]%nat !! Z.to_nat (3 - 1 + i).
Proof.
  apply (output_receives_slice [10; 20; 30]%nat 2%nat
           {| name := "y.pdf"; page_interval := (3, 3); current_page := 3;
              stream := "d/y.pdf" |}
           3 3 print_generated
           (fun self => [Print ("Generated: " +:+ OutputFile_str self)])
           example_world).
  - apply print_generated_logs_only.
  - reflexivity.
  - reflexivity.
  - reflexivity.
  - cbn. lia.
  - intros err. by vm_compute.
Defined.

Lemma generation_leaves_the_rest_witness :
  stdin example_world2 = stdin example_world /\
  length (heap example_world2) = length (heap example_world) /\
  (forall r : ref, r ∉ [0; 1; 2]%nat ->
                   heap example_world2 !! r = heap example_world !! r) /\
  (forall (r : ref) self,
      heap example_world !! r = Some self ->
      exists self',
        heap example_world2 !! r = Some self' /\
        name self' = name self /\
        page_interval self' = page_interval self /\
        stream self' = stream self) /\
  (forall path,
      (forall (output : ref) self,
          output ∈ [0; 1; 2]%nat -> heap example_world !! output = Some self ->
          stream self <> path) ->
      fs example_world2 !! path = fs example_world !! path).
Proof.
  apply (generation_leaves_the_rest (reader_of [10; 20; 30]%nat) [0; 1; 2]%nat
           example_world (Raise (Exn OSError "No space left on device"))
           example_world2).
  vm_compute. reflexivity.
Defined.

Lemma generating_twice_writes_no_pages_witness :
  exists w1 w2 : @World nat,
    generate_output_files (reader_of [10; 20; 30]%nat) [0%nat] print_generated
      example_world = (Ok tt, w1) /\
    fs w1 !! "d/x.pdf" = Some (File (Some [10; 20]%nat)) /\
    generate_output_files (reader_of [10; 20; 30]%nat) [0%nat] print_generated
      w1 = (Ok tt, w2) /\
    fs w2 !! "d/x.pdf" = Some (File (Some [])) /\
    log w2 = log w1 ++ [Write "d/x.pdf" []] ++ [Print "Generated: x.pdf (1-2)"].
Proof.
  apply (generating_twice_writes_no_pages (reader_of [10; 20; 30]%nat) 0%nat
           print_generated
           (fun self => [Print ("Generated: " +:+ OutputFile_str self)])
           {| name := "x.pdf"; page_interval := (1, 2); current_page := 1;
              stream := "d/x.pdf" |}
           [10; 20]%nat example_world).
  - apply print_generated_logs_only.
  - reflexivity.
  - reflexivity.
  - repeat constructor.
  - intros err. by vm_compute.
Defined.

Lemma failed_copy_stays_on_page_witness :
  exists w' w'' : @World nat,
    generate_output_files damaged_reader (0 :: [2])%nat print_generated
      example_world
    = (Raise (Exn PdfReadError "Could not read page"), w') /\
    fs w' = fs example_world /\
    list_pages 0%nat w' = (Ok (seqZ 2 (2 - 2 + 1)), w'').
Proof.
  apply (failed_copy_stays_on_page damaged_reader 0%nat [2%nat] print_generated
           {| name := "x.pdf"; page_interval := (1, 2); current_page := 1;
              stream := "d/x.pdf" |}
           2 [10%nat] (Exn PdfReadError "Could not read page") example_world).
  - reflexivity.
  - cbn. lia.
  - repeat constructor.
  - reflexivity.
Defined.

Lemma main_directory_missing_witness :
  main (world_of [""; "1"] example_fs) =
  (Ok tt,
   {| stdin := ["1"]; fs := example_fs; heap := [];
      log := [] ++ banner
               ++ [Prompt "> "; Print "Directory '.' does not exist."] |}).
Proof.
  apply (main_directory_missing "" ["1"] (world_of [""; "1"] example_fs)).
  - reflexivity.
  - by vm_compute.
Defined.

Lemma main_no_pdf_files_witness :
  main (world_of ["docs"; "1"] plain_fs) =
  (Ok tt,
   {| stdin := ["1"]; fs := plain_fs; heap := [];
      log := [] ++ banner
               ++ [Prompt "> "; Print "No PDF files found in the directory."] |}).
Proof.
  apply (main_no_pdf_files "docs" ["1"] ["a.txt"; "pdf"]
           (world_of ["docs"; "1"] plain_fs)).
  - reflexivity.
  - by vm_compute.
  - repeat constructor.
Defined.

Lemma main_source_not_opened_witness :
  main (world_of ["d"; "3"; "2"; "1"] example_fs) =
  (Ok tt,
   {| stdin := ["1"]; fs := example_fs; heap := [];
      log := [] ++ banner ++ [Prompt "> "]
               ++ selection_log (pdf_entries ["a.PDF"; "b.txt"; "c.pdf"])
                    {| skipped := ["3"]; typed := "2" |}
               ++ [Print ((match example_fs !! os_path_join (typed_path "d") "c.pdf" with
                           | None => "File not found: "
                           | Some _ => "Error reading file: "
                           end) +:+ "c.pdf")] |}).
Proof.
  apply (main_source_not_opened "d" ["a.PDF"; "b.txt"; "c.pdf"]
           {| skipped := ["3"]; typed := "2" |} 2 "c.pdf" ["1"]
           (world_of ["d"; "3"; "2"; "1"] example_fs)).
  - reflexivity.
  - by vm_compute.
  - split; [all_rejected|]. split; [reflexivity | by vm_compute].
  - reflexivity.
  - left. by vm_compute.
Defined.

Lemma main_source_not_a_pdf_witness :
  exists e,
    exn_class_of e = PdfReadError /\
    main (world_of ["d"; "2"; "1"] mislabelled_fs) =
    (Raise e,
     {| stdin := ["1"]; fs := mislabelled_fs; heap := [];
        log := [] ++ banner ++ [Prompt "> "]
                 ++ selection_log (pdf_entries ["a.PDF"; "b.txt"; "c.pdf"])
                      {| skipped := []; typed := "2" |}
                 ++ [Open (os_path_join (typed_path "d") "c.pdf") "rb"] |}).
Proof.
  apply (main_source_not_a_pdf "d" ["a.PDF"; "b.txt"; "c.pdf"]
           {| skipped := []; typed := "2" |} 2 "c.pdf" ["1"]
           (world_of ["d"; "2"; "1"] mislabelled_fs)).
  - reflexivity.
  - by vm_compute.
  - split; [apply List.Forall_nil|]. split; [reflexivity | by vm_compute].
  - reflexivity.
  - by vm_compute.
Defined.

Lemma get_output_files_directory_in_the_way_witness :
  exists w' : @World nat,
    get_output_files "d" 3 blocked_world =
    (Raise (Exn IsADirectoryError "Is a directory: d/sub.pdf"), w') /\
    stdin w' = ["later"] /\
    heap w' =
    [ {| name := "x.pdf"; page_interval := (1, 2); current_page := 1;
         stream := "d/x.pdf" |} ] /\
    fs w' = <["d/x.pdf" := File None]> nested_fs.
Proof.
  destruct (get_output_files_directory_in_the_way "d" 3
              {| skipped := []; typed := "2" |} 2
              [ {| name_line := "x";
                   first_page := {| skipped := []; typed := "1" |};
                   start_page := 1;
                   last_page := {| skipped := []; typed := "2" |};
                   end_page := 2 |} ]
              {| name_line := "sub";
                 first_page := {| skipped := []; typed := "1" |};
                 start_page := 1;
                 last_page := {| skipped := []; typed := "1" |};
                 end_page := 1 |}
              [] ["later"] blocked_world)
    as (w' & Hrun & Hstdin & Hheap & Hfs).
  - reflexivity.
  - split; [apply List.Forall_nil|]. split; [reflexivity | cbn; lia].
  - cbn. lia.
  - repeat constructor; cbn; try lia; reflexivity.
  - repeat constructor; cbn; try lia; reflexivity.
  - repeat (apply List.Forall_cons; [can_create_in_d|]). apply List.Forall_nil.
  - reaches_d.
  - plain_name.
  - apply Nat.ltb_lt. vm_compute. reflexivity.
  - by vm_compute.
  - exists w'. split; [exact Hrun|]. split; [exact Hstdin|].
    rewrite Hheap, Hfs. split; vm_compute; reflexivity.
Defined.

Lemma main_splits_the_source_witness :
  exists w' : @World nat,
    main splitting_world = (Ok tt, w') /\
    stdin w' = ["later"] /\
    fs w' !! "d/x.pdf" = Some (File (Some [10; 20]%nat)) /\
    fs w' !! "d/y.pdf" = Some (File (Some [30]%nat)) /\
    fs w' !! "d/a.PDF" = Some (File (Some [10; 20; 30]%nat)).
Proof.
  destruct (main_splits_the_source "d" ["a.PDF"; "b.txt"; "c.pdf"]
              {| skipped := []; typed := "1" |} 1 "a.PDF" [10; 20; 30]%nat
              {| skipped := ["0"]; typed := "2" |}
              [ {| name_line := " x ";
                   first_page := {| skipped := []; typed := "1" |};
                   start_page := 1;
                   last_page := {| skipped := ["9"]; typed := "2" |};
                   end_page := 2 |};
                {| name_line := "y";
                   first_page := {| skipped := []; typed := "3" |};
                   start_page := 3;
                   last_page := {| skipped := []; typed := "3" |};
                   end_page := 3 |} ]
              ["later"] splitting_world)
    as (w' & Hmain & Hstdin & Hwritten & Hsource & _).
  - reflexivity.
  - by vm_compute.
  - split; [apply List.Forall_nil|]. split; [reflexivity | by vm_compute].
  - reflexivity.
  - plain_name.
  - by vm_compute.
  - split; [all_rejected|]. split; [reflexivity | cbn; lia].
  - repeat constructor; cbn; try lia; try reflexivity; all_rejected.
  - repeat (apply List.Forall_cons; [can_create_in_d|]). apply List.Forall_nil.
  - apply (bool_decide_unpack _). by vm_compute.
  - exists w'. split; [exact Hmain|]. split; [exact Hstdin|]. split; [|split].
    + apply (Hwritten _ (or_introl eq_refl)).
    + apply (Hwritten _ (or_intror (or_introl eq_refl))).
    + exact Hsource.
Defined.

(** ** Whole sessions *)

(** A session in which the second output cannot be written: the first
    output is generated, the second reads its pages and fails, and [main]
    prints one line for the failure and closes the source. *)
Example main_reports_write_error :
  fst (main session_world) = Ok tt /\
  log (snd (main session_world)) =
  [Print "PDF File Splitter";
   Print ("Enter the path to the directory containing the PDF files you want to split,"
            +:+ newline +:+ "or press enter to use the current directory.");
   Prompt "> ";
   Print (newline +:+ "Select a file to split:");
   Print "1. a.PDF"; Print "2. c.pdf"; Prompt "> ";
   Open "d/a.PDF" "rb"; Print "Selected file: a.PDF (3 pages)";
   Print (newline +:+ "How many output files do you want to create?");
   Prompt "> ";
   Print "--------------------------------"; Print "Output file 1:";
   Prompt "> File name: "; Prompt "> First page: "; Prompt "> Last page: ";
   Open "d/x.pdf" "wb";
   Print "--------------------------------"; Print "Output file 2:";
   Prompt "> File name: ";
   Prompt "> First page: "; Print "Please enter a number.";
   Prompt "> First page: "; Prompt "> Last page: ";
   Open "d/full.pdf" "wb";
   Print (newline +:+ "Generating output files...");
   GetPage 0; GetPage 1; Write "d/x.pdf" [10; 20]%nat;
   Print "Generated: x.pdf (1-2)";
   GetPage 1; GetPage 2;
   Print "Error reading file: a.PDF";
   Close "d/a.PDF"] /\
  fs (snd (main session_world)) !! "d/x.pdf" = Some (File (Some [10; 20]%nat)).
Proof. vm_compute. done. Qed.

(** A session that names a regular file as the directory ends in
    [NotADirectoryError]; one that names a missing path is told that the
    directory does not exist. *)
Example main_on_a_regular_file :
  fst (main (world_of ["notes.txt"] example_fs)) =
  Raise (Exn NotADirectoryError "Not a directory: notes.txt") /\
  main (world_of ["nowhere"] example_fs) =
  (Ok tt,
   {| stdin := []; fs := example_fs; heap := [];
      log := [Print "PDF File Splitter";
              Print ("Enter the path to the directory containing the PDF files you want to split,"
                       +:+ newline +:+ "or press enter to use the current directory.");
              Prompt "> ";
              Print "Directory 'nowhere' does not exist."] |}).
Proof. vm_compute. done. Qed.
